(** * The InfluxDB monitor handler of rl_framework/monitor/loglib

    A shallow embedding of [influxdb_handler.py]: the value normalizer
    [_to_builtin], the record filter, the two point formatters, the writer
    with its retry loop and the queue-backed handler, followed by the
    properties proved about them. *)

From Stdlib Require Import ZArith List String Ascii Bool Lia PrimFloat DecimalString.
Import ListNotations.

Set Warnings "-register-all,-inexact-float".

Local Open Scope string_scope.
Local Open Scope list_scope.

(** ** Python values *)

(** What [item()] returns for a numeric numpy scalar or for one element
    of a numeric array: a builtin bool, int or float of the same value. *)
Inductive scalar : Type :=
| SBool (b : bool)
| SInt (z : Z)
| SFloat (f : float).

(** A [numpy.ndarray] of numbers: zero-dimensional ([Nd0]) or a row of
    sub-arrays ([NdN]); a one-dimensional array is [NdN [Nd0 x1; ...]]. *)
Inductive ndarray : Type :=
| Nd0 (x : scalar)
| NdN (rows : list ndarray).

(** Exceptions, all subclasses of [Exception]. *)
Inductive exn : Type :=
| AttributeError (what : string)
| TypeError (what : string)
| ValueError (what : string)
| SyntaxError (what : string)
| RecursionError (what : string)
| OSError (what : string)
| Full
| OtherError (what : string).

(** What the class of a sequence does when it is called on one generator,
    as line 26 calls it.  [FromIterable]: it reads the generator and holds
    its items, as list, tuple, collections.deque and UserList do.
    [Refuses e]: it raises [e] before it reads anything, as range, a
    namedtuple of two fields, array.array and memoryview do.
    [Keeps generator]: it stores the generator itself, unread, as a
    namedtuple of one field does; [generator] is the generator's
    [str()]. *)
Inductive construct : Type :=
| FromIterable
| Refuses (e : exn)
| Keeps (generator : string).

(** The values a log call can carry.  The numbers are bool, int and float
    (binary64) and, as [VNumber], any other [numbers.Number] (complex,
    Decimal, Fraction), known by its [str()] and [bool()].  A dict keeps
    its items in insertion order, keyed by strings.  The sequences are
    list, tuple and, as [VSequence], a [collections.abc.Sequence] of any
    other class but str, bytes and bytearray, with the name of the class,
    what the class does when called on a generator, and the items.
    [VGeneric] is a numpy scalar of a boolean, integer or floating kind of
    at most 64 bits; [VGenericOther] is a numpy scalar of another kind,
    known by its [str()], its [bool()] and what [item()] returns: a
    complex for complex128, a str for str_, a bytes for bytes_, a date,
    datetime, timedelta or int for datetime64 and timedelta64, and the
    scalar itself ([None] here) for longdouble.  [VNdarray] is a numpy
    array of numbers.  [VOther] stands for an object of any other class
    (bytes, bytearray, set, Ellipsis, a user class, ...); all the code asks
    of it is [str()], [bool()] and the method [pop], so it is known by the
    name of its class and those two results. *)
Inductive pyval : Type :=
| VNone
| VBool (b : bool)
| VInt (z : Z)
| VFloat (f : float)
| VNumber (text : string) (truth : bool)
| VStr (s : string)
| VDict (items : list (string * pyval))
| VList (xs : list pyval)
| VTuple (xs : list pyval)
| VSequence (cls : string) (how : construct) (xs : list pyval)
| VGeneric (x : scalar)
| VGenericOther (text : string) (truth : bool) (got : option pyval)
| VNdarray (a : ndarray)
| VOther (cls : string) (text : string) (truth : bool).

Definition dict := list (string * pyval).

(** A call returns or raises. *)
Inductive result (A : Type) : Type :=
| Ok (a : A)
| Raise (e : exn).

Arguments Ok {A} a.
Arguments Raise {A} e.

Definition bind {A B : Type} (c : result A) (k : A -> result B) : result B :=
  match c with
  | Ok a => k a
  | Raise e => Raise e
  end.

Notation "x <- c ;; k" := (bind c (fun x => k))
  (at level 61, c at next level, right associativity).

(** A comprehension or a generator read to its end: the items in order,
    and the first exception ends it. *)
Section Traverse.

Context {A B : Type} (f : A -> result B).

Fixpoint traverse (xs : list A) : result (list B) :=
  match xs with
  | [] => Ok []
  | x :: xs' => y <- f x ;; ys <- traverse xs' ;; Ok (y :: ys)
  end.

End Traverse.

(** ** numpy conversions *)

Definition item (x : scalar) : pyval :=
  match x with
  | SBool b => VBool b
  | SInt z => VInt z
  | SFloat f => VFloat f
  end.

(** [ndarray.tolist()]: nested lists, one level per dimension; the bare
    scalar for a zero-dimensional array. *)
Fixpoint tolist (a : ndarray) : pyval :=
  match a with
  | Nd0 x => item x
  | NdN rows => VList (map tolist rows)
  end.

(** The elements of an array in row-major order. *)
Fixpoint nd_elements (a : ndarray) : list scalar :=
  match a with
  | Nd0 x => [x]
  | NdN rows => flat_map nd_elements rows
  end.

(** ** _to_builtin (lines 14-31) *)

(** The tests in the order of the source.  A numpy scalar gives its
    [item()], which is not converted further.  A number, str, bool or None
    is returned as it is.  A dict is rebuilt with its keys and the
    converted values.  A sequence that is not a str, bytes or bytearray is
    handed, as a generator of its converted items, to its own class: list
    and tuple rebuild themselves, another class does what [construct]
    says, and an exception of the class or of an item's conversion is
    raised to the caller.  An array gives its [tolist()]; any other object
    gives its [str()]. *)
Fixpoint _to_builtin (obj : pyval) : result pyval :=
  match obj with
  | VGeneric x => Ok (item x)
  | VGenericOther _ _ got =>
      Ok (match got with Some v => v | None => obj end)
  | VNone | VBool _ | VInt _ | VFloat _ | VNumber _ _ | VStr _ => Ok obj
  | VDict items =>
      items' <- traverse (fun kv => let '(k, v) := kv in
                                    v' <- _to_builtin v ;; Ok (k, v')) items ;;
      Ok (VDict items')
  | VList xs => xs' <- traverse _to_builtin xs ;; Ok (VList xs')
  | VTuple xs => xs' <- traverse _to_builtin xs ;; Ok (VTuple xs')
  | VSequence cls FromIterable xs =>
      xs' <- traverse _to_builtin xs ;; Ok (VSequence cls FromIterable xs')
  | VSequence cls (Refuses e) xs => Raise e
  | VSequence cls (Keeps generator) xs =>
      Ok (VSequence cls (Keeps generator) [VOther "generator" generator true])
  | VNdarray a => Ok (tolist a)
  | VOther _ text _ => Ok (VStr text)
  end.

(** ** Builtins: str() and bool() *)

(** A dict in insertion order.  A Python dict holds one item per key;
    [dict_del] drops every item under the key, so the key is absent
    afterwards whatever the list. *)
Fixpoint dict_get (k : string) (d : dict) : option pyval :=
  match d with
  | [] => None
  | (k', v) :: d' => if k' =? k then Some v else dict_get k d'
  end.

Definition dict_keys (d : dict) : list string := map fst d.

Definition dict_has (k : string) (d : dict) : bool :=
  existsb (String.eqb k) (dict_keys d).

(** [d[k] = v]: a present key keeps its place, a new one goes last. *)
Fixpoint dict_set (k : string) (v : pyval) (d : dict) : dict :=
  match d with
  | [] => [(k, v)]
  | (k', v') :: d' =>
      if k' =? k then (k, v) :: d' else (k', v') :: dict_set k v d'
  end.

Definition dict_del (k : string) (d : dict) : dict :=
  List.filter (fun kv => negb (fst kv =? k)) d.

(** [d.pop(k, None)]: the value (None when absent) and the dict left. *)
Definition dict_pop (k : string) (d : dict) : pyval * dict :=
  (match dict_get k d with Some v => v | None => VNone end, dict_del k d).

Definition is_dict (v : pyval) : bool :=
  match v with
  | VDict _ => true
  | _ => false
  end.

(** [v is None]. *)
Definition is_none (v : pyval) : bool :=
  match v with
  | VNone => true
  | _ => false
  end.

Definition scalar_truth (x : scalar) : bool :=
  match x with
  | SBool b => b
  | SInt z => negb (z =? 0)%Z
  | SFloat f => negb (PrimFloat.eqb f 0%float)
  end.

(** [bool(v)], as an [if v:] takes it.  An array of one element has that
    element's truth; numpy raises for the others (an empty array was
    False, with a deprecation warning, before NumPy 2.2). *)
Definition truthy (v : pyval) : result bool :=
  match v with
  | VNone => Ok false
  | VBool b => Ok b
  | VInt z => Ok (negb (z =? 0)%Z)
  | VFloat f => Ok (negb (PrimFloat.eqb f 0%float))
  | VNumber _ truth => Ok truth
  | VStr s => Ok (negb (s =? ""))
  | VDict items => Ok (negb (List.length items =? 0)%nat)
  | VList xs | VTuple xs | VSequence _ _ xs => Ok (negb (List.length xs =? 0)%nat)
  | VGeneric x => Ok (scalar_truth x)
  | VGenericOther _ truth _ => Ok truth
  | VNdarray a =>
      match nd_elements a with
      | [x] => Ok (scalar_truth x)
      | _ => Raise (ValueError "The truth value of an array is ambiguous")
      end
  | VOther _ _ truth => Ok truth
  end.

(** A point as [write_points] takes it: the formatter's [_json_body], a
    dict with the keys measurement, tags and, once a record was formatted,
    fields. *)
Record json_body : Type := {
  measurement : string;
  tags : dict;
  fields : option pyval
}.

(** How deep the containers of a value are nested. *)
Fixpoint depth (v : pyval) : nat :=
  match v with
  | VDict items => S (fold_right Nat.max 0 (map (fun kv => depth (snd kv)) items))
  | VList xs | VTuple xs | VSequence _ _ xs => S (fold_right Nat.max 0 (map depth xs))
  | _ => 0
  end.

(** What the code calls and the repository does not define:
    [ast.literal_eval]; [repr] for the values whose text CPython and numpy
    compute (floats, containers, numpy values), when it returns; the [%]
    of a text and its arguments; [InfluxDBClient.write_points] on the
    client with the given serial number, which answers for the remote
    store; how many containers inside one another the interpreter can
    still follow where a producer logs, before it raises RecursionError;
    and what [Handler.handleError] depends on: the flag
    [logging.raiseExceptions], [sys.stderr] (when it is set, what its
    [write] does), and the texts [traceback.print_exception] and
    [traceback.print_stack] write for an exception and for the stack of a
    record's log call. *)
Class Runtime : Type := {
  literal_eval : string -> result pyval;
  repr : pyval -> string;
  str_mod : string -> pyval -> result string;
  write_points : nat -> json_body -> result unit;
  recursion_limit : nat;
  raiseExceptions : bool;
  stderr : option (string -> result unit);
  print_exception : exn -> string;
  print_stack : string
}.

(** [str(v)], when it returns. *)
Definition py_str {rt : Runtime} (v : pyval) : string :=
  match v with
  | VNone => "None"
  | VBool true => "True"
  | VBool false => "False"
  | VInt z => NilZero.string_of_int (Z.to_int z)
  | VStr s => s
  | VNumber text _ | VGenericOther text _ _ | VOther _ text _ => text
  | VFloat _ | VDict _ | VList _ | VTuple _ | VSequence _ _ _ | VGeneric _
  | VNdarray _ => repr v
  end.

(** [str.isspace] on the ASCII range, and [str.strip()]. *)
Definition isspace (c : ascii) : bool :=
  let n := nat_of_ascii c in
  ((9 <=? n) && (n <=? 13) || (28 <=? n) && (n <=? 32))%nat.

Fixpoint lstrip (s : string) : string :=
  match s with
  | EmptyString => EmptyString
  | String c s' => if isspace c then lstrip s' else s
  end.

Fixpoint rstrip (s : string) : string :=
  match s with
  | EmptyString => EmptyString
  | String c s' =>
      match rstrip s' with
      | EmptyString => if isspace c then EmptyString else String c EmptyString
      | r => String c r
      end
  end.

Definition strip (s : string) : string := rstrip (lstrip s).

Definition newline : string := String "010"%char EmptyString.

(** ** The logging module's part *)

(** A [logging.LogRecord]: the logger's name, the message object, the
    arguments it was logged with, and what a log call with [exc_info] or
    [stack_info] adds.  An exception information is known by the text
    [Formatter.formatException] makes of it; [exc_text] is that text once
    a formatter has cached it. *)
Record LogRecord : Type := {
  name : string;
  msg : pyval;
  args : pyval;
  exc_info : option string;
  exc_text : option string;
  stack_info : option string
}.

(** [LogRecord.getMessage]: [str(self.msg)], which raises RecursionError
    for a message nested deeper than the interpreter can follow, then [%]
    with the arguments when there are any. *)
Definition getMessage {rt : Runtime} (record : LogRecord) : result string :=
  text <- (if (recursion_limit <? depth (msg record))%nat
           then Raise (RecursionError
                         "maximum recursion depth exceeded while getting the repr of an object")
           else Ok (py_str (msg record))) ;;
  has_args <- truthy (args record) ;;
  if has_args then str_mod text (args record) else Ok text.

(** [ast.literal_eval(record.getMessage())] (lines 70 and 85). *)
Definition read_literal {rt : Runtime} (record : LogRecord) : result pyval :=
  text <- getMessage record ;;
  literal_eval text.

Record Queue : Type := {
  maxsize : Z;
  items : list LogRecord
}.

(** What a handler leaves on the console, its calls on the client, and
    its calls of [handleError] with the exception being handled. *)
Inductive event : Type :=
| PrintEmit (ip port database : string) (meas : string) (tag_set : dict)
    (field_keys : list string)
| WritePoints (client : nat) (point : json_body)
| PrintError (e : exn)
| CloseClient (client : nat)
| CreateClient (client : nat)
| HandleError (e : exn).

Module logging.

(** [logging.Filter.filter] for a filter named [filter_name]. *)
Definition Filter_filter (filter_name : string) (record : LogRecord) : bool :=
  let nlen := String.length filter_name in
  if (nlen =? 0)%nat then true
  else if filter_name =? name record then true
  else if negb (String.prefix filter_name (name record)) then false
  else
    match String.get nlen (name record) with
    | Some c => Ascii.eqb c "."%char
    | None => false
    end.

(** [Queue.put_nowait]: a queue of positive [maxsize] that holds that many
    items raises [Full]; any other [maxsize] means no bound. *)
Definition Queue_put_nowait (q : Queue) (item : LogRecord) : result Queue :=
  if ((0 <? maxsize q) && (maxsize q <=? Z.of_nat (List.length (items q))))%Z
  then Raise Full
  else Ok {| maxsize := maxsize q; items := items q ++ [item] |}.

(** [s[-1:] == "\n"]. *)
Fixpoint ends_with_newline (s : string) : bool :=
  match s with
  | EmptyString => false
  | String c EmptyString => Ascii.eqb c "010"%char
  | String _ s' => ends_with_newline s'
  end.

(** [if s[-1:] != "\n": s = s + "\n"], then [s = s + text]. *)
Definition add_text (s text : string) : string :=
  ((if ends_with_newline s then s else s ++ newline) ++ text)%string.

(** A text attribute that is neither None nor empty. *)
Definition has_text (t : option string) : bool :=
  match t with
  | Some text => negb (text =? "")
  | None => false
  end.

(** [Formatter.format] of the default formatter, whose format is
    [%(message)s]: the message, then the exception text (made from
    [exc_info] unless the record has one cached), then the stack
    information, each on a line of its own. *)
Definition Formatter_format {rt : Runtime} (record : LogRecord) : result string :=
  s <- getMessage record ;;
  let exc_text :=
    match exc_info record with
    | Some info => if has_text (exc_text record) then exc_text record else Some info
    | None => exc_text record
    end in
  let s := match exc_text with
           | Some text => if text =? "" then s else add_text s text
           | None => s
           end in
  let s := match stack_info record with
           | Some text => if text =? "" then s else add_text s text
           | None => s
           end in
  Ok s.

(** [QueueHandler.prepare]: the text the handler's formatter, the default
    one, makes of the record; the record is copied with that text as its
    message and with its arguments, exception and stack information set to
    None. *)
Definition QueueHandler_prepare {rt : Runtime} (record : LogRecord)
  : result LogRecord :=
  text <- Formatter_format record ;;
  Ok {| name := name record; msg := VStr text; args := VNone;
        exc_info := None; exc_text := None; stack_info := None |}.

(** The text [Handler.handleError] makes of a record. *)
Definition report_format : string :=
  ("Message: %r" ++ newline ++ "Arguments: %s" ++ newline)%string.

(** [Handler.handleError] for the exception [e] being handled.  Nothing
    happens unless [raiseExceptions] and [sys.stderr] are set.  The
    traceback and the call stack are written to [sys.stderr], then the
    message and the arguments; a RecursionError of that last step is
    raised again, any other exception of it is replaced by a notice; an
    OSError of the whole is swallowed and any other exception is raised to
    the caller. *)
Definition Handler_handleError {rt : Runtime} (record : LogRecord) (e : exn)
  : result unit :=
  if raiseExceptions then
    match stderr with
    | None => Ok tt
    | Some write =>
        match (_ <- write ("--- Logging error ---" ++ newline)%string ;;
               _ <- write (print_exception e) ;;
               _ <- write ("Call stack:" ++ newline)%string ;;
               _ <- write print_stack ;;
               match (text <- str_mod report_format
                                (VTuple [msg record; args record]) ;;
                      write text) with
               | Ok _ => Ok tt
               | Raise (RecursionError what) => Raise (RecursionError what)
               | Raise _ =>
                   write ("Unable to print the message and arguments"
                          ++ " - possible formatting error." ++ newline
                          ++ "Use the traceback above to help find the error."
                          ++ newline)%string
               end) with
        | Raise (OSError _) => Ok tt
        | r => r
        end
    end
  else Ok tt.

(** [QueueHandler.emit]: enqueue the prepared record; an exception goes
    to [Handler.handleError], and what that raises goes to the caller. *)
Definition QueueHandler_emit {rt : Runtime} (q : Queue) (record : LogRecord)
  : Queue * list event * result unit :=
  match (prepared <- QueueHandler_prepare record ;;
         Queue_put_nowait q prepared) with
  | Ok q' => (q', [], Ok tt)
  | Raise e => (q, [HandleError e], Handler_handleError record e)
  end.

(** [Handler.handle] on a [QueueHandler] with the filters [filters]:
    [emit] is called when every filter accepts the record. *)
Definition QueueHandler_handle {rt : Runtime} (filters : list (LogRecord -> bool))
  (q : Queue) (record : LogRecord) : Queue * list event * result unit :=
  if forallb (fun f => f record) filters then QueueHandler_emit q record
  else (q, [], Ok tt).

End logging.

(** ** InfluxdbMonitorFilter (lines 33-41) *)

Module InfluxdbMonitorFilter.

(** Constructed with no name, so the base filter's name is empty. *)
Definition filter (record : LogRecord) : bool :=
  if is_dict (msg record) then logging.Filter_filter "" record else false.

End InfluxdbMonitorFilter.

(** ** InfluxdbMonitorFormatter (lines 43-76) *)

(** What [subprocess.run] returned. *)
Record CompletedProcess : Type := {
  returncode : Z;
  stdout : string
}.

Module InfluxdbMonitorFormatter.

Definition is_gpu (nvidia_smi : CompletedProcess) : bool :=
  (returncode nvidia_smi =? 0)%Z && negb (stdout nvidia_smi =? "").

(** The constructor, given the results of its two commands. *)
Definition __init__ (nvidia_smi hostname : CompletedProcess) : json_body :=
  {| measurement := if is_gpu nvidia_smi then "gpu_ip_info" else "cpu_ip_info";
     tags := [("ip_port", VStr (strip (stdout hostname)));
              ("type", VStr (if is_gpu nvidia_smi then "gpu" else "cpu"))];
     fields := None |}.

(** [format] returns [self._json_body] itself, so the new state of the
    formatter is the point returned; it raises before changing it. *)
Definition format {rt : Runtime} (self : json_body) (record : LogRecord)
  : result json_body :=
  msg_dict <- match msg record with
              | VDict d => Ok (VDict d)
              | _ => read_literal record
              end ;;
  msg_dict <- _to_builtin msg_dict ;;
  Ok {| measurement := measurement self;
        tags := tags self;
        fields := Some msg_dict |}.

End InfluxdbMonitorFormatter.

(** ** ActorMetricsFormatter (lines 78-94) *)

Module ActorMetricsFormatter.

Definition __init__ (nvidia_smi hostname : CompletedProcess) : json_body :=
  let self := InfluxdbMonitorFormatter.__init__ nvidia_smi hostname in
  {| measurement := "actor_metrics";
     tags := tags self;
     fields := fields self |}.

(** The classes, beside list, whose [pop] takes one argument at most,
    and those whose [pop] takes none. *)
Definition pops_one (cls : string) : bool :=
  existsb (String.eqb cls) ["bytearray"; "array"].

Definition pops_none (cls : string) : bool :=
  existsb (String.eqb cls) ["set"; "deque"].

(** [msg_dict.pop("role", None)] on a value that is no dict: a list, a
    bytearray, an array, a set or a deque has a [pop] that refuses the
    second argument, the other values have no [pop]. *)
Definition pop_error (v : pyval) : exn :=
  match v with
  | VList _ => TypeError "pop expected at most 1 argument, got 2"
  | VSequence cls _ _ | VOther cls _ _ =>
      if pops_one cls then TypeError "pop expected at most 1 argument, got 2"
      else if pops_none cls
           then TypeError (cls ++ ".pop() takes no arguments (2 given)")%string
           else AttributeError "pop"
  | _ => AttributeError "pop"
  end.

Definition format {rt : Runtime} (self : json_body) (record : LogRecord)
  : result json_body :=
  msg_dict <- read_literal record ;;
  match msg_dict with
  | VDict d =>
      let '(role, d) := dict_pop "role" d in
      let '(actor_id, d) := dict_pop "actor_id" d in
      has_role <- truthy role ;;
      let tags1 := if has_role then dict_set "role" role (tags self)
                   else tags self in
      let tags2 := if is_none actor_id then tags1
                   else dict_set "actor_id" (VStr (py_str actor_id)) tags1 in
      Ok {| measurement := measurement self;
            tags := tags2;
            fields := Some (VDict d) |}
  | other => Raise (pop_error other)
  end.

End ActorMetricsFormatter.

(** ** InfluxdbMonitorHandlerInner (lines 96-129) *)

(** The formatter set on a handler, with its [_json_body]: the general
    one (line 146) or the actor-metrics one. *)
Inductive Formatter : Type :=
| General (self : json_body)
| ActorMetrics (self : json_body).

Module InfluxdbMonitorHandlerInner.

(** [_client] is the serial number of the client object in use: 0 for the
    one the constructor made, one more at each re-creation. *)
Record t : Type := {
  _ip : string;
  _port : string;
  _database : string;
  _client : nat;
  formatter : Formatter
}.

(** [Handler.format]: the formatter's [format]; the point it returns and
    the formatter as the call left it. *)
Definition format {rt : Runtime} (self : t) (record : LogRecord)
  : result (json_body * t) :=
  match formatter self with
  | General body =>
      point <- InfluxdbMonitorFormatter.format body record ;;
      Ok (point, {| _ip := _ip self; _port := _port self;
                    _database := _database self; _client := _client self;
                    formatter := General point |})
  | ActorMetrics body =>
      point <- ActorMetricsFormatter.format body record ;;
      Ok (point, {| _ip := _ip self; _port := _port self;
                    _database := _database self; _client := _client self;
                    formatter := ActorMetrics point |})
  end.

(** [list(msg.get("fields", {}).keys())]. *)
Definition field_keys (point : json_body) : result (list string) :=
  match fields point with
  | None => Ok []
  | Some (VDict d) => Ok (dict_keys d)
  | Some _ => Raise (AttributeError "keys")
  end.

(** The body of the [try] (lines 115-123). *)
Definition attempt {rt : Runtime} (self : t) (record : LogRecord)
  : t * list event * result unit :=
  match format self record with
  | Raise e => (self, [], Raise e)
  | Ok (point, self1) =>
      match field_keys point with
      | Raise e => (self1, [], Raise e)
      | Ok keys =>
          (self1,
           [PrintEmit (_ip self) (_port self) (_database self)
              (measurement point) (tags point) keys;
            WritePoints (_client self1) point],
           write_points (_client self1) point)
      end
  end.

(** The [except] branch (lines 127-129). *)
Definition reconnect (self : t) (e : exn) : t * list event :=
  ({| _ip := _ip self; _port := _port self; _database := _database self;
      _client := S (_client self); formatter := formatter self |},
   [PrintError e; CloseClient (_client self); CreateClient (S (_client self))]).

(** [for _ in range(n)] around the [try]: leave at the first attempt that
    returns. *)
Fixpoint attempts {rt : Runtime} (n : nat) (self : t) (record : LogRecord)
  : t * list event :=
  match n with
  | O => (self, [])
  | S n' =>
      let '(self1, out1, r) := attempt self record in
      match r with
      | Ok _ => (self1, out1)
      | Raise e =>
          let '(self2, out2) := reconnect self1 e in
          let '(self3, out3) := attempts n' self2 record in
          (self3, out1 ++ out2 ++ out3)
      end
  end.

(** [emit] has no return statement: once the loop is over it returns
    None. *)
Definition emit {rt : Runtime} (self : t) (record : LogRecord)
  : t * list event * result unit :=
  let '(self', out) := attempts 2 self record in
  (self', out, Ok tt).

End InfluxdbMonitorHandlerInner.

(** ** InfluxdbMonitorHandler (lines 132-163) *)

Module InfluxdbMonitorHandler.

(** The queue shared by the queue handler and the listener, and the inner
    handler the listener feeds. *)
Record t : Type := {
  _queue : Queue;
  _handler : InfluxdbMonitorHandlerInner.t
}.

(** What [_get_config] reads from loglib.conf. *)
Record Config : Type := {
  queue_size : Z;
  port : string;
  database : string
}.

(** The constructor, given the configuration and the results of the
    formatter's two commands: the queue of [queue_size], the inner handler
    on a first client, and the general formatter set on it. *)
Definition __init__ (config : Config) (ip : string)
  (port_arg database_arg : option string)
  (nvidia_smi hostname : CompletedProcess) : t :=
  {| _queue := {| maxsize := queue_size config; items := [] |};
     _handler :=
       {| InfluxdbMonitorHandlerInner._ip := ip;
          InfluxdbMonitorHandlerInner._port :=
            match port_arg with Some p => p | None => port config end;
          InfluxdbMonitorHandlerInner._database :=
            match database_arg with Some d => d | None => database config end;
          InfluxdbMonitorHandlerInner._client := 0;
          InfluxdbMonitorHandlerInner.formatter :=
            General (InfluxdbMonitorFormatter.__init__ nvidia_smi hostname) |} |}.

(** [emit] is [self._queue_handler.handle(record)], on the queue handler
    that got the filter at line 151; what [handle] returns is dropped and
    what it raises is raised. *)
Definition emit {rt : Runtime} (self : t) (record : LogRecord)
  : t * list event * result unit :=
  let '(q, out, r) :=
    logging.QueueHandler_handle [InfluxdbMonitorFilter.filter] (_queue self) record in
  ({| _queue := q; _handler := _handler self |}, out, r).

(** One turn of the [QueueListener] thread started at line 154: take the
    oldest record and hand it to the inner handler; with an empty queue
    the thread stays blocked. *)
Definition listen {rt : Runtime} (self : t) : t * list event :=
  match items (_queue self) with
  | [] => (self, [])
  | record :: rest =>
      let '(h, out, _) := InfluxdbMonitorHandlerInner.emit (_handler self) record in
      ({| _queue := {| maxsize := maxsize (_queue self); items := rest |};
          _handler := h |}, out)
  end.

End InfluxdbMonitorHandler.

(** ** Vocabulary of the statements *)

(** The formatter after it formatted the records of [history], oldest
    first; a call that raised left it as it was. *)
Fixpoint after_formats (format : json_body -> LogRecord -> result json_body)
  (self : json_body) (history : list LogRecord) : json_body :=
  match history with
  | [] => self
  | record :: history' =>
      after_formats format
        (match format self record with Ok point => point | Raise _ => self end)
        history'
  end.

(** The general formatter finds the dict [d] in the record (lines 66-70):
    it is the message, as in a record handed over as logged, or what the
    message text evaluates to, as in a record that went through the
    queue. *)
Definition reads_dict {rt : Runtime} (record : LogRecord) (d : dict) : Prop :=
  msg record = VDict d \/
  (is_dict (msg record) = false /\ read_literal record = Ok (VDict d)).

(** The keys of a point's fields. *)
Definition point_field_keys (point : json_body) : list string :=
  match fields point with
  | Some (VDict d) => dict_keys d
  | _ => []
  end.

(** The value found by going down nested dicts along [path]. *)
Fixpoint lookup_path (path : list string) (v : pyval) : option pyval :=
  match path with
  | [] => Some v
  | k :: path' =>
      match v with
      | VDict d =>
          match dict_get k d with
          | Some v' => lookup_path path' v'
          | None => None
          end
      | _ => None
      end
  end.


(** Every sequence that [_to_builtin] meets in the value, going down
    dicts and sequences, is a list, a tuple or of a class that reads the
    iterable it is called on. *)
Fixpoint rebuilds (v : pyval) : bool :=
  match v with
  | VDict items => forallb (fun kv => rebuilds (snd kv)) items
  | VList xs | VTuple xs | VSequence _ FromIterable xs => forallb rebuilds xs
  | VSequence _ (Refuses _) _ | VSequence _ (Keeps _) _ => false
  | _ => true
  end.


Definition is_number (v : pyval) : bool :=
  match v with
  | VBool _ | VInt _ | VFloat _ => true
  | _ => false
  end.

(** A list or tuple whose elements are all plain numbers. *)
Definition number_sequence (v : pyval) : bool :=
  match v with
  | VList xs | VTuple xs => forallb is_number xs
  | _ => false
  end.

(** The values at the leaves of nested lists, left to right. *)
Fixpoint leaves (v : pyval) : list pyval :=
  match v with
  | VList xs => flat_map leaves xs
  | _ => [v]
  end.

Definition is_write (e : event) : bool :=
  match e with
  | WritePoints _ _ => true
  | _ => false
  end.

(** The calls of [write_points] in a trace. *)
Definition writes (out : list event) : list event := List.filter is_write out.

(** The exceptions the [except] branch printed, in order. *)
Fixpoint printed_errors (out : list event) : list exn :=
  match out with
  | [] => []
  | PrintError e :: out' => e :: printed_errors out'
  | _ :: out' => printed_errors out'
  end.

(** The store never takes a write, on any client. *)
Definition always_fails {rt : Runtime} : Prop :=
  forall client point, exists e, write_points client point = Raise e.

(** What the threads do to a handler, in the order it happens: a producer
    logs a record, or the listener takes its turn. *)
Inductive action : Type :=
| Log (record : LogRecord)
| Listen.

(** The handler after a run, and what each [Log] of it gave its caller. *)
Fixpoint run {rt : Runtime} (self : InfluxdbMonitorHandler.t) (acts : list action)
  : InfluxdbMonitorHandler.t * list (result unit) :=
  match acts with
  | [] => (self, [])
  | Log record :: acts' =>
      let '(self', _, r) := InfluxdbMonitorHandler.emit self record in
      let '(self'', rs) := run self' acts' in
      (self'', r :: rs)
  | Listen :: acts' =>
      let '(self', _) := InfluxdbMonitorHandler.listen self in
      run self' acts'
  end.

(** A queue with a bound holds no more items than the bound. *)
Definition within_bound (q : Queue) : Prop :=
  (0 < maxsize q)%Z -> (Z.of_nat (List.length (items q)) <= maxsize q)%Z.

(** ** A runtime for the examples *)

(** [ast.literal_eval] on the message texts the examples use. *)
Definition example_literal_eval (text : string) : result pyval :=
  if text =? "{}" then Ok (VDict [])
  else if text =? "{'loss': 0.2}" then Ok (VDict [("loss", VFloat 0.2)])
  else if text =? "{'type': 'x'}" then Ok (VDict [("type", VStr "x")])
  else if text =? "{'role': 'attacker', 'actor_id': 7, 'reward': 1.5}" then
    Ok (VDict [("role", VStr "attacker"); ("actor_id", VInt 7);
               ("reward", VFloat 1.5)])
  else if text =? "{'role': '', 'reward': 1.5}" then
    Ok (VDict [("role", VStr ""); ("reward", VFloat 1.5)])
  else if text =? "{'reward': 2.5}" then Ok (VDict [("reward", VFloat 2.5)])
  else if text =? "[1, 2]" then Ok (VList [VInt 1; VInt 2])
  else if text =? "{1, 2}" then Ok (VOther "set" "{1, 2}" true)
  else Raise (SyntaxError text).

(** [repr] of the one container the examples send through the queue. *)
Definition example_repr (v : pyval) : string :=
  match v with
  | VDict [] => "{}"
  | _ => "<repr>"
  end.

(** The default of [sys.getrecursionlimit()]. *)
Definition default_recursion_limit : nat := 1000.

(** [text % args].  For the text of [handleError], which prints the
    [repr] of both arguments: a RecursionError when they are nested deeper
    than the interpreter can follow.  For a text with no conversion in it:
    the text for a mapping, a TypeError for anything else. *)
Definition example_str_mod (text : string) (args : pyval) : result string :=
  if text =? logging.report_format then
    if (default_recursion_limit <? depth args)%nat
    then Raise (RecursionError
                  "maximum recursion depth exceeded while getting the repr of an object")
    else
      match args with
      | VTuple [m; a] =>
          Ok ("Message: " ++ example_repr m ++ newline
              ++ "Arguments: " ++ example_repr a ++ newline)%string
      | _ => Raise (TypeError "not enough arguments for format string")
      end
  else
    match args with
    | VDict _ => Ok text
    | _ => Raise (TypeError "not all arguments converted during string formatting")
    end.

(** A [sys.stderr] that takes every write, and one that was closed. *)
Definition stderr_open (text : string) : result unit := Ok tt.

Definition stderr_closed (text : string) : result unit :=
  Raise (ValueError "I/O operation on closed file.").

Definition example_runtime (sink : nat -> json_body -> result unit) : Runtime :=
  {| literal_eval := example_literal_eval;
     repr := example_repr;
     str_mod := example_str_mod;
     write_points := sink;
     recursion_limit := default_recursion_limit;
     raiseExceptions := true;
     stderr := Some stderr_open;
     print_exception :=
       fun _ => ("Traceback (most recent call last):" ++ newline)%string;
     print_stack := "" |}.

(** The same with [logging.raiseExceptions] set to False, as a program in
    production sets it, and with a [sys.stderr] that was closed. *)
Definition quiet_runtime (sink : nat -> json_body -> result unit) : Runtime :=
  {| literal_eval := example_literal_eval;
     repr := example_repr;
     str_mod := example_str_mod;
     write_points := sink;
     recursion_limit := default_recursion_limit;
     raiseExceptions := false;
     stderr := Some stderr_open;
     print_exception :=
       fun _ => ("Traceback (most recent call last):" ++ newline)%string;
     print_stack := "" |}.

Definition closed_stderr_runtime (sink : nat -> json_body -> result unit) : Runtime :=
  {| literal_eval := example_literal_eval;
     repr := example_repr;
     str_mod := example_str_mod;
     write_points := sink;
     recursion_limit := default_recursion_limit;
     raiseExceptions := true;
     stderr := Some stderr_closed;
     print_exception :=
       fun _ => ("Traceback (most recent call last):" ++ newline)%string;
     print_stack := "" |}.

(** A store that takes every write, one that takes none, and one that
    only a re-created client reaches. *)
Definition sink_up (client : nat) (point : json_body) : result unit := Ok tt.

Definition sink_down (client : nat) (point : json_body) : result unit :=
  Raise (OtherError "connection refused").

Definition sink_stale (client : nat) (point : json_body) : result unit :=
  if (client =? 0)%nat then Raise (OtherError "connection reset") else Ok tt.

(** A record as [logger.info(value)] makes it, and as it leaves the queue
    with its message already text. *)
Definition logged (value : pyval) : LogRecord :=
  {| name := "handler"; msg := value; args := VTuple [];
     exc_info := None; exc_text := None; stack_info := None |}.

Definition queued (text : string) : LogRecord :=
  {| name := "handler"; msg := VStr text; args := VNone;
     exc_info := None; exc_text := None; stack_info := None |}.

(** A record as [logger.info(value, argument)] makes it. *)
Definition logged_with (value argument : pyval) : LogRecord :=
  {| name := "handler"; msg := value; args := VTuple [argument];
     exc_info := None; exc_text := None; stack_info := None |}.

(** A record as [logger.exception(value)] makes it in the handler of an
    exception whose traceback text is [traceback]. *)
Definition logged_exception (value : pyval) (traceback : string) : LogRecord :=
  {| name := "handler"; msg := value; args := VTuple [];
     exc_info := Some traceback; exc_text := None; stack_info := None |}.

(** [n] empty lists inside one another, and one more around them. *)
Fixpoint nested (n : nat) : pyval :=
  match n with
  | O => VList []
  | S n' => VList [nested n']
  end.



Definition gpu_probe : CompletedProcess :=
  {| returncode := 0; stdout := "GPU 0: Tesla T4" |}.

Definition no_gpu_probe : CompletedProcess :=
  {| returncode := 127; stdout := "" |}.

Definition hostname_probe : CompletedProcess :=
  {| returncode := 0; stdout := "host-1" ++ String (ascii_of_nat 10) "" |}.

Definition example_inner (f : Formatter) : InfluxdbMonitorHandlerInner.t :=
  {| InfluxdbMonitorHandlerInner._ip := "localhost";
     InfluxdbMonitorHandlerInner._port := "8086";
     InfluxdbMonitorHandlerInner._database := "monitordb";
     InfluxdbMonitorHandlerInner._client := 0;
     InfluxdbMonitorHandlerInner.formatter := f |}.

Definition example_handler (size : Z) : InfluxdbMonitorHandler.t :=
  InfluxdbMonitorHandler.__init__
    {| InfluxdbMonitorHandler.queue_size := size;
       InfluxdbMonitorHandler.port := "8086";
       InfluxdbMonitorHandler.database := "monitordb" |}
    "localhost" None None no_gpu_probe hostname_probe.

Definition nested_sample : pyval :=
  VDict [("step", VInt 12);
         ("loss", VFloat 0.25);
         ("done", VBool false);
         ("tag", VStr "a");
         ("hist", VList [VInt 1; VNone; VTuple [VInt (-2); VStr "b"]]);
         ("sub", VDict [("empty", VDict []); ("pair", VTuple [VFloat 1.5; VInt 0])])].

(** A one-dimensional array and a 2 x 2 one. *)
Definition vector_sample : ndarray :=
  NdN [Nd0 (SFloat 0.5); Nd0 (SFloat 1.5); Nd0 (SFloat 0.25)].

Definition matrix_sample : ndarray :=
  NdN [NdN [Nd0 (SInt 1); Nd0 (SInt 2)]; NdN [Nd0 (SInt 3); Nd0 (SInt 4)]].

(** ** aiarena/1v1/learner/train.py *)

Module train.

(** The framework configuration (a [ConfigControl]): the attributes that
    the file reads or sets, and, in [others], every other attribute the
    object carries to the classes it is handed to. *)
Module ConfigControl.
Record t : Type := {
  save_model_dir : string;
  train_dir : string;
  send_model_dir : string;
  backend : string;
  push_to_modelpool : pyval;
  distributed_backend : string;
  load_optimizer_state : pyval;
  use_init_model : pyval;
  init_model_path : pyval;
  ports : list pyval;
  others : list (string * pyval)
}.
End ConfigControl.

(** The attributes of the model configuration ([config.Config]) that the
    file reads. *)
Module Config.
Record t : Type := {
  backend : string;
  use_init_model : pyval;
  init_model_path : pyval;
  load_optimizer_state : pyval;
  data_shapes : pyval;
  slow_time : pyval
}.
End Config.

(** The dataset handed to the benchmark. *)
Inductive dataset : Type :=
| Random (module : string)
| ZMQ (module : string) (port : pyval).

(** The calls the file makes on code outside it, with what it passes:
    directories, imports, constructors (named with the module the class
    was imported from) and the logger. *)
Inductive call : Type :=
| import_from (module : string)
| ConfigControl_new (path : string)
| setup_logger (path : string)
| LOG_exception (text : string)
| makedirs (path : string)
| ModelManager_pytorch (push : pyval) (save_checkpoint_dir backup_checkpoint_dir : string)
    (load_optimizer_state : pyval)
| ModelManager_tensorflow (push : pyval)
| OfflineRlInfoAdapter (data_shapes : pyval)
| NodeInfo (module : string)
| NetworkDataset (d : dataset) (config : ConfigControl.t)
| Algorithm (module : string)
| LogManager
| Benchmark (module : string) (d : dataset) (config : ConfigControl.t) (slow_time : pyval)
| Benchmark_run.

(** What the file raises itself, and an exception that came out of a
    call. *)
Inductive raised : Type :=
| NotImplementedError (text : string)
| IndexError (text : string)
| Outside (what : string).

(** The world outside the file: whether a call returns ([None]) or raises,
    the rank a [NodeInfo] reports, the configuration [ConfigControl] loads,
    and the path of common.conf beside the file. *)
Record World : Type := {
  answer : call -> option string;
  local_rank : Z;
  loaded : ConfigControl.t;
  config_path : string
}.

(** The configuration object, which the caller shares with [_run], and
    the calls made so far, oldest first. *)
Record state : Type := {
  config : ConfigControl.t;
  calls : list call
}.

Definition prog (A : Type) : Type := state -> state * (A + raised).

Definition ret {A : Type} (a : A) : prog A := fun s => (s, inl a).

Definition throw {A : Type} (e : raised) : prog A := fun s => (s, inr e).

Definition andthen {A B : Type} (m : prog A) (k : A -> prog B) : prog B :=
  fun s =>
    match m s with
    | (s', inl a) => k a s'
    | (s', inr e) => (s', inr e)
    end.

Definition get_config : prog ConfigControl.t := fun s => (s, inl (config s)).

Definition set_config (c : ConfigControl.t) : prog unit :=
  fun s => ({| config := c; calls := calls s |}, inl tt).

Definition perform (w : World) (c : call) : prog unit :=
  fun s =>
    ({| config := config s; calls := calls s ++ [c] |},
     match answer w c with
     | None => inl tt
     | Some what => inr (Outside what)
     end).

Declare Scope prog_scope.
Delimit Scope prog_scope with prog.

Notation "x <- c ;; k" := (andthen c (fun x => k))
  (at level 61, c at next level, right associativity) : prog_scope.

Notation "c ;;; k" := (andthen c (fun _ => k))
  (at level 61, right associativity) : prog_scope.

Local Open Scope prog_scope.

(** [xs[i]] on a list: a negative index counts from the end. *)
Definition list_index {A : Type} (xs : list A) (i : Z) : option A :=
  let n := Z.of_nat (List.length xs) in
  if ((0 <=? i) && (i <? n))%Z then nth_error xs (Z.to_nat i)
  else if ((- n <=? i) && (i <? 0))%Z then nth_error xs (Z.to_nat (n + i))
  else None.

Definition train_log : string := "/aiarena/logs/learner/train.log".

(** What a backend branch of [_run] imports: the modules of [Algorithm],
    of the two [NetworkDataset] classes, of [Benchmark] and of
    [NodeInfo]. *)
Record imports : Type := {
  algorithm : string;
  dataset_zmq : string;
  dataset_random : string;
  benchmark : string;
  node_info : string
}.

Definition set_push_to_modelpool (c : ConfigControl.t) (v : pyval) : ConfigControl.t :=
  {| ConfigControl.save_model_dir := ConfigControl.save_model_dir c;
     ConfigControl.train_dir := ConfigControl.train_dir c;
     ConfigControl.send_model_dir := ConfigControl.send_model_dir c;
     ConfigControl.backend := ConfigControl.backend c;
     ConfigControl.push_to_modelpool := v;
     ConfigControl.distributed_backend := ConfigControl.distributed_backend c;
     ConfigControl.load_optimizer_state := ConfigControl.load_optimizer_state c;
     ConfigControl.use_init_model := ConfigControl.use_init_model c;
     ConfigControl.init_model_path := ConfigControl.init_model_path c;
     ConfigControl.ports := ConfigControl.ports c;
     ConfigControl.others := ConfigControl.others c |}.

(** Lines 49-71. *)
Definition pytorch_branch (w : World) : prog imports :=
  perform w (import_from "algorithm_torch") ;;;
  perform w (import_from
    "rl_framework.learner.dataset.network_dataset.pytorch.network_dataset_zmq") ;;;
  perform w (import_from
    "rl_framework.learner.dataset.network_dataset.pytorch.network_dataset_random") ;;;
  perform w (import_from "rl_framework.learner.framework.pytorch.model_manager") ;;;
  perform w (import_from "rl_framework.learner.framework.pytorch.apd_benchmark") ;;;
  config_manager <- get_config ;;
  let node_info_module :=
    if ConfigControl.distributed_backend config_manager =? "horovod"
    then "rl_framework.learner.framework.pytorch.node_info_hvd"
    else "rl_framework.learner.framework.pytorch.node_info_ddp" in
  perform w (import_from node_info_module) ;;;
  perform w (ModelManager_pytorch
               (ConfigControl.push_to_modelpool config_manager)
               (ConfigControl.save_model_dir config_manager)
               (ConfigControl.send_model_dir config_manager)
               (ConfigControl.load_optimizer_state config_manager)) ;;;
  ret {| algorithm := "algorithm_torch";
         dataset_zmq :=
           "rl_framework.learner.dataset.network_dataset.pytorch.network_dataset_zmq";
         dataset_random :=
           "rl_framework.learner.dataset.network_dataset.pytorch.network_dataset_random";
         benchmark := "rl_framework.learner.framework.pytorch.apd_benchmark";
         node_info := node_info_module |}.

(** Lines 72-83. *)
Definition tensorflow_branch (w : World) : prog imports :=
  perform w (import_from "algorithm_tf") ;;;
  perform w (import_from
    "rl_framework.learner.dataset.network_dataset.tensorflow.network_dataset_zmq") ;;;
  perform w (import_from
    "rl_framework.learner.dataset.network_dataset.tensorflow.network_dataset_random") ;;;
  perform w (import_from "rl_framework.learner.framework.tensorflow.model_manager") ;;;
  perform w (import_from "rl_framework.learner.framework.tensorflow.apd_benchmark") ;;;
  perform w (import_from "rl_framework.learner.framework.tensorflow.gradient_fusion") ;;;
  config_manager <- get_config ;;
  perform w (ModelManager_tensorflow
               (ConfigControl.push_to_modelpool config_manager)) ;;;
  ret {| algorithm := "algorithm_tf";
         dataset_zmq :=
           "rl_framework.learner.dataset.network_dataset.tensorflow.network_dataset_zmq";
         dataset_random :=
           "rl_framework.learner.dataset.network_dataset.tensorflow.network_dataset_random";
         benchmark := "rl_framework.learner.framework.tensorflow.apd_benchmark";
         node_info := "rl_framework.learner.framework.tensorflow.gradient_fusion" |}.

(** Lines 38-108. *)
Definition _run (w : World) (model_config : Config.t) (single_test : bool)
  : prog unit :=
  config_manager <- get_config ;;
  perform w (makedirs (ConfigControl.save_model_dir config_manager)) ;;;
  perform w (makedirs (ConfigControl.train_dir config_manager)) ;;;
  perform w (makedirs (ConfigControl.send_model_dir config_manager)) ;;;
  let training_backend := ConfigControl.backend config_manager in
  (if single_test
   then set_config (set_push_to_modelpool config_manager (VBool false))
   else ret tt) ;;;
  imported <- (if training_backend =? "pytorch" then pytorch_branch w
               else if training_backend =? "tensorflow" then tensorflow_branch w
               else throw (NotImplementedError
                 "Support backend in [pytorch, tensorflow], Check your training backend...")) ;;
  perform w (OfflineRlInfoAdapter (Config.data_shapes model_config)) ;;;
  perform w (NodeInfo (node_info imported)) ;;;
  config_manager <- get_config ;;
  d <- (if single_test then
          perform w (NetworkDataset (Random (dataset_random imported)) config_manager) ;;;
          ret (Random (dataset_random imported))
        else
          match list_index (ConfigControl.ports config_manager) (local_rank w) with
          | None => throw (IndexError "list index out of range")
          | Some port =>
              perform w (NetworkDataset (ZMQ (dataset_zmq imported) port)
                           config_manager) ;;;
              ret (ZMQ (dataset_zmq imported) port)
          end) ;;
  perform w (Algorithm (algorithm imported)) ;;;
  perform w LogManager ;;;
  perform w (Benchmark (benchmark imported) d config_manager
               (Config.slow_time model_config)) ;;;
  perform w Benchmark_run.

(** Lines 24-35: whatever is raised is logged and raised again. *)
Definition run (w : World) (model_config : Config.t) (single_test : bool)
  : prog unit :=
  fun s =>
    match (perform w (setup_logger train_log) ;;;
           _run w model_config single_test) s with
    | (s', inl tt) => (s', inl tt)
    | (s', inr e) =>
        (perform w (LOG_exception "learner run failed") ;;; throw e) s'
    end.

(** Lines 111-122: the configuration that [ConfigControl] loads, with
    four attributes taken from [Config]. *)
Definition main (w : World) (Config : Config.t) (single_test : bool) : prog unit :=
  perform w (import_from "config") ;;;
  perform w (ConfigControl_new (config_path w)) ;;;
  let c := loaded w in
  set_config
    {| ConfigControl.save_model_dir := ConfigControl.save_model_dir c;
       ConfigControl.train_dir := ConfigControl.train_dir c;
       ConfigControl.send_model_dir := ConfigControl.send_model_dir c;
       ConfigControl.backend := Config.backend Config;
       ConfigControl.push_to_modelpool := ConfigControl.push_to_modelpool c;
       ConfigControl.distributed_backend := ConfigControl.distributed_backend c;
       ConfigControl.load_optimizer_state := Config.load_optimizer_state Config;
       ConfigControl.use_init_model := Config.use_init_model Config;
       ConfigControl.init_model_path := Config.init_model_path Config;
       ConfigControl.ports := ConfigControl.ports c;
       ConfigControl.others := ConfigControl.others c |} ;;;
  run w Config single_test.

End train.

(** ** Vocabulary of the further properties *)

(** A record as the queue handler leaves it: a text message, no
    arguments, and no exception or stack information. *)
Definition is_text_record (record : LogRecord) : bool :=
  match msg record, exc_info record, exc_text record, stack_info record with
  | VStr _, None, None, None => is_none (args record)
  | _, _, _, _ => false
  end.

(** What a sequence of records puts on the queue when it has room: the
    prepared copy of each record that the filter accepts and [prepare] can
    turn into text, in order. *)
Definition enqueued {rt : Runtime} (records : list LogRecord) : list LogRecord :=
  flat_map
    (fun record =>
       if InfluxdbMonitorFilter.filter record then
         match logging.QueueHandler_prepare record with
         | Ok prepared => [prepared]
         | Raise _ => []
         end
       else [])
    records.

(** The dict logged by the script at the end of the file (line 176), and a
    runtime that knows its text. *)
Definition main_data : pyval := VDict [("A", VInt 1); ("B", VInt 2)].

Definition main_repr (v : pyval) : string :=
  match v with
  | VDict [(k1, VInt z1); (k2, VInt z2)] =>
      if (k1 =? "A") && (z1 =? 1)%Z && (k2 =? "B") && (z2 =? 2)%Z
      then "{'A': 1, 'B': 2}" else example_repr v
  | _ => example_repr v
  end.

Definition main_literal_eval (text : string) : result pyval :=
  if text =? "{'A': 1, 'B': 2}" then Ok main_data else example_literal_eval text.

Definition main_runtime (sink : nat -> json_body -> result unit) : Runtime :=
  {| literal_eval := main_literal_eval;
     repr := main_repr;
     str_mod := example_str_mod;
     write_points := sink;
     recursion_limit := default_recursion_limit;
     raiseExceptions := true;
     stderr := Some stderr_open;
     print_exception :=
       fun _ => ("Traceback (most recent call last):" ++ newline)%string;
     print_stack := "" |}.

(** A call of [os.makedirs]. *)
Definition is_makedirs (c : train.call) : bool :=
  match c with
  | train.makedirs _ => true
  | _ => false
  end.

Definition is_log_exception (c : train.call) : bool :=
  match c with
  | train.LOG_exception _ => true
  | _ => false
  end.


(** The world where [ConfigControl] loads [c]. *)
Definition with_loaded (w : train.World) (c : train.ConfigControl.t) : train.World :=
  {| train.answer := train.answer w;
     train.local_rank := train.local_rank w;
     train.loaded := c;
     train.config_path := train.config_path w |}.

(** A world where every call returns, and configurations for the
    examples. *)
Definition calm_world (rank : Z) (c : train.ConfigControl.t) : train.World :=
  {| train.answer := fun _ => None;
     train.local_rank := rank;
     train.loaded := c;
     train.config_path := "/aiarena/code/learner/config/common.conf" |}.

Definition example_config_control (backend : string) : train.ConfigControl.t :=
  {| train.ConfigControl.save_model_dir := "/aiarena/checkpoints";
     train.ConfigControl.train_dir := "/aiarena/logs/learner";
     train.ConfigControl.send_model_dir := "/aiarena/backup";
     train.ConfigControl.backend := backend;
     train.ConfigControl.push_to_modelpool := VBool true;
     train.ConfigControl.distributed_backend := "ddp";
     train.ConfigControl.load_optimizer_state := VBool true;
     train.ConfigControl.use_init_model := VBool false;
     train.ConfigControl.init_model_path := VStr "/aiarena/code/learner/model/init";
     train.ConfigControl.ports := [VInt 35200; VInt 35201];
     train.ConfigControl.others :=
       [("batch_size", VInt 4096); ("mem_pool_path", VStr "/aiarena/mempool")] |}.

Definition example_config (backend : string) : train.Config.t :=
  {| train.Config.backend := backend;
     train.Config.use_init_model := VBool false;
     train.Config.init_model_path := VStr "/aiarena/code/learner/model/init";
     train.Config.load_optimizer_state := VBool true;
     train.Config.data_shapes := VList [VList [VInt 725]];
     train.Config.slow_time := VFloat 0 |}.

(** A call made before the dataset is built. *)
Definition before_dataset (c : train.call) : Prop :=
  match c with
  | train.NetworkDataset _ _ | train.Algorithm _ | train.LogManager
  | train.Benchmark _ _ _ _ | train.Benchmark_run => False
  | _ => True
  end.

(** The state with one more call made. *)
Definition called (s : train.state) (c : train.call) : train.state :=
  {| train.config := train.config s; train.calls := train.calls s ++ [c] |}.

(** From a state where [pre] holds, [m] returns [a] in a state where
    [post a] holds or raises [e] in a state where [exc e] holds. *)
Definition triple {A : Type} (pre : train.state -> Prop) (m : train.prog A)
  (post : A -> train.state -> Prop) (exc : train.raised -> train.state -> Prop)
  : Prop :=
  forall s,
    pre s ->
    match m s with
    | (s', inl a) => post a s'
    | (s', inr e) => exc e s'
    end.

(** Every call made so far satisfies [P], and the configuration [Q]. *)
Definition trace_inv (P : train.call -> Prop) (Q : train.ConfigControl.t -> Prop)
  (s : train.state) : Prop :=
  Forall P (train.calls s) /\ Q (train.config s).

(** * Properties *)

(** ** Induction over nested values *)

Lemma pyval_nested_ind (P : pyval -> Prop) :
  P VNone ->
  (forall b, P (VBool b)) ->
  (forall z, P (VInt z)) ->
  (forall f, P (VFloat f)) ->
  (forall text truth, P (VNumber text truth)) ->
  (forall s, P (VStr s)) ->
  (forall items, Forall (fun kv => P (snd kv)) items -> P (VDict items)) ->
  (forall xs, Forall P xs -> P (VList xs)) ->
  (forall xs, Forall P xs -> P (VTuple xs)) ->
  (forall cls how xs, Forall P xs -> P (VSequence cls how xs)) ->
  (forall x, P (VGeneric x)) ->
  (forall text truth got, P (VGenericOther text truth got)) ->
  (forall a, P (VNdarray a)) ->
  (forall cls text truth, P (VOther cls text truth)) ->
  forall v, P v.
Proof.
  intros HNone HBool HInt HFloat HNumber HStr HDict HList HTuple HSeq HGen HGenOther
    HNd HOther.
  fix IH 1.
  intros [ | b | z | f | text truth | s | items | xs | xs | cls how xs | x
         | text truth got | a | cls text truth ].
  - exact HNone.
  - exact (HBool b).
  - exact (HInt z).
  - exact (HFloat f).
  - exact (HNumber text truth).
  - exact (HStr s).
  - apply HDict.
    induction items as [ | [k v] items IHitems ]; constructor;
      [ exact (IH v) | exact IHitems ].
  - apply HList.
    induction xs as [ | v xs IHxs ]; constructor; [ exact (IH v) | exact IHxs ].
  - apply HTuple.
    induction xs as [ | v xs IHxs ]; constructor; [ exact (IH v) | exact IHxs ].
  - apply HSeq.
    induction xs as [ | v xs IHxs ]; constructor; [ exact (IH v) | exact IHxs ].
  - exact (HGen x).
  - exact (HGenOther text truth got).
  - exact (HNd a).
  - exact (HOther cls text truth).
Qed.

Lemma ndarray_nested_ind (P : ndarray -> Prop) :
  (forall x, P (Nd0 x)) ->
  (forall rows, Forall P rows -> P (NdN rows)) ->
  forall a, P a.
Proof.
  intros H0 HN.
  fix IH 1.
  intros [ x | rows ].
  - exact (H0 x).
  - apply HN.
    induction rows as [ | a rows IHrows ]; constructor;
      [ exact (IH a) | exact IHrows ].
Qed.

(** ** Dicts *)

Lemma dict_get_del_same (k : string) (d : dict) :
  dict_get k (dict_del k d) = None.
Proof.
  induction d as [ | [k' v] d IH ]; simpl; [ reflexivity | ].
  destruct (k' =? k) eqn:E; simpl; [ exact IH | ].
  rewrite E. exact IH.
Qed.

Lemma dict_get_del_other (k k0 : string) (d : dict) :
  k0 <> k -> dict_get k (dict_del k0 d) = dict_get k d.
Proof.
  intros Hne.
  induction d as [ | [k' v] d IH ]; simpl; [ reflexivity | ].
  destruct (k' =? k0) eqn:E0; simpl.
  - apply String.eqb_eq in E0. subst k'.
    destruct (k0 =? k) eqn:E; [ | exact IH ].
    apply String.eqb_eq in E. contradiction.
  - destruct (k' =? k); [ reflexivity | exact IH ].
Qed.

Lemma dict_get_set_same (k : string) (v : pyval) (d : dict) :
  dict_get k (dict_set k v d) = Some v.
Proof.
  induction d as [ | [k' v'] d IH ]; simpl.
  - now rewrite String.eqb_refl.
  - destruct (k' =? k) eqn:E; simpl.
    + now rewrite String.eqb_refl.
    + rewrite E. exact IH.
Qed.

Lemma dict_get_set_other (k k0 : string) (v : pyval) (d : dict) :
  k0 <> k -> dict_get k (dict_set k0 v d) = dict_get k d.
Proof.
  intros Hne.
  assert (Hk : (k0 =? k) = false) by now apply String.eqb_neq.
  induction d as [ | [k' v'] d IH ]; simpl.
  - now rewrite Hk.
  - destruct (k' =? k0) eqn:E0; simpl.
    + rewrite Hk. apply String.eqb_eq in E0. subst k'. now rewrite Hk.
    + destruct (k' =? k); [ reflexivity | exact IH ].
Qed.

Lemma dict_keys_get (k : string) (d : dict) :
  In k (dict_keys d) <-> dict_get k d <> None.
Proof.
  unfold dict_keys.
  induction d as [ | [k' v] d IH ]; simpl.
  - split; [ intros [] | intros Hn; now apply Hn ].
  - destruct (k' =? k) eqn:E.
    + apply String.eqb_eq in E. split; [ discriminate | now left ].
    + apply String.eqb_neq in E. rewrite <- IH.
      split; [ intros [ Heq | Hin ]; [ contradiction | exact Hin ] | now right ].
Qed.

Lemma dict_keys_set (k k0 : string) (v : pyval) (d : dict) :
  In k (dict_keys (dict_set k0 v d)) <-> k = k0 \/ In k (dict_keys d).
Proof.
  rewrite !dict_keys_get.
  destruct (String.eqb_spec k0 k) as [ Heq | Hne ].
  - subst k0. rewrite dict_get_set_same.
    split; [ now left | discriminate ].
  - rewrite (dict_get_set_other _ _ _ _ Hne).
    split; [ now right | intros [ Heq | Hin ]; [ now symmetry in Heq | exact Hin ] ].
Qed.

(** ** Traversals *)


Lemma traverse_returns {A B : Type} (f : A -> result B) (xs : list A) :
  Forall (fun x => exists y, f x = Ok y) xs -> exists ys, traverse f xs = Ok ys.
Proof.
  induction 1 as [ | x xs [ y Hy ] _ [ ys IH ] ]; simpl.
  - now exists [].
  - exists (y :: ys). rewrite Hy. cbn [bind]. rewrite IH. reflexivity.
Qed.

Lemma traverse_each {A B : Type} (f : A -> result B) (xs : list A) :
  forall ys, traverse f xs = Ok ys -> Forall2 (fun x y => f x = Ok y) xs ys.
Proof.
  induction xs as [ | x xs IH ]; simpl; intros ys Hys.
  - injection Hys as <-. constructor.
  - destruct (f x) as [ y | e ] eqn:Ey; cbn [bind] in Hys; [ | discriminate ].
    destruct (traverse f xs) as [ ys' | e ]; cbn [bind] in Hys; [ | discriminate ].
    injection Hys as <-. constructor; [ exact Ey | now apply IH ].
Qed.

(** The dict that [_to_builtin] makes of a dict has its keys, in order,
    and under each key the conversion of the value. *)
Lemma traverse_items (f : pyval -> result pyval) (d : dict) :
  forall d',
    traverse (fun kv => let '(k, v) := kv in v' <- f v ;; Ok (k, v')) d = Ok d' ->
    dict_keys d' = dict_keys d /\
    forall k v, dict_get k d = Some v ->
                exists v', f v = Ok v' /\ dict_get k d' = Some v'.
Proof.
  unfold dict_keys.
  induction d as [ | [k0 v0] d IH ]; simpl; intros d' Hd'.
  - injection Hd' as <-. split; [ reflexivity | discriminate ].
  - destruct (f v0) as [ v0' | e ] eqn:E0; cbn [bind] in Hd'; [ | discriminate ].
    destruct (traverse (fun kv => let '(k, v) := kv in v' <- f v ;; Ok (k, v')) d)
      as [ d1 | e ]; cbn [bind] in Hd'; [ | discriminate ].
    injection Hd' as <-. destruct (IH d1 eq_refl) as [ Hk Hg ].
    split; [ simpl; now rewrite Hk | ].
    intros k v. simpl. destruct (k0 =? k).
    + intros Hv. injection Hv as <-. now exists v0'.
    + apply Hg.
Qed.

Lemma to_builtin_dict (d : dict) (y : pyval) :
  _to_builtin (VDict d) = Ok y ->
  exists d',
    y = VDict d' /\
    dict_keys d' = dict_keys d /\
    forall k v, dict_get k d = Some v ->
                exists v', _to_builtin v = Ok v' /\ dict_get k d' = Some v'.
Proof.
  cbn [_to_builtin].
  destruct (traverse (fun kv => let '(k, v) := kv in v' <- _to_builtin v ;; Ok (k, v')) d)
    as [ d' | e ] eqn:E; cbn [bind]; [ | discriminate ].
  intros Hy. injection Hy as <-. exists d'.
  destruct (traverse_items _to_builtin d d' E) as [ Hk Hg ].
  split; [ reflexivity | split; [ exact Hk | exact Hg ] ].
Qed.

(** ** The normalizer *)

Lemma forallb_Forall_imp {A : Type} (p : A -> bool) (P : A -> Prop) (xs : list A) :
  Forall (fun x => p x = true -> P x) xs -> forallb p xs = true -> Forall P xs.
Proof.
  induction 1 as [ | x xs Hx _ IH ]; simpl; intros Hp; constructor;
    apply andb_prop in Hp as [ Hp1 Hp2 ]; [ now apply Hx | now apply IH ].
Qed.

(** [_to_builtin] returns when every sequence it meets can be rebuilt. *)
Lemma to_builtin_returns :
  forall x, rebuilds x = true -> exists y, _to_builtin x = Ok y.
Proof.
  induction x as [ | | | | | | items IH | xs IH | xs IH | cls how xs IH | | | | ]
    using pyval_nested_ind; cbn [_to_builtin rebuilds]; intros Hr;
    try (eexists; reflexivity).
  - destruct (traverse_returns
                (fun kv => let '(k, v) := kv in v' <- _to_builtin v ;; Ok (k, v')) items)
      as [ items' E ].
    { revert Hr. induction IH as [ | [k v] items Hv _ IHitems ]; simpl; intros Hr;
        constructor; apply andb_prop in Hr as [ Hr1 Hr2 ].
      - destruct (Hv Hr1) as [ v' E ]. cbn [snd] in E. exists (k, v'). now rewrite E.
      - now apply IHitems. }
    rewrite E. eexists. reflexivity.
  - destruct (traverse_returns _to_builtin xs (forallb_Forall_imp _ _ _ IH Hr))
      as [ xs' E ].
    rewrite E. eexists. reflexivity.
  - destruct (traverse_returns _to_builtin xs (forallb_Forall_imp _ _ _ IH Hr))
      as [ xs' E ].
    rewrite E. eexists. reflexivity.
  - destruct how as [ | e | generator ]; try discriminate.
    destruct (traverse_returns _to_builtin xs (forallb_Forall_imp _ _ _ IH Hr))
      as [ xs' E ].
    rewrite E. eexists. reflexivity.
Qed.





(** A deque of numbers is rebuilt as it is, and numbers that are no
    bool, int or float are returned as they are. *)
Example to_builtin_deque_and_complex :
  _to_builtin (VDict [("window", VSequence "deque" FromIterable [VInt 1; VFloat 0.5]);
                      ("z", VNumber "(1+2j)" true)])
  = Ok (VDict [("window", VSequence "deque" FromIterable [VInt 1; VFloat 0.5]);
               ("z", VNumber "(1+2j)" true)]).
Proof. reflexivity. Qed.

Lemma tolist_leaves (a : ndarray) :
  leaves (tolist a) = map item (nd_elements a).
Proof.
  induction a as [ x | rows IH ] using ndarray_nested_ind; simpl.
  - destruct x; reflexivity.
  - induction IH as [ | a rows Ha _ IHrows ]; simpl; [ reflexivity | ].
    rewrite map_app, Ha, IHrows. reflexivity.
Qed.

Lemma tolist_vector (xs : list scalar) :
  tolist (NdN (map Nd0 xs)) = VList (map item xs).
Proof.
  simpl. f_equal. induction xs as [ | x xs IH ]; simpl; [ reflexivity | ].
  now rewrite IH.
Qed.

Lemma item_is_number (x : scalar) : is_number (item x) = true.
Proof. destruct x; reflexivity. Qed.

Lemma lookup_path_to_builtin (path : list string) :
  forall x v y,
    lookup_path path x = Some v ->
    _to_builtin x = Ok y ->
    exists v', _to_builtin v = Ok v' /\ lookup_path path y = Some v'.
Proof.
  induction path as [ | k path IH ]; intros x v y Hx Hy; cbn [lookup_path] in *.
  - injection Hx as <-. now exists y.
  - destruct x as [ | | | | | | d | | | | | | | ]; try discriminate.
    destruct (to_builtin_dict d y Hy) as [ d' [ -> [ _ Hg ] ] ].
    destruct (dict_get k d) as [ v0 | ] eqn:Ek; [ | discriminate ].
    destruct (Hg k v0 Ek) as [ v0' [ E0 Hg0 ] ].
    rewrite Hg0. exact (IH v0 v v0' Hx E0).
Qed.

(** C8, amended.  Where a nested mapping holds a numeric array, the
    normalized mapping holds, at the same place, the array's [tolist()]:
    its leaves, read left to right, are the array's elements as plain
    numbers in row-major order; for a one-dimensional array it is the list
    of those numbers, and for more dimensions the lists are nested, one
    level per dimension.  The mapping is normalized whenever its sequences
    can be rebuilt. *)
Theorem to_builtin_array_entry :
  forall path x a,
    lookup_path path x = Some (VNdarray a) ->
    (forall y, _to_builtin x = Ok y -> lookup_path path y = Some (tolist a)) /\
    (rebuilds x = true -> exists y, _to_builtin x = Ok y) /\
    leaves (tolist a) = map item (nd_elements a) /\
    forallb is_number (leaves (tolist a)) = true /\
    (forall xs, a = NdN (map Nd0 xs) ->
       tolist a = VList (map item xs) /\ number_sequence (tolist a) = true).
Proof.
  intros path x a Hx.
  split; [ | split; [ | split; [ | split ] ] ].
  - intros y Hy.
    destruct (lookup_path_to_builtin path x _ y Hx Hy) as [ v' [ Hv' Hl ] ].
    cbn [_to_builtin] in Hv'. injection Hv' as <-. exact Hl.
  - apply to_builtin_returns.
  - apply tolist_leaves.
  - rewrite tolist_leaves. apply forallb_forall.
    intros v Hv. apply in_map_iff in Hv as [ s [ <- _ ] ]. apply item_is_number.
  - intros xs ->. split; [ apply tolist_vector | ].
    rewrite tolist_vector. simpl. apply forallb_forall.
    intros v Hv. apply in_map_iff in Hv as [ s [ <- _ ] ]. apply item_is_number.
Qed.

Lemma to_builtin_array_entry_witness :
  lookup_path ["obs"; "w"]
    (VDict [("step", VInt 3); ("obs", VDict [("w", VNdarray vector_sample)])])
  = Some (VNdarray vector_sample) /\
  exists y,
    _to_builtin
      (VDict [("step", VInt 3); ("obs", VDict [("w", VNdarray vector_sample)])])
    = Ok y /\
    lookup_path ["obs"; "w"] y = Some (VList [VFloat 0.5; VFloat 1.5; VFloat 0.25]).
Proof.
  split; [ reflexivity | ].
  destruct (to_builtin_array_entry ["obs"; "w"]
              (VDict [("step", VInt 3); ("obs", VDict [("w", VNdarray vector_sample)])])
              vector_sample eq_refl) as [ Hentry [ Hreturns _ ] ].
  destruct (Hreturns eq_refl) as [ y Hy ].
  exists y. split; [ exact Hy | exact (Hentry y Hy) ].
Defined.

(** C8 as stated fails for an array of two dimensions: the entry is a list
    of lists, not a sequence of plain numbers. *)
Example to_builtin_matrix_entry_is_nested :
  _to_builtin (VDict [("w", VNdarray matrix_sample)])
  = Ok (VDict [("w", VList [VList [VInt 1; VInt 2]; VList [VInt 3; VInt 4]])]) /\
  number_sequence (VList [VList [VInt 1; VInt 2]; VList [VInt 3; VInt 4]]) = false.
Proof. split; reflexivity. Qed.

(** ** The filter *)

(** C6. The filter accepts a record exactly when its message is a dict;
    a record it rejects leaves the handler, its queue included, as it
    was. *)
Theorem filter_accepts_exactly_dicts {rt : Runtime} :
  forall record,
    InfluxdbMonitorFilter.filter record = is_dict (msg record) /\
    (forall self,
       is_dict (msg record) = false ->
       InfluxdbMonitorHandler.emit self record = (self, [], Ok tt)).
Proof.
  intros record. split.
  - unfold InfluxdbMonitorFilter.filter.
    destruct (is_dict (msg record)); reflexivity.
  - intros self Hd.
    unfold InfluxdbMonitorHandler.emit, logging.QueueHandler_handle,
      InfluxdbMonitorFilter.filter.
    cbn [forallb]. rewrite Hd. destruct self. reflexivity.
Qed.

Lemma filter_accepts_exactly_dicts_witness :
  InfluxdbMonitorFilter.filter (logged (VDict [("A", VInt 1); ("B", VInt 2)])) = true /\
  InfluxdbMonitorFilter.filter (logged (VStr "hello world")) = false /\
  InfluxdbMonitorFilter.filter (logged (VList [VInt 1; VInt 2])) = false /\
  InfluxdbMonitorFilter.filter (logged (VFloat 0.5)) = false /\
  InfluxdbMonitorHandler.emit (rt := example_runtime sink_up)
    (example_handler 1024) (logged (VStr "hello world"))
  = (example_handler 1024, [], Ok tt).
Proof.
  pose (rt := example_runtime sink_up).
  split; [ | split; [ | split; [ | split ] ] ].
  - exact (proj1 (filter_accepts_exactly_dicts (logged (VDict [("A", VInt 1); ("B", VInt 2)])))).
  - exact (proj1 (filter_accepts_exactly_dicts (logged (VStr "hello world")))).
  - exact (proj1 (filter_accepts_exactly_dicts (logged (VList [VInt 1; VInt 2])))).
  - exact (proj1 (filter_accepts_exactly_dicts (logged (VFloat 0.5)))).
  - apply (proj2 (filter_accepts_exactly_dicts (logged (VStr "hello world")))).
    reflexivity.
Defined.

(** ** The general formatter *)

Lemma general_format_dict {rt : Runtime} (self : json_body) (record : LogRecord)
  (d : dict) :
  reads_dict record d ->
  InfluxdbMonitorFormatter.format self record
  = (v <- _to_builtin (VDict d) ;;
     Ok {| measurement := measurement self;
           tags := tags self;
           fields := Some v |}).
Proof.
  unfold InfluxdbMonitorFormatter.format.
  intros [ Hmsg | [ Hnd Hl ] ].
  - rewrite Hmsg. reflexivity.
  - destruct (msg record); try discriminate Hnd; rewrite Hl; reflexivity.
Qed.

(** What [format] returns when it returns. *)
Lemma general_format_inv {rt : Runtime} (self point : json_body)
  (record : LogRecord) :
  InfluxdbMonitorFormatter.format self record = Ok point ->
  exists v,
    point = {| measurement := measurement self;
               tags := tags self;
               fields := Some v |} /\
    forall self', InfluxdbMonitorFormatter.format self' record
                  = Ok {| measurement := measurement self';
                          tags := tags self';
                          fields := Some v |}.
Proof.
  unfold InfluxdbMonitorFormatter.format.
  destruct (match msg record with VDict d => Ok (VDict d) | _ => read_literal record end)
    as [ m | e ]; cbn [bind]; [ | discriminate ].
  destruct (_to_builtin m) as [ v | e ]; cbn [bind]; [ | discriminate ].
  intros Hp. injection Hp as <-. exists v. split; reflexivity.
Qed.

Lemma general_format_keeps {rt : Runtime} (self point : json_body)
  (record : LogRecord) :
  InfluxdbMonitorFormatter.format self record = Ok point ->
  measurement point = measurement self /\ tags point = tags self.
Proof.
  intros Hp. destruct (general_format_inv _ _ _ Hp) as [ v [ -> _ ] ].
  split; reflexivity.
Qed.

Lemma general_after_formats_keeps {rt : Runtime} (history : list LogRecord) :
  forall self,
    measurement (after_formats InfluxdbMonitorFormatter.format self history)
    = measurement self /\
    tags (after_formats InfluxdbMonitorFormatter.format self history) = tags self.
Proof.
  induction history as [ | record history IH ]; intros self; simpl.
  - split; reflexivity.
  - destruct (InfluxdbMonitorFormatter.format self record) as [ point | e ] eqn:E.
    + destruct (general_format_keeps _ _ _ E) as [ Hm Ht ].
      destruct (IH point) as [ Hm' Ht' ]. split; congruence.
    + apply IH.
Qed.

(** C9. A general formatter built on a host whose name strips to host-1
    formats the record {"loss": 0.2}, handed over as logged or taken from
    the queue, to the point with measurement gpu_ip_info or cpu_ip_info,
    tags ip_port = host-1 and type = gpu or cpu, and fields
    {"loss": 0.2}; measurement and tags are those the constructor chose,
    whatever records were formatted before. *)
Theorem general_format_loss_point {rt : Runtime} :
  forall nvidia_smi hostname history record,
    strip (stdout hostname) = "host-1" ->
    reads_dict record [("loss", VFloat 0.2)] ->
    InfluxdbMonitorFormatter.format
      (after_formats InfluxdbMonitorFormatter.format
         (InfluxdbMonitorFormatter.__init__ nvidia_smi hostname) history)
      record
    = Ok {| measurement :=
              if InfluxdbMonitorFormatter.is_gpu nvidia_smi
              then "gpu_ip_info" else "cpu_ip_info";
            tags :=
              [("ip_port", VStr "host-1");
               ("type", VStr (if InfluxdbMonitorFormatter.is_gpu nvidia_smi
                              then "gpu" else "cpu"))];
            fields := Some (VDict [("loss", VFloat 0.2)]) |}.
Proof.
  intros nvidia_smi hostname history record Hhost Hmsg.
  rewrite (general_format_dict _ _ _ Hmsg).
  destruct (general_after_formats_keeps history
              (InfluxdbMonitorFormatter.__init__ nvidia_smi hostname)) as [ Hm Ht ].
  rewrite Hm, Ht. simpl. rewrite Hhost. reflexivity.
Qed.

Lemma general_format_loss_point_witness :
  strip (stdout hostname_probe) = "host-1" /\
  reads_dict (rt := example_runtime sink_up)
    (logged (VDict [("loss", VFloat 0.2)])) [("loss", VFloat 0.2)] /\
  reads_dict (rt := example_runtime sink_up)
    (queued "{'loss': 0.2}") [("loss", VFloat 0.2)] /\
  InfluxdbMonitorFormatter.format (rt := example_runtime sink_up)
    (after_formats (InfluxdbMonitorFormatter.format (rt := example_runtime sink_up))
       (InfluxdbMonitorFormatter.__init__ gpu_probe hostname_probe)
       [logged (VDict [("A", VInt 1); ("B", VInt 2)]); queued "hello world"])
    (logged (VDict [("loss", VFloat 0.2)]))
  = Ok {| measurement := "gpu_ip_info";
          tags := [("ip_port", VStr "host-1"); ("type", VStr "gpu")];
          fields := Some (VDict [("loss", VFloat 0.2)]) |} /\
  InfluxdbMonitorFormatter.format (rt := example_runtime sink_up)
    (InfluxdbMonitorFormatter.__init__ no_gpu_probe hostname_probe)
    (queued "{'loss': 0.2}")
  = Ok {| measurement := "cpu_ip_info";
          tags := [("ip_port", VStr "host-1"); ("type", VStr "cpu")];
          fields := Some (VDict [("loss", VFloat 0.2)]) |}.
Proof.
  assert (Hlogged : reads_dict (rt := example_runtime sink_up)
                      (logged (VDict [("loss", VFloat 0.2)])) [("loss", VFloat 0.2)]).
  { left. reflexivity. }
  assert (Hqueued : reads_dict (rt := example_runtime sink_up)
                      (queued "{'loss': 0.2}") [("loss", VFloat 0.2)]).
  { right. split; reflexivity. }
  split; [ reflexivity | split; [ exact Hlogged | split; [ exact Hqueued | split ] ] ].
  - exact (general_format_loss_point (rt := example_runtime sink_up)
             gpu_probe hostname_probe
             [logged (VDict [("A", VInt 1); ("B", VInt 2)]); queued "hello world"]
             (logged (VDict [("loss", VFloat 0.2)])) eq_refl Hlogged).
  - exact (general_format_loss_point (rt := example_runtime sink_up)
             no_gpu_probe hostname_probe [] (queued "{'loss': 0.2}") eq_refl Hqueued).
Defined.

(** The same record as the listener gets it from the queue, its message
    already text. *)
Example general_format_loss_point_queued :
  InfluxdbMonitorFormatter.format (rt := example_runtime sink_up)
    (InfluxdbMonitorFormatter.__init__ gpu_probe hostname_probe)
    (queued "{'loss': 0.2}")
  = Ok {| measurement := "gpu_ip_info";
          tags := [("ip_port", VStr "host-1"); ("type", VStr "gpu")];
          fields := Some (VDict [("loss", VFloat 0.2)]) |}.
Proof. reflexivity. Qed.

(** The point made of a record in which the formatter finds the dict
    [d]: its fields are a dict with the keys of [d], in the same order. *)
Lemma general_format_fields {rt : Runtime} (self point : json_body)
  (record : LogRecord) (d : dict) :
  reads_dict record d ->
  InfluxdbMonitorFormatter.format self record = Ok point ->
  exists d',
    point = {| measurement := measurement self;
               tags := tags self;
               fields := Some (VDict d') |} /\
    _to_builtin (VDict d) = Ok (VDict d') /\
    dict_keys d' = dict_keys d.
Proof.
  intros Hd. rewrite (general_format_dict _ _ _ Hd).
  destruct (_to_builtin (VDict d)) as [ v | e ] eqn:E; cbn [bind]; [ | discriminate ].
  intros Hp. injection Hp as <-.
  destruct (to_builtin_dict d v E) as [ d' [ -> [ Hk _ ] ] ].
  exists d'. split; [ reflexivity | split; [ reflexivity | exact Hk ] ].
Qed.

(** A record in which the formatter finds a dict whose sequences can be
    rebuilt is formatted. *)
Lemma general_format_returns {rt : Runtime} (self : json_body)
  (record : LogRecord) (d : dict) :
  reads_dict record d ->
  rebuilds (VDict d) = true ->
  exists point, InfluxdbMonitorFormatter.format self record = Ok point.
Proof.
  intros Hd Hr. rewrite (general_format_dict _ _ _ Hd).
  destruct (to_builtin_returns (VDict d) Hr) as [ v -> ].
  eexists. reflexivity.
Qed.

Lemma dict_keys_nil (d d' : dict) :
  dict_keys d' = dict_keys d -> (d' = [] <-> d = []).
Proof.
  unfold dict_keys.
  destruct d as [ | kv d ], d' as [ | kv' d' ]; simpl; intros Hk;
    try discriminate; split; intros H; first [ reflexivity | discriminate ].
Qed.

(** C4, amended.  The filter rejects every record whose message is not a
    dict and accepts every record whose message is one, the empty dict
    included; and the point the general formatter makes of a record in
    which it finds the dict [d] has fields with the keys of [d], in the
    same order: the fields are empty exactly when [d] is the empty dict.
    The formatter makes a point whenever the sequences of [d] can be
    rebuilt. *)
Theorem point_fields_have_record_keys {rt : Runtime} :
  forall record,
    (is_dict (msg record) = false -> InfluxdbMonitorFilter.filter record = false) /\
    (forall d, msg record = VDict d -> InfluxdbMonitorFilter.filter record = true) /\
    (forall self d point,
       reads_dict record d ->
       InfluxdbMonitorFormatter.format self record = Ok point ->
       exists d',
         point = {| measurement := measurement self;
                    tags := tags self;
                    fields := Some (VDict d') |} /\
         dict_keys d' = dict_keys d /\
         (d' = [] <-> d = [])) /\
    (forall self d,
       reads_dict record d ->
       rebuilds (VDict d) = true ->
       exists point, InfluxdbMonitorFormatter.format self record = Ok point).
Proof.
  intros record. split; [ | split; [ | split ] ].
  - intros Hnd. unfold InfluxdbMonitorFilter.filter. rewrite Hnd. reflexivity.
  - intros d Hmsg. unfold InfluxdbMonitorFilter.filter. rewrite Hmsg. reflexivity.
  - intros self d point Hd Hp.
    destruct (general_format_fields self point record d Hd Hp) as [ d' [ -> [ _ Hk ] ] ].
    exists d'. split; [ reflexivity | split; [ exact Hk | ] ].
    exact (dict_keys_nil d d' Hk).
  - intros self d. apply general_format_returns.
Qed.

Lemma point_fields_have_record_keys_witness :
  reads_dict (rt := example_runtime sink_up) (logged nested_sample)
    [("step", VInt 12);
     ("loss", VFloat 0.25);
     ("done", VBool false);
     ("tag", VStr "a");
     ("hist", VList [VInt 1; VNone; VTuple [VInt (-2); VStr "b"]]);
     ("sub", VDict [("empty", VDict []); ("pair", VTuple [VFloat 1.5; VInt 0])])] /\
  InfluxdbMonitorFilter.filter (logged nested_sample) = true /\
  InfluxdbMonitorFilter.filter (logged (VStr "hello world")) = false /\
  exists d',
    InfluxdbMonitorFormatter.format (rt := example_runtime sink_up)
      (InfluxdbMonitorFormatter.__init__ no_gpu_probe hostname_probe)
      (logged nested_sample)
    = Ok {| measurement := "cpu_ip_info";
            tags := [("ip_port", VStr "host-1"); ("type", VStr "cpu")];
            fields := Some (VDict d') |} /\
    dict_keys d' = ["step"; "loss"; "done"; "tag"; "hist"; "sub"].
Proof.
  assert (Hd : reads_dict (rt := example_runtime sink_up) (logged nested_sample)
                 [("step", VInt 12);
                  ("loss", VFloat 0.25);
                  ("done", VBool false);
                  ("tag", VStr "a");
                  ("hist", VList [VInt 1; VNone; VTuple [VInt (-2); VStr "b"]]);
                  ("sub", VDict [("empty", VDict []);
                                 ("pair", VTuple [VFloat 1.5; VInt 0])])]).
  { left. reflexivity. }
  split; [ exact Hd | ].
  destruct (point_fields_have_record_keys (rt := example_runtime sink_up)
              (logged nested_sample)) as [ _ [ Hf [ Hp Hreturns ] ] ].
  destruct (Hreturns (InfluxdbMonitorFormatter.__init__ no_gpu_probe hostname_probe)
              _ Hd eq_refl) as [ point Hfmt ].
  destruct (Hp (InfluxdbMonitorFormatter.__init__ no_gpu_probe hostname_probe)
              _ point Hd Hfmt) as [ d' [ Hpoint [ Hk _ ] ] ].
  split; [ exact (Hf _ eq_refl) | split ].
  - exact (proj1 (point_fields_have_record_keys (rt := example_runtime sink_up)
                    (logged (VStr "hello world"))) eq_refl).
  - exists d'. split; [ rewrite Hfmt, Hpoint; reflexivity | exact Hk ].
Defined.

(** C4 as stated fails for the empty dict: the filter accepts it, the
    formatter makes it a point with no field, and the listener hands that
    point to [write_points]. *)
Example empty_dict_reaches_writer :
  InfluxdbMonitorFilter.filter (logged (VDict [])) = true /\
  InfluxdbMonitorFormatter.format (rt := example_runtime sink_up)
    (InfluxdbMonitorFormatter.__init__ no_gpu_probe hostname_probe)
    (logged (VDict []))
  = Ok {| measurement := "cpu_ip_info";
          tags := [("ip_port", VStr "host-1"); ("type", VStr "cpu")];
          fields := Some (VDict []) |} /\
  snd (InfluxdbMonitorHandler.listen (rt := example_runtime sink_up)
         (fst (fst (InfluxdbMonitorHandler.emit (rt := example_runtime sink_up)
                      (example_handler 1024) (logged (VDict []))))))
  = [PrintEmit "localhost" "8086" "monitordb" "cpu_ip_info"
       [("ip_port", VStr "host-1"); ("type", VStr "cpu")] [];
     WritePoints 0
       {| measurement := "cpu_ip_info";
          tags := [("ip_port", VStr "host-1"); ("type", VStr "cpu")];
          fields := Some (VDict []) |}].
Proof. split; [ | split ]; reflexivity. Qed.

(** ** The actor-metrics formatter *)

Lemma dict_keys_del (k k0 : string) (d : dict) :
  In k (dict_keys (dict_del k0 d)) <-> k <> k0 /\ In k (dict_keys d).
Proof.
  rewrite !dict_keys_get.
  destruct (String.eqb_spec k0 k) as [ Heq | Hne ].
  - subst k0. rewrite dict_get_del_same.
    split; [ intros Hn; now contradiction Hn | intros [ Hn _ ]; now contradiction Hn ].
  - rewrite (dict_get_del_other _ _ _ Hne).
    split; [ intros Hg; split; [ congruence | exact Hg ] | intros [ _ Hg ]; exact Hg ].
Qed.

(** The tags after a call that found the dict [d] in the message. *)
Lemma actor_format_ok {rt : Runtime} (self : json_body) (record : LogRecord)
  (d : dict) (has_role : bool) :
  read_literal record = Ok (VDict d) ->
  truthy (fst (dict_pop "role" d)) = Ok has_role ->
  ActorMetricsFormatter.format self record
  = Ok {| measurement := measurement self;
          tags :=
            (let tags1 := if has_role
                          then dict_set "role" (fst (dict_pop "role" d)) (tags self)
                          else tags self in
             let actor_id := fst (dict_pop "actor_id" (dict_del "role" d)) in
             if is_none actor_id then tags1
             else dict_set "actor_id" (VStr (py_str actor_id)) tags1);
          fields := Some (VDict (dict_del "actor_id" (dict_del "role" d))) |}.
Proof.
  intros Hl Ht. unfold ActorMetricsFormatter.format. rewrite Hl.
  unfold dict_pop in *. cbn [bind fst snd] in *. rewrite Ht. cbn [bind].
  reflexivity.
Qed.

Lemma actor_format_inv {rt : Runtime} (self point : json_body)
  (record : LogRecord) :
  ActorMetricsFormatter.format self record = Ok point ->
  exists d has_role,
    read_literal record = Ok (VDict d) /\
    truthy (fst (dict_pop "role" d)) = Ok has_role.
Proof.
  unfold ActorMetricsFormatter.format.
  destruct (read_literal record) as [ v | e ]; cbn [bind]; [ | discriminate ].
  destruct v as [ | | | | | | d | | | | | | | ]; try discriminate.
  unfold dict_pop. cbn [fst snd].
  destruct (truthy match dict_get "role" d with Some v => v | None => VNone end)
    as [ has_role | e ] eqn:Et; cbn [bind]; [ | discriminate ].
  intros _. exists d, has_role. split; [ reflexivity | exact Et ].
Qed.

Lemma actor_tags_role {rt : Runtime} (d : dict) (has_role : bool) (t : dict) :
  dict_get "role"
    (let tags1 := if has_role then dict_set "role" (fst (dict_pop "role" d)) t else t in
     let actor_id := fst (dict_pop "actor_id" (dict_del "role" d)) in
     if is_none actor_id then tags1
     else dict_set "actor_id" (VStr (py_str actor_id)) tags1)
  = if has_role then Some (fst (dict_pop "role" d)) else dict_get "role" t.
Proof.
  cbv zeta.
  assert (Hne : "actor_id" <> "role") by discriminate.
  assert (Hrole : dict_get "role"
                    (if has_role then dict_set "role" (fst (dict_pop "role" d)) t else t)
                  = if has_role then Some (fst (dict_pop "role" d)) else dict_get "role" t).
  { destruct has_role; [ apply dict_get_set_same | reflexivity ]. }
  destruct (is_none (fst (dict_pop "actor_id" (dict_del "role" d))));
    rewrite ?(dict_get_set_other _ _ _ _ Hne); exact Hrole.
Qed.

Lemma actor_tags_actor_id {rt : Runtime} (d : dict) (has_role : bool) (t : dict) :
  dict_get "actor_id"
    (let tags1 := if has_role then dict_set "role" (fst (dict_pop "role" d)) t else t in
     let actor_id := fst (dict_pop "actor_id" (dict_del "role" d)) in
     if is_none actor_id then tags1
     else dict_set "actor_id" (VStr (py_str actor_id)) tags1)
  = match dict_get "actor_id" d with
    | Some v => if is_none v then dict_get "actor_id" t else Some (VStr (py_str v))
    | None => dict_get "actor_id" t
    end.
Proof.
  cbv zeta.
  assert (Hne : "role" <> "actor_id") by discriminate.
  assert (Hold : dict_get "actor_id"
                   (if has_role then dict_set "role" (fst (dict_pop "role" d)) t else t)
                 = dict_get "actor_id" t).
  { destruct has_role; [ apply (dict_get_set_other _ _ _ _ Hne) | reflexivity ]. }
  assert (Hid : fst (dict_pop "actor_id" (dict_del "role" d))
                = match dict_get "actor_id" d with Some v => v | None => VNone end).
  { unfold dict_pop. cbn [fst]. now rewrite (dict_get_del_other _ _ d Hne). }
  rewrite Hid.
  destruct (dict_get "actor_id" d) as [ v | ]; [ | exact Hold ].
  destruct (is_none v); [ exact Hold | apply dict_get_set_same ].
Qed.

Lemma actor_tags_keys {rt : Runtime} (d : dict) (has_role : bool) (t : dict)
  (k : string) :
  In k (dict_keys
          (let tags1 := if has_role then dict_set "role" (fst (dict_pop "role" d)) t else t in
           let actor_id := fst (dict_pop "actor_id" (dict_del "role" d)) in
           if is_none actor_id then tags1
           else dict_set "actor_id" (VStr (py_str actor_id)) tags1)) ->
  In k (dict_keys t) \/ k = "role" \/ k = "actor_id".
Proof.
  cbv zeta. intros Hin.
  assert (Hstep : In k (dict_keys
                          (if has_role then dict_set "role" (fst (dict_pop "role" d)) t else t)) ->
                  In k (dict_keys t) \/ k = "role" \/ k = "actor_id").
  { destruct has_role; [ | now left ].
    rewrite dict_keys_set. intros [ -> | Hk ]; [ right; now left | now left ]. }
  destruct (is_none (fst (dict_pop "actor_id" (dict_del "role" d))));
    [ apply Hstep; exact Hin | ].
  apply dict_keys_set in Hin as [ -> | Hk ];
    [ right; now right | apply Hstep; exact Hk ].
Qed.

Lemma actor_tags_keep_keys {rt : Runtime} (d : dict) (has_role : bool) (t : dict)
  (k : string) :
  In k (dict_keys t) ->
  In k (dict_keys
          (let tags1 := if has_role then dict_set "role" (fst (dict_pop "role" d)) t else t in
           let actor_id := fst (dict_pop "actor_id" (dict_del "role" d)) in
           if is_none actor_id then tags1
           else dict_set "actor_id" (VStr (py_str actor_id)) tags1)).
Proof.
  cbv zeta. intros Hin.
  assert (Hstep : In k (dict_keys
                          (if has_role then dict_set "role" (fst (dict_pop "role" d)) t else t))).
  { destruct has_role; [ apply dict_keys_set; now right | exact Hin ]. }
  destruct (is_none (fst (dict_pop "actor_id" (dict_del "role" d))));
    [ exact Hstep | apply dict_keys_set; right; exact Hstep ].
Qed.

(** What a call that found the dict [d] in the message returns. *)
Lemma actor_format_spec {rt : Runtime} (self : json_body) (record : LogRecord)
  (d : dict) (has_role : bool) :
  read_literal record = Ok (VDict d) ->
  truthy (fst (dict_pop "role" d)) = Ok has_role ->
  exists point,
    ActorMetricsFormatter.format self record = Ok point /\
    measurement point = measurement self /\
    fields point = Some (VDict (dict_del "actor_id" (dict_del "role" d))) /\
    dict_get "role" (tags point)
    = (if has_role then Some (fst (dict_pop "role" d))
       else dict_get "role" (tags self)) /\
    dict_get "actor_id" (tags point)
    = match dict_get "actor_id" d with
      | Some v => if is_none v then dict_get "actor_id" (tags self)
                  else Some (VStr (py_str v))
      | None => dict_get "actor_id" (tags self)
      end /\
    (forall k, In k (dict_keys (tags point)) ->
               In k (dict_keys (tags self)) \/ k = "role" \/ k = "actor_id") /\
    (forall k, In k (dict_keys (tags self)) -> In k (dict_keys (tags point))).
Proof.
  intros Hl Ht. eexists. split; [ exact (actor_format_ok self record d has_role Hl Ht) | ].
  cbn [measurement tags fields].
  split; [ reflexivity | split; [ reflexivity | split; [ | split; [ | split ] ] ] ].
  - apply actor_tags_role.
  - apply actor_tags_actor_id.
  - intros k. apply actor_tags_keys.
  - intros k. apply actor_tags_keep_keys.
Qed.

Lemma actor_after_formats_tag_keys {rt : Runtime} (history : list LogRecord) :
  forall self k,
    In k (dict_keys (tags (after_formats ActorMetricsFormatter.format self history))) ->
    In k (dict_keys (tags self)) \/ k = "role" \/ k = "actor_id".
Proof.
  induction history as [ | record history IH ]; intros self k; simpl.
  - now left.
  - destruct (ActorMetricsFormatter.format self record) as [ point | e ] eqn:E;
      [ | apply IH ].
    intros Hin. apply IH in Hin as [ Hin | Hin ]; [ | now right ].
    destruct (actor_format_inv _ _ _ E) as [ d [ has_role [ Hl Ht ] ] ].
    destruct (actor_format_spec self record d has_role Hl Ht)
      as [ point' [ E' [ _ [ _ [ _ [ _ [ Hkeys _ ] ] ] ] ] ] ].
    rewrite E in E'. injection E' as <-. now apply Hkeys.
Qed.

Lemma actor_after_formats_keep_keys {rt : Runtime} (history : list LogRecord) :
  forall self k,
    In k (dict_keys (tags self)) ->
    In k (dict_keys (tags (after_formats ActorMetricsFormatter.format self history))).
Proof.
  induction history as [ | record history IH ]; intros self k Hin; simpl.
  - exact Hin.
  - destruct (ActorMetricsFormatter.format self record) as [ point | e ] eqn:E;
      [ | now apply IH ].
    apply IH.
    destruct (actor_format_inv _ _ _ E) as [ d [ has_role [ Hl Ht ] ] ].
    destruct (actor_format_spec self record d has_role Hl Ht)
      as [ point' [ E' [ _ [ _ [ _ [ _ [ _ Hkeep ] ] ] ] ] ] ].
    rewrite E in E'. injection E' as <-. now apply Hkeep.
Qed.

(** C3, amended.  When the message evaluates to the dict [d], the point's
    fields are [d] without the keys role and actor_id.  A role whose value
    is true in a condition (not None, False, 0, or empty) becomes the tag
    role with that value; for any other role value the tag role stays as
    it was.  An actor_id that is not None becomes the tag actor_id with
    the text [str()] gives for it. *)
Theorem actor_format_promotes {rt : Runtime} :
  forall self record d has_role,
    read_literal record = Ok (VDict d) ->
    truthy (fst (dict_pop "role" d)) = Ok has_role ->
    exists point,
      ActorMetricsFormatter.format self record = Ok point /\
      fields point = Some (VDict (dict_del "actor_id" (dict_del "role" d))) /\
      ~ In "role" (point_field_keys point) /\
      ~ In "actor_id" (point_field_keys point) /\
      (forall role, dict_get "role" d = Some role -> has_role = true ->
                    dict_get "role" (tags point) = Some role) /\
      (has_role = false ->
       dict_get "role" (tags point) = dict_get "role" (tags self)) /\
      (forall actor_id, dict_get "actor_id" d = Some actor_id ->
                        is_none actor_id = false ->
                        dict_get "actor_id" (tags point) = Some (VStr (py_str actor_id))).
Proof.
  intros self record d has_role Hl Ht.
  destruct (actor_format_spec self record d has_role Hl Ht)
    as [ point [ E [ _ [ Hf [ Hrole [ Hid _ ] ] ] ] ] ].
  exists point. split; [ exact E | split; [ exact Hf | ] ].
  unfold point_field_keys. rewrite Hf.
  split; [ | split; [ | split; [ | split ] ] ].
  - rewrite !dict_keys_del. intros [ _ [ Hne _ ] ]. now apply Hne.
  - rewrite dict_keys_del. intros [ Hne _ ]. now apply Hne.
  - intros role Hg ->. rewrite Hrole. unfold dict_pop. cbn [fst]. now rewrite Hg.
  - intros ->. exact Hrole.
  - intros actor_id Hg Hn. rewrite Hid, Hg, Hn. reflexivity.
Qed.

Lemma actor_format_promotes_witness :
  read_literal (rt := example_runtime sink_up)
    (queued "{'role': 'attacker', 'actor_id': 7, 'reward': 1.5}")
  = Ok (VDict [("role", VStr "attacker"); ("actor_id", VInt 7);
               ("reward", VFloat 1.5)]) /\
  truthy (VStr "attacker") = Ok true /\
  exists point,
    ActorMetricsFormatter.format (rt := example_runtime sink_up)
      (ActorMetricsFormatter.__init__ gpu_probe hostname_probe)
      (queued "{'role': 'attacker', 'actor_id': 7, 'reward': 1.5}")
    = Ok point /\
    fields point = Some (VDict [("reward", VFloat 1.5)]) /\
    dict_get "role" (tags point) = Some (VStr "attacker") /\
    dict_get "actor_id" (tags point) = Some (VStr "7").
Proof.
  split; [ reflexivity | split; [ reflexivity | ] ].
  destruct (actor_format_promotes (rt := example_runtime sink_up)
              (ActorMetricsFormatter.__init__ gpu_probe hostname_probe)
              (queued "{'role': 'attacker', 'actor_id': 7, 'reward': 1.5}")
              [("role", VStr "attacker"); ("actor_id", VInt 7); ("reward", VFloat 1.5)]
              true eq_refl eq_refl)
    as [ point [ E [ Hf [ _ [ _ [ Hrole [ _ Hid ] ] ] ] ] ] ].
  exists point. split; [ exact E | split; [ exact Hf | split ] ].
  - exact (Hrole (VStr "attacker") eq_refl eq_refl).
  - exact (Hid (VInt 7) eq_refl eq_refl).
Defined.

(** The example of the specification, evaluated. *)
Example actor_format_attacker :
  ActorMetricsFormatter.format (rt := example_runtime sink_up)
    (ActorMetricsFormatter.__init__ gpu_probe hostname_probe)
    (queued "{'role': 'attacker', 'actor_id': 7, 'reward': 1.5}")
  = Ok {| measurement := "actor_metrics";
          tags := [("ip_port", VStr "host-1"); ("type", VStr "gpu");
                   ("role", VStr "attacker"); ("actor_id", VStr "7")];
          fields := Some (VDict [("reward", VFloat 1.5)]) |}.
Proof. reflexivity. Qed.

(** A text that evaluates to a value with no [pop] of two arguments is
    refused: with AttributeError for a str, with TypeError for a list or a
    set. *)
Example actor_format_refuses_other_values :
  ActorMetricsFormatter.format (rt := example_runtime sink_up)
    (ActorMetricsFormatter.__init__ gpu_probe hostname_probe) (queued "{1, 2}")
  = Raise (TypeError "set.pop() takes no arguments (2 given)") /\
  ActorMetricsFormatter.format (rt := example_runtime sink_up)
    (ActorMetricsFormatter.__init__ gpu_probe hostname_probe) (queued "[1, 2]")
  = Raise (TypeError "pop expected at most 1 argument, got 2").
Proof. split; reflexivity. Qed.

(** C3 as stated fails for a record whose role is the empty string: the
    key leaves the fields and no tag role is set. *)
Example actor_format_empty_role_not_promoted :
  read_literal (rt := example_runtime sink_up) (queued "{'role': '', 'reward': 1.5}")
  = Ok (VDict [("role", VStr ""); ("reward", VFloat 1.5)]) /\
  ActorMetricsFormatter.format (rt := example_runtime sink_up)
    (ActorMetricsFormatter.__init__ gpu_probe hostname_probe)
    (queued "{'role': '', 'reward': 1.5}")
  = Ok {| measurement := "actor_metrics";
          tags := [("ip_port", VStr "host-1"); ("type", VStr "gpu")];
          fields := Some (VDict [("reward", VFloat 1.5)]) |} /\
  dict_get "role" [("ip_port", VStr "host-1"); ("type", VStr "gpu")] = None.
Proof. split; [ | split ]; reflexivity. Qed.

(** ** Tags against fields *)

Lemma init_tag_keys (nvidia_smi hostname : CompletedProcess) (k : string) :
  In k (dict_keys (tags (InfluxdbMonitorFormatter.__init__ nvidia_smi hostname))) ->
  k = "ip_port" \/ k = "type".
Proof.
  simpl. intros [ <- | [ <- | [] ] ]; [ now left | now right ].
Qed.

(** C5, amended.  In a point of either formatter, a key that is both a tag
    and a field is ip_port or type and is a key of the record: tags and
    fields are disjoint for every record with neither key.  The keys role
    and actor_id, which the actor-metrics formatter makes tags, are never
    among its fields.  The general formatter makes a point whenever the
    sequences of the record's dict can be rebuilt. *)
Theorem tags_fields_share_only_static_keys {rt : Runtime} :
  (forall nvidia_smi hostname history record d point,
     reads_dict record d ->
     InfluxdbMonitorFormatter.format
       (after_formats InfluxdbMonitorFormatter.format
          (InfluxdbMonitorFormatter.__init__ nvidia_smi hostname) history)
       record = Ok point ->
     forall k, In k (dict_keys (tags point)) -> In k (point_field_keys point) ->
               (k = "ip_port" \/ k = "type") /\ In k (dict_keys d)) /\
  (forall nvidia_smi hostname history record d,
     reads_dict record d ->
     rebuilds (VDict d) = true ->
     exists point,
       InfluxdbMonitorFormatter.format
         (after_formats InfluxdbMonitorFormatter.format
            (InfluxdbMonitorFormatter.__init__ nvidia_smi hostname) history)
         record = Ok point) /\
  (forall nvidia_smi hostname history record d has_role,
     read_literal record = Ok (VDict d) ->
     truthy (fst (dict_pop "role" d)) = Ok has_role ->
     exists point,
       ActorMetricsFormatter.format
         (after_formats ActorMetricsFormatter.format
            (ActorMetricsFormatter.__init__ nvidia_smi hostname) history)
         record = Ok point /\
       ~ In "role" (point_field_keys point) /\
       ~ In "actor_id" (point_field_keys point) /\
       forall k, In k (dict_keys (tags point)) -> In k (point_field_keys point) ->
                 (k = "ip_port" \/ k = "type") /\ In k (dict_keys d)).
Proof.
  split; [ | split ].
  - intros nvidia_smi hostname history record d point Hmsg Hp.
    destruct (general_format_fields _ point record d Hmsg Hp) as [ d' [ -> [ _ Hk ] ] ].
    unfold point_field_keys. cbn [tags fields]. rewrite Hk.
    destruct (general_after_formats_keeps history
                (InfluxdbMonitorFormatter.__init__ nvidia_smi hostname)) as [ _ Ht ].
    rewrite Ht. intros k Htag Hfield. split; [ | exact Hfield ].
    exact (init_tag_keys nvidia_smi hostname k Htag).
  - intros nvidia_smi hostname history record d. apply general_format_returns.
  - intros nvidia_smi hostname history record d has_role Hl Ht.
    destruct (actor_format_spec
                (after_formats ActorMetricsFormatter.format
                   (ActorMetricsFormatter.__init__ nvidia_smi hostname) history)
                record d has_role Hl Ht)
      as [ point [ E [ _ [ Hf [ _ [ _ [ Hkeys _ ] ] ] ] ] ] ].
    exists point. split; [ exact E | ].
    unfold point_field_keys. rewrite Hf.
    split; [ | split ].
    + rewrite !dict_keys_del. intros [ _ [ Hne _ ] ]. now apply Hne.
    + rewrite dict_keys_del. intros [ Hne _ ]. now apply Hne.
    + intros k Htag Hfield.
      rewrite !dict_keys_del in Hfield. destruct Hfield as [ Hid [ Hrole Hd ] ].
      split; [ | exact Hd ].
      apply Hkeys in Htag as [ Htag | [ -> | -> ] ];
        [ | now contradiction Hrole | now contradiction Hid ].
      apply actor_after_formats_tag_keys in Htag as [ Htag | [ -> | -> ] ];
        [ | now contradiction Hrole | now contradiction Hid ].
      exact (init_tag_keys nvidia_smi hostname k Htag).
Qed.

Lemma tags_fields_share_only_static_keys_witness :
  reads_dict (rt := example_runtime sink_up)
    (queued "{'loss': 0.2}") [("loss", VFloat 0.2)] /\
  (exists point,
     InfluxdbMonitorFormatter.format (rt := example_runtime sink_up)
       (after_formats (InfluxdbMonitorFormatter.format (rt := example_runtime sink_up))
          (InfluxdbMonitorFormatter.__init__ gpu_probe hostname_probe)
          [logged (VDict [("type", VStr "x")])])
       (queued "{'loss': 0.2}") = Ok point /\
     forall k, In k (dict_keys (tags point)) -> In k (point_field_keys point) ->
               (k = "ip_port" \/ k = "type") /\ In k ["loss"]) /\
  read_literal (rt := example_runtime sink_up)
    (queued "{'role': 'attacker', 'actor_id': 7, 'reward': 1.5}")
  = Ok (VDict [("role", VStr "attacker"); ("actor_id", VInt 7);
               ("reward", VFloat 1.5)]) /\
  truthy (VStr "attacker") = Ok true /\
  (exists point,
     ActorMetricsFormatter.format (rt := example_runtime sink_up)
       (after_formats (ActorMetricsFormatter.format (rt := example_runtime sink_up))
          (ActorMetricsFormatter.__init__ gpu_probe hostname_probe)
          [queued "{'reward': 2.5}"])
       (queued "{'role': 'attacker', 'actor_id': 7, 'reward': 1.5}") = Ok point /\
     ~ In "role" (point_field_keys point) /\
     ~ In "actor_id" (point_field_keys point) /\
     forall k, In k (dict_keys (tags point)) -> In k (point_field_keys point) ->
               (k = "ip_port" \/ k = "type") /\ In k ["role"; "actor_id"; "reward"]).
Proof.
  assert (Hqueued : reads_dict (rt := example_runtime sink_up)
                      (queued "{'loss': 0.2}") [("loss", VFloat 0.2)]).
  { right. split; reflexivity. }
  split; [ exact Hqueued | split; [ | split; [ reflexivity | split; [ reflexivity | ] ] ] ].
  - destruct (proj1 (proj2 (tags_fields_share_only_static_keys
                              (rt := example_runtime sink_up)))
                gpu_probe hostname_probe [logged (VDict [("type", VStr "x")])]
                (queued "{'loss': 0.2}") [("loss", VFloat 0.2)] Hqueued eq_refl)
      as [ point Hp ].
    exists point. split; [ exact Hp | ].
    exact (proj1 (tags_fields_share_only_static_keys (rt := example_runtime sink_up))
             gpu_probe hostname_probe [logged (VDict [("type", VStr "x")])]
             (queued "{'loss': 0.2}") [("loss", VFloat 0.2)] point Hqueued Hp).
  - exact (proj2 (proj2 (tags_fields_share_only_static_keys
                           (rt := example_runtime sink_up)))
             gpu_probe hostname_probe [queued "{'reward': 2.5}"]
             (queued "{'role': 'attacker', 'actor_id': 7, 'reward': 1.5}")
             [("role", VStr "attacker"); ("actor_id", VInt 7); ("reward", VFloat 1.5)]
             true eq_refl eq_refl).
Defined.

(** C5 as stated fails for a record with the key type: the general
    formatter's point has it among its tags and among its fields. *)
Example general_point_repeats_type_key :
  InfluxdbMonitorFormatter.format (rt := example_runtime sink_up)
    (InfluxdbMonitorFormatter.__init__ no_gpu_probe hostname_probe)
    (logged (VDict [("type", VStr "x")]))
  = Ok {| measurement := "cpu_ip_info";
          tags := [("ip_port", VStr "host-1"); ("type", VStr "cpu")];
          fields := Some (VDict [("type", VStr "x")]) |} /\
  dict_has "type" [("ip_port", VStr "host-1"); ("type", VStr "cpu")] = true /\
  dict_has "type" [("type", VStr "x")] = true.
Proof. split; [ | split ]; reflexivity. Qed.

(** ** Tags from one call to the next *)

(** C10. After a record whose role is true in a condition, a record with
    no key role gives a point that still has the first record's role among
    its tags; an actor_id that was made a tag stays likewise when the next
    record has none; and no tag key is ever dropped, whatever records are
    formatted. *)
Theorem actor_tags_persist {rt : Runtime} :
  forall self first second d1 d2 role,
    read_literal first = Ok (VDict d1) ->
    dict_get "role" d1 = Some role ->
    truthy role = Ok true ->
    read_literal second = Ok (VDict d2) ->
    dict_get "role" d2 = None ->
    exists point1 point2,
      ActorMetricsFormatter.format self first = Ok point1 /\
      ActorMetricsFormatter.format point1 second = Ok point2 /\
      dict_get "role" (tags point1) = Some role /\
      dict_get "role" (tags point2) = Some role /\
      (forall actor_id,
         dict_get "actor_id" d1 = Some actor_id -> is_none actor_id = false ->
         dict_get "actor_id" d2 = None ->
         dict_get "actor_id" (tags point2) = Some (VStr (py_str actor_id))) /\
      (forall history k,
         In k (dict_keys (tags point2)) ->
         In k (dict_keys (tags (after_formats ActorMetricsFormatter.format
                                  point2 history)))).
Proof.
  intros self first second d1 d2 role Hl1 Hg1 Ht1 Hl2 Hg2.
  assert (Hp1 : truthy (fst (dict_pop "role" d1)) = Ok true).
  { unfold dict_pop. cbn [fst]. now rewrite Hg1. }
  assert (Hp2 : truthy (fst (dict_pop "role" d2)) = Ok false).
  { unfold dict_pop. cbn [fst]. now rewrite Hg2. }
  destruct (actor_format_spec self first d1 true Hl1 Hp1)
    as [ point1 [ E1 [ _ [ _ [ Hrole1 [ Hid1 _ ] ] ] ] ] ].
  destruct (actor_format_spec point1 second d2 false Hl2 Hp2)
    as [ point2 [ E2 [ _ [ _ [ Hrole2 [ Hid2 _ ] ] ] ] ] ].
  assert (Hr1 : dict_get "role" (tags point1) = Some role).
  { rewrite Hrole1. unfold dict_pop. cbn [fst]. now rewrite Hg1. }
  exists point1, point2.
  split; [ exact E1 | split; [ exact E2 | split; [ exact Hr1 | split; [ | split ] ] ] ].
  - rewrite Hrole2. exact Hr1.
  - intros actor_id Ha1 Hn Ha2. rewrite Hid2, Ha2, Hid1, Ha1, Hn. reflexivity.
  - intros history k. apply actor_after_formats_keep_keys.
Qed.

Lemma actor_tags_persist_witness :
  read_literal (rt := example_runtime sink_up)
    (queued "{'role': 'attacker', 'actor_id': 7, 'reward': 1.5}")
  = Ok (VDict [("role", VStr "attacker"); ("actor_id", VInt 7);
               ("reward", VFloat 1.5)]) /\
  truthy (VStr "attacker") = Ok true /\
  read_literal (rt := example_runtime sink_up) (queued "{'reward': 2.5}")
  = Ok (VDict [("reward", VFloat 2.5)]) /\
  exists point1 point2,
    ActorMetricsFormatter.format (rt := example_runtime sink_up)
      (ActorMetricsFormatter.__init__ gpu_probe hostname_probe)
      (queued "{'role': 'attacker', 'actor_id': 7, 'reward': 1.5}") = Ok point1 /\
    ActorMetricsFormatter.format (rt := example_runtime sink_up)
      point1 (queued "{'reward': 2.5}") = Ok point2 /\
    dict_get "role" (tags point2) = Some (VStr "attacker") /\
    dict_get "actor_id" (tags point2) = Some (VStr "7").
Proof.
  split; [ reflexivity | split; [ reflexivity | split; [ reflexivity | ] ] ].
  destruct (actor_tags_persist (rt := example_runtime sink_up)
              (ActorMetricsFormatter.__init__ gpu_probe hostname_probe)
              (queued "{'role': 'attacker', 'actor_id': 7, 'reward': 1.5}")
              (queued "{'reward': 2.5}")
              [("role", VStr "attacker"); ("actor_id", VInt 7); ("reward", VFloat 1.5)]
              [("reward", VFloat 2.5)]
              (VStr "attacker") eq_refl eq_refl eq_refl eq_refl eq_refl)
    as [ point1 [ point2 [ E1 [ E2 [ _ [ Hrole [ Hid _ ] ] ] ] ] ] ].
  exists point1, point2.
  split; [ exact E1 | split; [ exact E2 | split; [ exact Hrole | ] ] ].
  exact (Hid (VInt 7) eq_refl eq_refl eq_refl).
Defined.

(** The second point of that run, evaluated. *)
Example actor_format_reward_after_attacker :
  ActorMetricsFormatter.format (rt := example_runtime sink_up)
    {| measurement := "actor_metrics";
       tags := [("ip_port", VStr "host-1"); ("type", VStr "gpu");
                ("role", VStr "attacker"); ("actor_id", VStr "7")];
       fields := Some (VDict [("reward", VFloat 1.5)]) |}
    (queued "{'reward': 2.5}")
  = Ok {| measurement := "actor_metrics";
          tags := [("ip_port", VStr "host-1"); ("type", VStr "gpu");
                   ("role", VStr "attacker"); ("actor_id", VStr "7")];
          fields := Some (VDict [("reward", VFloat 2.5)]) |}.
Proof. reflexivity. Qed.

(** ** The writer *)

Lemma inner_format_client {rt : Runtime} (self self1 : InfluxdbMonitorHandlerInner.t)
  (record : LogRecord) (point : json_body) :
  InfluxdbMonitorHandlerInner.format self record = Ok (point, self1) ->
  InfluxdbMonitorHandlerInner._client self1 = InfluxdbMonitorHandlerInner._client self.
Proof.
  unfold InfluxdbMonitorHandlerInner.format.
  destruct (InfluxdbMonitorHandlerInner.formatter self) as [ body | body ].
  - destruct (InfluxdbMonitorFormatter.format body record); cbn [bind];
      [ | discriminate ].
    intros Hp. injection Hp as _ <-. reflexivity.
  - destruct (ActorMetricsFormatter.format body record); cbn [bind];
      [ | discriminate ].
    intros Hp. injection Hp as _ <-. reflexivity.
Qed.

Lemma inner_format_endpoint {rt : Runtime} (self self1 : InfluxdbMonitorHandlerInner.t)
  (record : LogRecord) (point : json_body) :
  InfluxdbMonitorHandlerInner.format self record = Ok (point, self1) ->
  InfluxdbMonitorHandlerInner._ip self1 = InfluxdbMonitorHandlerInner._ip self /\
  InfluxdbMonitorHandlerInner._port self1 = InfluxdbMonitorHandlerInner._port self /\
  InfluxdbMonitorHandlerInner._database self1
  = InfluxdbMonitorHandlerInner._database self.
Proof.
  unfold InfluxdbMonitorHandlerInner.format.
  destruct (InfluxdbMonitorHandlerInner.formatter self) as [ body | body ].
  - destruct (InfluxdbMonitorFormatter.format body record); cbn [bind];
      [ | discriminate ].
    intros Hp. injection Hp as _ <-. repeat split.
  - destruct (ActorMetricsFormatter.format body record); cbn [bind];
      [ | discriminate ].
    intros Hp. injection Hp as _ <-. repeat split.
Qed.

Lemma inner_format_raises_again {rt : Runtime} (self : InfluxdbMonitorHandlerInner.t)
  (record : LogRecord) (e e0 : exn) :
  InfluxdbMonitorHandlerInner.format self record = Raise e ->
  InfluxdbMonitorHandlerInner.format
    (fst (InfluxdbMonitorHandlerInner.reconnect self e0)) record = Raise e.
Proof.
  unfold InfluxdbMonitorHandlerInner.format.
  cbn [InfluxdbMonitorHandlerInner.reconnect fst InfluxdbMonitorHandlerInner.formatter].
  destruct (InfluxdbMonitorHandlerInner.formatter self) as [ body | body ].
  - destruct (InfluxdbMonitorFormatter.format body record); cbn [bind];
      [ discriminate | intros H; exact H ].
  - destruct (ActorMetricsFormatter.format body record); cbn [bind];
      [ discriminate | intros H; exact H ].
Qed.

(** The three ways of one attempt: the record cannot be formatted; the
    fields of its point have no [keys()]; or the diagnostic line is printed
    and [write_points] is called on the client in use. *)
Lemma attempt_unformatted {rt : Runtime} (self : InfluxdbMonitorHandlerInner.t)
  (record : LogRecord) (e : exn) :
  InfluxdbMonitorHandlerInner.format self record = Raise e ->
  InfluxdbMonitorHandlerInner.attempt self record = (self, [], Raise e).
Proof.
  intros Hf. unfold InfluxdbMonitorHandlerInner.attempt. now rewrite Hf.
Qed.

Lemma attempt_unlisted {rt : Runtime} (self self1 : InfluxdbMonitorHandlerInner.t)
  (record : LogRecord) (point : json_body) (e : exn) :
  InfluxdbMonitorHandlerInner.format self record = Ok (point, self1) ->
  InfluxdbMonitorHandlerInner.field_keys point = Raise e ->
  InfluxdbMonitorHandlerInner.attempt self record = (self1, [], Raise e).
Proof.
  intros Hf Hk. unfold InfluxdbMonitorHandlerInner.attempt. now rewrite Hf, Hk.
Qed.

Lemma attempt_formatted {rt : Runtime} (self self1 : InfluxdbMonitorHandlerInner.t)
  (record : LogRecord) (point : json_body) (keys : list string) :
  InfluxdbMonitorHandlerInner.format self record = Ok (point, self1) ->
  InfluxdbMonitorHandlerInner.field_keys point = Ok keys ->
  InfluxdbMonitorHandlerInner.attempt self record
  = (self1,
     [PrintEmit (InfluxdbMonitorHandlerInner._ip self)
        (InfluxdbMonitorHandlerInner._port self)
        (InfluxdbMonitorHandlerInner._database self)
        (measurement point) (tags point) keys;
      WritePoints (InfluxdbMonitorHandlerInner._client self) point],
     write_points (InfluxdbMonitorHandlerInner._client self) point).
Proof.
  intros Hf Hk. unfold InfluxdbMonitorHandlerInner.attempt.
  rewrite Hf, Hk, (inner_format_client _ _ _ _ Hf). reflexivity.
Qed.

(** One attempt keeps the client and its address, prints no error and
    calls [write_points] at most once; it raises when the store takes no
    write. *)
Lemma attempt_shape {rt : Runtime} (self : InfluxdbMonitorHandlerInner.t)
  (record : LogRecord) :
  exists self1 out r,
    InfluxdbMonitorHandlerInner.attempt self record = (self1, out, r) /\
    InfluxdbMonitorHandlerInner._client self1 = InfluxdbMonitorHandlerInner._client self /\
    printed_errors out = [] /\
    List.length (writes out) <= 1 /\
    (always_fails -> exists e, r = Raise e).
Proof.
  unfold InfluxdbMonitorHandlerInner.attempt.
  destruct (InfluxdbMonitorHandlerInner.format self record) as [ [ point self1 ] | e ] eqn:E.
  - pose proof (inner_format_client _ _ _ _ E) as Hc.
    destruct (InfluxdbMonitorHandlerInner.field_keys point) as [ keys | e ].
    + do 3 eexists. split; [ reflexivity | ].
      split; [ exact Hc | split; [ reflexivity | split; [ simpl; lia | ] ] ].
      intros Hfail. apply Hfail.
    + do 3 eexists. split; [ reflexivity | ].
      split; [ exact Hc | split; [ reflexivity | split; [ simpl; lia | ] ] ].
      intros _. now exists e.
  - do 3 eexists. split; [ reflexivity | ].
    split; [ reflexivity | split; [ reflexivity | split; [ simpl; lia | ] ] ].
    intros _. now exists e.
Qed.

Lemma attempt_endpoint {rt : Runtime} (self self1 : InfluxdbMonitorHandlerInner.t)
  (record : LogRecord) (out : list event) (r : result unit) :
  InfluxdbMonitorHandlerInner.attempt self record = (self1, out, r) ->
  InfluxdbMonitorHandlerInner._client self1 = InfluxdbMonitorHandlerInner._client self /\
  InfluxdbMonitorHandlerInner._ip self1 = InfluxdbMonitorHandlerInner._ip self /\
  InfluxdbMonitorHandlerInner._port self1 = InfluxdbMonitorHandlerInner._port self /\
  InfluxdbMonitorHandlerInner._database self1
  = InfluxdbMonitorHandlerInner._database self.
Proof.
  unfold InfluxdbMonitorHandlerInner.attempt.
  destruct (InfluxdbMonitorHandlerInner.format self record) as [ [ point self0 ] | e ] eqn:E.
  - pose proof (inner_format_client _ _ _ _ E) as Hc.
    pose proof (inner_format_endpoint _ _ _ _ E) as He.
    destruct (InfluxdbMonitorHandlerInner.field_keys point) as [ keys | e ];
      intros Ha; assert (Hs : self0 = self1) by congruence; subst self0;
      split; [ exact Hc | exact He | exact Hc | exact He ].
  - intros Ha. assert (Hs : self = self1) by congruence. subst self1.
    repeat split.
Qed.

Lemma writes_app (out1 out2 : list event) :
  writes (out1 ++ out2) = writes out1 ++ writes out2.
Proof. apply filter_app. Qed.

Lemma printed_errors_app (out1 out2 : list event) :
  printed_errors (out1 ++ out2) = printed_errors out1 ++ printed_errors out2.
Proof.
  induction out1 as [ | e out1 IH ]; simpl; [ reflexivity | ].
  destruct e; simpl; now rewrite IH.
Qed.

(** A record that the formatter could format is formatted again after a
    reconnection, to a point with the same fields. *)
Lemma format_again {rt : Runtime} (self self1 : InfluxdbMonitorHandlerInner.t)
  (record : LogRecord) (point : json_body) (e : exn) :
  InfluxdbMonitorHandlerInner.format self record = Ok (point, self1) ->
  exists point2 self2,
    InfluxdbMonitorHandlerInner.format
      (fst (InfluxdbMonitorHandlerInner.reconnect self1 e)) record
    = Ok (point2, self2) /\
    fields point2 = fields point.
Proof.
  unfold InfluxdbMonitorHandlerInner.format.
  destruct (InfluxdbMonitorHandlerInner.formatter self) as [ body | body ].
  - destruct (InfluxdbMonitorFormatter.format body record) as [ p | e0 ] eqn:E;
      cbn [bind]; [ | discriminate ].
    intros Hp. injection Hp as <- <-.
    cbn [InfluxdbMonitorHandlerInner.reconnect fst
         InfluxdbMonitorHandlerInner.formatter].
    destruct (general_format_inv _ _ _ E) as [ v [ -> Hany ] ].
    rewrite Hany. cbn [bind]. do 2 eexists. split; reflexivity.
  - destruct (ActorMetricsFormatter.format body record) as [ p | e0 ] eqn:E;
      cbn [bind]; [ | discriminate ].
    intros Hp. injection Hp as <- <-.
    cbn [InfluxdbMonitorHandlerInner.reconnect fst
         InfluxdbMonitorHandlerInner.formatter].
    destruct (actor_format_inv _ _ _ E) as [ d [ has_role [ Hl Ht ] ] ].
    destruct (actor_format_spec body record d has_role Hl Ht)
      as [ p1 [ E1 [ _ [ Hf1 _ ] ] ] ].
    destruct (actor_format_spec p record d has_role Hl Ht)
      as [ p2 [ E2 [ _ [ Hf2 _ ] ] ] ].
    rewrite E in E1. injection E1 as <-.
    rewrite E2. cbn [bind]. do 2 eexists. split; [ reflexivity | congruence ].
Qed.

Lemma field_keys_same (point point2 : json_body) :
  fields point2 = fields point ->
  InfluxdbMonitorHandlerInner.field_keys point2
  = InfluxdbMonitorHandlerInner.field_keys point.
Proof.
  unfold InfluxdbMonitorHandlerInner.field_keys. now intros ->.
Qed.

(** What [emit] does when both attempts raise: after each, the exception
    is printed, the client closed and the next one created. *)
Lemma emit_two_failures {rt : Runtime} (self self1 self2 : InfluxdbMonitorHandlerInner.t)
  (record : LogRecord) (out1 out2 : list event) (e1 e2 : exn) :
  InfluxdbMonitorHandlerInner.attempt self record = (self1, out1, Raise e1) ->
  InfluxdbMonitorHandlerInner.attempt
    (fst (InfluxdbMonitorHandlerInner.reconnect self1 e1)) record
  = (self2, out2, Raise e2) ->
  InfluxdbMonitorHandlerInner.emit self record
  = ({| InfluxdbMonitorHandlerInner._ip := InfluxdbMonitorHandlerInner._ip self;
        InfluxdbMonitorHandlerInner._port := InfluxdbMonitorHandlerInner._port self;
        InfluxdbMonitorHandlerInner._database :=
          InfluxdbMonitorHandlerInner._database self;
        InfluxdbMonitorHandlerInner._client :=
          S (S (InfluxdbMonitorHandlerInner._client self));
        InfluxdbMonitorHandlerInner.formatter :=
          InfluxdbMonitorHandlerInner.formatter self2 |},
     out1
     ++ [PrintError e1;
         CloseClient (InfluxdbMonitorHandlerInner._client self);
         CreateClient (S (InfluxdbMonitorHandlerInner._client self))]
     ++ out2
     ++ [PrintError e2;
         CloseClient (S (InfluxdbMonitorHandlerInner._client self));
         CreateClient (S (S (InfluxdbMonitorHandlerInner._client self)))],
     Ok tt).
Proof.
  intros E1 E2.
  destruct (attempt_endpoint _ _ _ _ _ E1) as [ Hc1 [ Hip1 [ Hport1 Hdb1 ] ] ].
  destruct (attempt_endpoint _ _ _ _ _ E2) as [ Hc2 [ Hip2 [ Hport2 Hdb2 ] ] ].
  unfold InfluxdbMonitorHandlerInner.emit.
  cbn [InfluxdbMonitorHandlerInner.attempts].
  rewrite E1.
  cbn [InfluxdbMonitorHandlerInner.reconnect fst snd
       InfluxdbMonitorHandlerInner._client InfluxdbMonitorHandlerInner._ip
       InfluxdbMonitorHandlerInner._port InfluxdbMonitorHandlerInner._database] in *.
  rewrite E2.
  rewrite Hc2, Hip2, Hport2, Hdb2, Hc1, Hip1, Hport1, Hdb1, app_nil_r.
  reflexivity.
Qed.

(** C1, amended.  When the store takes no write, [emit] makes its two
    attempts and returns None.  After each attempt it prints the
    exception, closes the client in use and creates the next one, so that
    a third client is left behind.  It calls [write_points] at most twice:
    on the first client and on the one created after the first failure
    when the record formats to a point whose fields have [keys()], and not
    at all when the record cannot be formatted or the fields have none.
    It raises nothing and returns no error; the listener has taken the
    record off the queue and it is not put back. *)
Theorem emit_tries_twice_and_returns_none {rt : Runtime} :
  always_fails ->
  forall self record,
    exists last out out1 out2 e1 e2,
      InfluxdbMonitorHandlerInner.emit self record
      = ({| InfluxdbMonitorHandlerInner._ip := InfluxdbMonitorHandlerInner._ip self;
            InfluxdbMonitorHandlerInner._port := InfluxdbMonitorHandlerInner._port self;
            InfluxdbMonitorHandlerInner._database :=
              InfluxdbMonitorHandlerInner._database self;
            InfluxdbMonitorHandlerInner._client :=
              S (S (InfluxdbMonitorHandlerInner._client self));
            InfluxdbMonitorHandlerInner.formatter := last |},
         out, Ok tt) /\
      out = out1
            ++ [PrintError e1;
                CloseClient (InfluxdbMonitorHandlerInner._client self);
                CreateClient (S (InfluxdbMonitorHandlerInner._client self))]
            ++ out2
            ++ [PrintError e2;
                CloseClient (S (InfluxdbMonitorHandlerInner._client self));
                CreateClient (S (S (InfluxdbMonitorHandlerInner._client self)))] /\
      List.length (writes out) <= 2 /\
      (forall e,
         InfluxdbMonitorHandlerInner.format self record = Raise e ->
         out1 = [] /\ out2 = [] /\ e1 = e /\ e2 = e) /\
      (forall point self1 e,
         InfluxdbMonitorHandlerInner.format self record = Ok (point, self1) ->
         InfluxdbMonitorHandlerInner.field_keys point = Raise e ->
         out1 = [] /\ out2 = [] /\ e1 = e /\ e2 = e) /\
      (forall point self1 keys,
         InfluxdbMonitorHandlerInner.format self record = Ok (point, self1) ->
         InfluxdbMonitorHandlerInner.field_keys point = Ok keys ->
         exists point2,
           out1 = [PrintEmit (InfluxdbMonitorHandlerInner._ip self)
                     (InfluxdbMonitorHandlerInner._port self)
                     (InfluxdbMonitorHandlerInner._database self)
                     (measurement point) (tags point) keys;
                   WritePoints (InfluxdbMonitorHandlerInner._client self) point] /\
           out2 = [PrintEmit (InfluxdbMonitorHandlerInner._ip self)
                     (InfluxdbMonitorHandlerInner._port self)
                     (InfluxdbMonitorHandlerInner._database self)
                     (measurement point2) (tags point2) keys;
                   WritePoints (S (InfluxdbMonitorHandlerInner._client self)) point2] /\
           fields point2 = fields point /\
           write_points (InfluxdbMonitorHandlerInner._client self) point = Raise e1 /\
           write_points (S (InfluxdbMonitorHandlerInner._client self)) point2
           = Raise e2) /\
      (forall size rest,
         InfluxdbMonitorHandler.listen
           {| InfluxdbMonitorHandler._queue :=
                {| maxsize := size; items := record :: rest |};
              InfluxdbMonitorHandler._handler := self |}
         = ({| InfluxdbMonitorHandler._queue := {| maxsize := size; items := rest |};
               InfluxdbMonitorHandler._handler :=
                 {| InfluxdbMonitorHandlerInner._ip :=
                      InfluxdbMonitorHandlerInner._ip self;
                    InfluxdbMonitorHandlerInner._port :=
                      InfluxdbMonitorHandlerInner._port self;
                    InfluxdbMonitorHandlerInner._database :=
                      InfluxdbMonitorHandlerInner._database self;
                    InfluxdbMonitorHandlerInner._client :=
                      S (S (InfluxdbMonitorHandlerInner._client self));
                    InfluxdbMonitorHandlerInner.formatter := last |} |}, out)).
Proof.
  intros Hfail self record.
  assert (Hlisten :
    forall h out,
      InfluxdbMonitorHandlerInner.emit self record = (h, out, Ok tt) ->
      forall size rest,
        InfluxdbMonitorHandler.listen
          {| InfluxdbMonitorHandler._queue :=
               {| maxsize := size; items := record :: rest |};
             InfluxdbMonitorHandler._handler := self |}
        = ({| InfluxdbMonitorHandler._queue := {| maxsize := size; items := rest |};
              InfluxdbMonitorHandler._handler := h |}, out)).
  { intros h out Hemit size rest. unfold InfluxdbMonitorHandler.listen.
    cbn [InfluxdbMonitorHandler._queue InfluxdbMonitorHandler._handler items maxsize].
    rewrite Hemit. reflexivity. }
  destruct (InfluxdbMonitorHandlerInner.format self record)
    as [ [ point self1 ] | e ] eqn:Ef.
  - destruct (InfluxdbMonitorHandlerInner.field_keys point) as [ keys | e ] eqn:Ek.
    + destruct (Hfail (InfluxdbMonitorHandlerInner._client self) point) as [ e1 Hw1 ].
      pose proof (attempt_formatted _ _ _ _ _ Ef Ek) as A1. rewrite Hw1 in A1.
      destruct (format_again _ _ _ _ e1 Ef) as [ point2 [ self2 [ Ef2 Hfields ] ] ].
      destruct (inner_format_endpoint _ _ _ _ Ef) as [ Hip [ Hport Hdb ] ].
      destruct (Hfail (S (InfluxdbMonitorHandlerInner._client self)) point2)
        as [ e2 Hw2 ].
      assert (A2 : InfluxdbMonitorHandlerInner.attempt
                     (fst (InfluxdbMonitorHandlerInner.reconnect self1 e1)) record
                   = (self2,
                      [PrintEmit (InfluxdbMonitorHandlerInner._ip self)
                         (InfluxdbMonitorHandlerInner._port self)
                         (InfluxdbMonitorHandlerInner._database self)
                         (measurement point2) (tags point2) keys;
                       WritePoints (S (InfluxdbMonitorHandlerInner._client self)) point2],
                      Raise e2)).
      { rewrite (attempt_formatted _ _ _ _ _ Ef2
                   (eq_trans (field_keys_same _ _ Hfields) Ek)).
        cbn [InfluxdbMonitorHandlerInner.reconnect fst
             InfluxdbMonitorHandlerInner._client InfluxdbMonitorHandlerInner._ip
             InfluxdbMonitorHandlerInner._port InfluxdbMonitorHandlerInner._database].
        rewrite Hip, Hport, Hdb, (inner_format_client _ _ _ _ Ef), Hw2. reflexivity. }
      pose proof (emit_two_failures _ _ _ _ _ _ _ _ A1 A2) as Hemit.
      do 6 eexists. split; [ exact Hemit | ].
      split; [ reflexivity | split; [ simpl; lia | ] ].
      split; [ intros e0 He0; discriminate He0 | ].
      split; [ intros p s e0 Hp He0; congruence | ].
      split; [ | exact (Hlisten _ _ Hemit) ].
      intros p s ks Hp Hks.
      assert (p = point) by congruence. subst p.
      assert (ks = keys) by congruence. subst ks.
      exists point2.
      split; [ reflexivity | split; [ reflexivity | split; [ exact Hfields | ] ] ].
      split; [ exact Hw1 | exact Hw2 ].
    + pose proof (attempt_unlisted _ _ _ _ _ Ef Ek) as A1.
      destruct (format_again _ _ _ _ e Ef) as [ point2 [ self2 [ Ef2 Hfields ] ] ].
      pose proof (attempt_unlisted _ _ _ _ _ Ef2
                    (eq_trans (field_keys_same _ _ Hfields) Ek)) as A2.
      pose proof (emit_two_failures _ _ _ _ _ _ _ _ A1 A2) as Hemit.
      do 6 eexists. split; [ exact Hemit | ].
      split; [ reflexivity | split; [ simpl; lia | ] ].
      split; [ intros e0 He0; discriminate He0 | ].
      split; [ | split; [ intros p s ks Hp Hks; congruence | exact (Hlisten _ _ Hemit) ] ].
      intros p s e0 Hp He0.
      assert (p = point) by congruence. subst p.
      assert (e0 = e) by congruence. subst e0.
      repeat split.
  - pose proof (attempt_unformatted _ _ _ Ef) as A1.
    pose proof (attempt_unformatted _ _ _ (inner_format_raises_again _ _ _ e Ef)) as A2.
    pose proof (emit_two_failures _ _ _ _ _ _ _ _ A1 A2) as Hemit.
    do 6 eexists. split; [ exact Hemit | ].
    split; [ reflexivity | split; [ simpl; lia | ] ].
    split; [ | split; [ intros p s e0 Hp; discriminate Hp
                      | split; [ intros p s ks Hp; discriminate Hp
                               | exact (Hlisten _ _ Hemit) ] ] ].
    intros e0 He0. assert (e0 = e) by congruence. subst e0. repeat split.
Qed.

Lemma emit_tries_twice_and_returns_none_witness :
  always_fails (rt := example_runtime sink_down) /\
  exists last out out1 out2 e1 e2,
    InfluxdbMonitorHandlerInner.emit (rt := example_runtime sink_down)
      (example_inner
         (General (InfluxdbMonitorFormatter.__init__ no_gpu_probe hostname_probe)))
      (queued "{'loss': 0.2}")
    = ({| InfluxdbMonitorHandlerInner._ip := "localhost";
          InfluxdbMonitorHandlerInner._port := "8086";
          InfluxdbMonitorHandlerInner._database := "monitordb";
          InfluxdbMonitorHandlerInner._client := 2;
          InfluxdbMonitorHandlerInner.formatter := last |}, out, Ok tt) /\
    out = out1 ++ [PrintError e1; CloseClient 0; CreateClient 1]
          ++ out2 ++ [PrintError e2; CloseClient 1; CreateClient 2] /\
    List.length (writes out) <= 2.
Proof.
  assert (Hfail : always_fails (rt := example_runtime sink_down)).
  { intros client point. eexists. reflexivity. }
  split; [ exact Hfail | ].
  destruct (emit_tries_twice_and_returns_none (rt := example_runtime sink_down) Hfail
              (example_inner
                 (General (InfluxdbMonitorFormatter.__init__ no_gpu_probe hostname_probe)))
              (queued "{'loss': 0.2}"))
    as [ last [ out [ out1 [ out2 [ e1 [ e2 [ E [ Hout [ Hw _ ] ] ] ] ] ] ] ] ].
  exists last, out, out1, out2, e1, e2.
  split; [ exact E | split; [ exact Hout | exact Hw ] ].
Defined.

(** C1 as stated fails on what [emit] returns: with a store that refuses
    both writes the call returns None like any other; the refusal is
    printed twice and carried nowhere. *)
Example emit_returns_none_when_store_is_down :
  InfluxdbMonitorHandlerInner.emit (rt := example_runtime sink_down)
    (example_inner
       (General (InfluxdbMonitorFormatter.__init__ no_gpu_probe hostname_probe)))
    (queued "{'loss': 0.2}")
  = ({| InfluxdbMonitorHandlerInner._ip := "localhost";
        InfluxdbMonitorHandlerInner._port := "8086";
        InfluxdbMonitorHandlerInner._database := "monitordb";
        InfluxdbMonitorHandlerInner._client := 2;
        InfluxdbMonitorHandlerInner.formatter :=
          General {| measurement := "cpu_ip_info";
                     tags := [("ip_port", VStr "host-1"); ("type", VStr "cpu")];
                     fields := Some (VDict [("loss", VFloat 0.2)]) |} |},
     [PrintEmit "localhost" "8086" "monitordb" "cpu_ip_info"
        [("ip_port", VStr "host-1"); ("type", VStr "cpu")] ["loss"];
      WritePoints 0
        {| measurement := "cpu_ip_info";
           tags := [("ip_port", VStr "host-1"); ("type", VStr "cpu")];
           fields := Some (VDict [("loss", VFloat 0.2)]) |};
      PrintError (OtherError "connection refused");
      CloseClient 0;
      CreateClient 1;
      PrintEmit "localhost" "8086" "monitordb" "cpu_ip_info"
        [("ip_port", VStr "host-1"); ("type", VStr "cpu")] ["loss"];
      WritePoints 1
        {| measurement := "cpu_ip_info";
           tags := [("ip_port", VStr "host-1"); ("type", VStr "cpu")];
           fields := Some (VDict [("loss", VFloat 0.2)]) |};
      PrintError (OtherError "connection refused");
      CloseClient 1;
      CreateClient 2],
     Ok tt).
Proof. reflexivity. Qed.

(** A text that evaluates to a list is formatted, to a point whose fields
    are that list; the diagnostic line then fails on [keys()], twice, and
    nothing is written. *)
Example emit_writes_nothing_for_a_list :
  InfluxdbMonitorFormatter.format (rt := example_runtime sink_down)
    (InfluxdbMonitorFormatter.__init__ no_gpu_probe hostname_probe)
    (queued "[1, 2]")
  = Ok {| measurement := "cpu_ip_info";
          tags := [("ip_port", VStr "host-1"); ("type", VStr "cpu")];
          fields := Some (VList [VInt 1; VInt 2]) |} /\
  snd (fst (InfluxdbMonitorHandlerInner.emit (rt := example_runtime sink_down)
              (example_inner
                 (General (InfluxdbMonitorFormatter.__init__
                             no_gpu_probe hostname_probe)))
              (queued "[1, 2]")))
  = [PrintError (AttributeError "keys"); CloseClient 0; CreateClient 1;
     PrintError (AttributeError "keys"); CloseClient 1; CreateClient 2].
Proof. split; reflexivity. Qed.

(** A write that succeeds ends the loop: one call when the store is up,
    two when only the re-created client gets through. *)
Example emit_writes_once_when_store_is_up :
  writes (snd (fst (InfluxdbMonitorHandlerInner.emit (rt := example_runtime sink_up)
                      (example_inner
                         (General (InfluxdbMonitorFormatter.__init__
                                     no_gpu_probe hostname_probe)))
                      (queued "{'loss': 0.2}"))))
  = [WritePoints 0
       {| measurement := "cpu_ip_info";
          tags := [("ip_port", VStr "host-1"); ("type", VStr "cpu")];
          fields := Some (VDict [("loss", VFloat 0.2)]) |}].
Proof. reflexivity. Qed.

Example emit_recovers_on_new_client :
  printed_errors
    (snd (fst (InfluxdbMonitorHandlerInner.emit (rt := example_runtime sink_stale)
                 (example_inner
                    (General (InfluxdbMonitorFormatter.__init__
                                no_gpu_probe hostname_probe)))
                 (queued "{'loss': 0.2}"))))
  = [OtherError "connection reset"] /\
  List.length
    (writes
       (snd (fst (InfluxdbMonitorHandlerInner.emit (rt := example_runtime sink_stale)
                    (example_inner
                       (General (InfluxdbMonitorFormatter.__init__
                                   no_gpu_probe hostname_probe)))
                    (queued "{'loss': 0.2}")))))
  = 2.
Proof. split; reflexivity. Qed.

(** X1. Whatever the store answers, one [emit] of the writer calls
    [write_points] at most twice. *)
Theorem emit_writes_at_most_twice {rt : Runtime} :
  forall self record,
    List.length (writes (snd (fst (InfluxdbMonitorHandlerInner.emit self record)))) <= 2.
Proof.
  intros self record.
  unfold InfluxdbMonitorHandlerInner.emit.
  cbn [InfluxdbMonitorHandlerInner.attempts].
  destruct (attempt_shape self record)
    as [ self1 [ out1 [ r1 [ E1 [ _ [ _ [ Hw1 _ ] ] ] ] ] ] ].
  rewrite E1. destruct r1 as [ [] | e1 ]; cbn [fst snd]; [ lia | ].
  cbn [InfluxdbMonitorHandlerInner.reconnect].
  destruct (attempt_shape
              {| InfluxdbMonitorHandlerInner._ip := InfluxdbMonitorHandlerInner._ip self1;
                 InfluxdbMonitorHandlerInner._port := InfluxdbMonitorHandlerInner._port self1;
                 InfluxdbMonitorHandlerInner._database :=
                   InfluxdbMonitorHandlerInner._database self1;
                 InfluxdbMonitorHandlerInner._client :=
                   S (InfluxdbMonitorHandlerInner._client self1);
                 InfluxdbMonitorHandlerInner.formatter :=
                   InfluxdbMonitorHandlerInner.formatter self1 |} record)
    as [ self3 [ out3 [ r3 [ E3 [ _ [ _ [ Hw3 _ ] ] ] ] ] ] ].
  rewrite E3. destruct r3 as [ [] | e3 ]; cbn [fst snd];
    rewrite !writes_app, !length_app; simpl; lia.
Qed.

(** ** The handler *)

(** [handleError] does nothing when [raiseExceptions] is off or there is
    no [sys.stderr]. *)
Lemma handleError_silent {rt : Runtime} (record : LogRecord) (e : exn) :
  raiseExceptions = false \/ stderr = None ->
  logging.Handler_handleError record e = Ok tt.
Proof.
  unfold logging.Handler_handleError.
  intros [ Hflag | Herr ].
  - now rewrite Hflag.
  - rewrite Herr. now destruct raiseExceptions.
Qed.

(** It returns when [sys.stderr] takes every write and the message and
    arguments can be printed without a RecursionError. *)
Lemma handleError_returns {rt : Runtime} (record : LogRecord) (e : exn)
  (write : string -> result unit) :
  stderr = Some write ->
  (forall text, write text = Ok tt) ->
  (forall what,
     str_mod logging.report_format (VTuple [msg record; args record])
     <> Raise (RecursionError what)) ->
  logging.Handler_handleError record e = Ok tt.
Proof.
  unfold logging.Handler_handleError. intros Herr Hwrite Hprint. rewrite Herr.
  destruct raiseExceptions; [ | reflexivity ].
  rewrite !Hwrite. cbn [bind].
  destruct (str_mod logging.report_format (VTuple [msg record; args record]))
    as [ text | e0 ] eqn:E; cbn [bind].
  - now rewrite Hwrite.
  - destruct e0; rewrite ?Hwrite; try reflexivity.
    now contradiction (Hprint what).
Qed.

(** A RecursionError met while the message and arguments are printed is
    raised to the caller. *)
Lemma handleError_raises_recursion {rt : Runtime} (record : LogRecord) (e : exn)
  (write : string -> result unit) (what : string) :
  raiseExceptions = true ->
  stderr = Some write ->
  (forall text, write text = Ok tt) ->
  str_mod logging.report_format (VTuple [msg record; args record])
  = Raise (RecursionError what) ->
  logging.Handler_handleError record e = Raise (RecursionError what).
Proof.
  unfold logging.Handler_handleError. intros Hflag Herr Hwrite Hprint.
  rewrite Hflag, Herr, !Hwrite. cbn [bind]. rewrite Hprint. reflexivity.
Qed.

(** What [handleError] lets out is never an OSError, and it lets nothing
    out unless [raiseExceptions] and [sys.stderr] are set. *)
Lemma handleError_raises {rt : Runtime} (record : LogRecord) (e e' : exn) :
  logging.Handler_handleError record e = Raise e' ->
  raiseExceptions = true /\ stderr <> None /\ forall what, e' <> OSError what.
Proof.
  unfold logging.Handler_handleError.
  destruct raiseExceptions; [ | discriminate ].
  destruct stderr as [ write | ]; [ | discriminate ].
  intros Hr. split; [ reflexivity | split; [ discriminate | ] ].
  intros what ->.
  destruct (_ <- write ("--- Logging error ---" ++ newline)%string ;;
            _ <- write (print_exception e) ;;
            _ <- write ("Call stack:" ++ newline)%string ;;
            _ <- write print_stack ;;
            match (text <- str_mod logging.report_format
                             (VTuple [msg record; args record]) ;;
                   write text) with
            | Ok _ => Ok tt
            | Raise (RecursionError what) => Raise (RecursionError what)
            | Raise _ =>
                write ("Unable to print the message and arguments"
                       ++ " - possible formatting error." ++ newline
                       ++ "Use the traceback above to help find the error."
                       ++ newline)%string
            end) as [ [] | e0 ]; [ discriminate | ].
  destruct e0; discriminate.
Qed.

(** The three ways of [emit]: the filter rejects the record; the record
    is prepared and put on the queue; or that raises, and the exception
    goes to [handleError], whose outcome is the outcome of [emit]. *)
Lemma handler_emit_rejected {rt : Runtime} (self : InfluxdbMonitorHandler.t)
  (record : LogRecord) :
  InfluxdbMonitorFilter.filter record = false ->
  InfluxdbMonitorHandler.emit self record = (self, [], Ok tt).
Proof.
  intros Hf.
  unfold InfluxdbMonitorHandler.emit, logging.QueueHandler_handle.
  cbn [forallb]. rewrite Hf. destruct self. reflexivity.
Qed.

Lemma handler_emit_enqueued {rt : Runtime} (self : InfluxdbMonitorHandler.t)
  (record : LogRecord) (q : Queue) :
  InfluxdbMonitorFilter.filter record = true ->
  (prepared <- logging.QueueHandler_prepare record ;;
   logging.Queue_put_nowait (InfluxdbMonitorHandler._queue self) prepared) = Ok q ->
  InfluxdbMonitorHandler.emit self record
  = ({| InfluxdbMonitorHandler._queue := q;
        InfluxdbMonitorHandler._handler := InfluxdbMonitorHandler._handler self |},
     [], Ok tt).
Proof.
  intros Hf Hq.
  unfold InfluxdbMonitorHandler.emit, logging.QueueHandler_handle,
    logging.QueueHandler_emit.
  cbn [forallb]. rewrite Hf. cbn [andb]. rewrite Hq. reflexivity.
Qed.

Lemma handler_emit_dropped {rt : Runtime} (self : InfluxdbMonitorHandler.t)
  (record : LogRecord) (e : exn) :
  InfluxdbMonitorFilter.filter record = true ->
  (prepared <- logging.QueueHandler_prepare record ;;
   logging.Queue_put_nowait (InfluxdbMonitorHandler._queue self) prepared) = Raise e ->
  InfluxdbMonitorHandler.emit self record
  = (self, [HandleError e], logging.Handler_handleError record e).
Proof.
  intros Hf Hq.
  unfold InfluxdbMonitorHandler.emit, logging.QueueHandler_handle,
    logging.QueueHandler_emit.
  cbn [forallb]. rewrite Hf. cbn [andb]. rewrite Hq. destruct self. reflexivity.
Qed.

(** [emit] writes nothing to the store, leaves the inner handler alone,
    and returns None unless [handleError] raises. *)
Lemma handler_emit_returns {rt : Runtime} (self : InfluxdbMonitorHandler.t)
  (record : LogRecord) :
  exists self' out r,
    InfluxdbMonitorHandler.emit self record = (self', out, r) /\
    writes out = [] /\
    InfluxdbMonitorHandler._handler self' = InfluxdbMonitorHandler._handler self /\
    (r = Ok tt \/
     exists e0,
       InfluxdbMonitorFilter.filter record = true /\
       (prepared <- logging.QueueHandler_prepare record ;;
        logging.Queue_put_nowait (InfluxdbMonitorHandler._queue self) prepared)
       = Raise e0 /\
       self' = self /\
       out = [HandleError e0] /\
       r = logging.Handler_handleError record e0).
Proof.
  destruct (InfluxdbMonitorFilter.filter record) eqn:Hf.
  - destruct (prepared <- logging.QueueHandler_prepare record ;;
              logging.Queue_put_nowait (InfluxdbMonitorHandler._queue self) prepared)
      as [ q | e0 ] eqn:Hq.
    + rewrite (handler_emit_enqueued self record q Hf Hq).
      do 3 eexists. split; [ reflexivity | ].
      split; [ reflexivity | split; [ reflexivity | now left ] ].
    + rewrite (handler_emit_dropped self record e0 Hf Hq).
      do 3 eexists. split; [ reflexivity | ].
      split; [ reflexivity | split; [ reflexivity | right ] ].
      exists e0. repeat split.
  - rewrite (handler_emit_rejected self record Hf).
    do 3 eexists. split; [ reflexivity | ].
    split; [ reflexivity | split; [ reflexivity | now left ] ].
Qed.

(** In a run, a log call returns None or what [handleError] gave for its
    record. *)
Lemma run_results {rt : Runtime} (acts : list action) :
  forall self,
    Forall (fun r => r = Ok tt \/
                     exists record e0,
                       In (Log record) acts /\
                       r = logging.Handler_handleError record e0)
      (snd (run self acts)).
Proof.
  induction acts as [ | act acts IH ]; intros self; simpl.
  - constructor.
  - destruct act as [ record | ].
    + destruct (handler_emit_returns self record)
        as [ self' [ out [ r [ E [ _ [ _ Hr ] ] ] ] ] ].
      rewrite E. specialize (IH self').
      destruct (run self' acts) as [ self'' rs ]. cbn [snd] in *.
      constructor.
      * destruct Hr as [ -> | [ e0 [ _ [ _ [ _ [ _ -> ] ] ] ] ] ]; [ now left | right ].
        exists record, e0. split; [ now left | reflexivity ].
      * eapply Forall_impl; [ | exact IH ].
        intros r' [ -> | [ record' [ e0 [ Hin -> ] ] ] ]; [ now left | right ].
        exists record', e0. split; [ now right | reflexivity ].
    + destruct (InfluxdbMonitorHandler.listen self) as [ self' out ].
      eapply Forall_impl; [ | exact (IH self') ].
      intros r' [ -> | [ record' [ e0 [ Hin -> ] ] ] ]; [ now left | right ].
      exists record', e0. split; [ now right | reflexivity ].
Qed.

(** C2, amended.  [emit] makes no write to the store and leaves the inner
    handler alone, so no failure of the store reaches the producer.  A
    record the filter rejects is dropped and the call returns None.  A
    record that cannot be turned into text, or that meets a full queue, is
    dropped and handed to [handleError] with the exception; the call
    returns None when [handleError] returns, which it does when
    [raiseExceptions] is off, when there is no [sys.stderr], or when
    [sys.stderr] takes the report.  What [handleError] raises, [emit]
    raises to the producer: a RecursionError met while the record's
    message and arguments are printed, or a failure of [sys.stderr] that
    is no OSError.  In any run of producers and listener, every log call
    returned None or raised what [handleError] raised for its record. *)
Theorem handler_emit_raises_only_from_handleError {rt : Runtime} :
  forall self record,
    writes (snd (fst (InfluxdbMonitorHandler.emit self record))) = [] /\
    InfluxdbMonitorHandler._handler (fst (fst (InfluxdbMonitorHandler.emit self record)))
    = InfluxdbMonitorHandler._handler self /\
    (InfluxdbMonitorFilter.filter record = false ->
     InfluxdbMonitorHandler.emit self record = (self, [], Ok tt)) /\
    (forall e,
       snd (InfluxdbMonitorHandler.emit self record) = Raise e ->
       exists e0,
         InfluxdbMonitorFilter.filter record = true /\
         (prepared <- logging.QueueHandler_prepare record ;;
          logging.Queue_put_nowait (InfluxdbMonitorHandler._queue self) prepared)
         = Raise e0 /\
         InfluxdbMonitorHandler.emit self record = (self, [HandleError e0], Raise e) /\
         logging.Handler_handleError record e0 = Raise e /\
         raiseExceptions = true /\
         stderr <> None /\
         forall what, e <> OSError what) /\
    (forall e0,
       InfluxdbMonitorFilter.filter record = true ->
       (prepared <- logging.QueueHandler_prepare record ;;
        logging.Queue_put_nowait (InfluxdbMonitorHandler._queue self) prepared)
       = Raise e0 ->
       InfluxdbMonitorHandler.emit self record
       = (self, [HandleError e0], logging.Handler_handleError record e0) /\
       (raiseExceptions = false \/ stderr = None ->
        logging.Handler_handleError record e0 = Ok tt) /\
       (forall write,
          stderr = Some write ->
          (forall text, write text = Ok tt) ->
          (forall what,
             str_mod logging.report_format (VTuple [msg record; args record])
             <> Raise (RecursionError what)) ->
          logging.Handler_handleError record e0 = Ok tt) /\
       (forall write what,
          raiseExceptions = true ->
          stderr = Some write ->
          (forall text, write text = Ok tt) ->
          str_mod logging.report_format (VTuple [msg record; args record])
          = Raise (RecursionError what) ->
          logging.Handler_handleError record e0 = Raise (RecursionError what))) /\
    (forall acts,
       Forall (fun r => r = Ok tt \/
                        exists record' e0,
                          In (Log record') acts /\
                          r = logging.Handler_handleError record' e0)
         (snd (run self acts))) /\
    (forall acts,
       (forall record' e0, logging.Handler_handleError record' e0 = Ok tt) ->
       Forall (fun r => r = Ok tt) (snd (run self acts))).
Proof.
  intros self record.
  destruct (handler_emit_returns self record)
    as [ self' [ out [ r [ E [ Hw [ Hh Hr ] ] ] ] ] ].
  rewrite E. cbn [fst snd].
  split; [ exact Hw | split; [ exact Hh | ] ].
  split; [ intros Hf; rewrite <- E; now apply handler_emit_rejected | ].
  split; [ | split; [ | split ] ].
  - intros e ->.
    destruct Hr as [ Hr | [ e0 [ Hf [ Hq [ -> [ -> Hr ] ] ] ] ] ]; [ discriminate | ].
    exists e0. symmetry in Hr.
    destruct (handleError_raises record e0 e Hr) as [ Hflag [ Herr Hos ] ].
    repeat split; assumption.
  - intros e0 Hf Hq.
    split; [ rewrite <- E; now apply handler_emit_dropped | ].
    split; [ apply handleError_silent | ].
    split; [ intros write; apply handleError_returns | ].
    intros write what. apply handleError_raises_recursion.
  - intros acts. apply run_results.
  - intros acts Hquiet.
    eapply Forall_impl; [ | exact (run_results acts self) ].
    intros r0 [ -> | [ record' [ e0 [ _ -> ] ] ] ]; [ reflexivity | apply Hquiet ].
Qed.

Lemma handler_emit_raises_only_from_handleError_witness :
  InfluxdbMonitorFilter.filter (logged (VStr "hello world")) = false /\
  InfluxdbMonitorHandler.emit (rt := example_runtime sink_down)
    (example_handler 1) (logged (VStr "hello world"))
  = (example_handler 1, [], Ok tt) /\
  (forall record e0,
     logging.Handler_handleError (rt := quiet_runtime sink_down) record e0 = Ok tt) /\
  Forall (fun r => r = Ok tt)
    (snd (run (rt := quiet_runtime sink_down) (example_handler 1)
            [Log (logged (VDict [])); Log (logged (VDict [])); Listen;
             Log (logged_with (VDict [("a", VInt 1)]) (nested 1000));
             Log (logged (VStr "hello world")); Listen; Log (logged (VDict []))])).
Proof.
  assert (Hquiet : forall record e0,
            logging.Handler_handleError (rt := quiet_runtime sink_down) record e0
            = Ok tt).
  { intros record e0. reflexivity. }
  split; [ reflexivity | split; [ | split; [ exact Hquiet | ] ] ].
  - exact (proj1 (proj2 (proj2
             (handler_emit_raises_only_from_handleError (rt := example_runtime sink_down)
                (example_handler 1) (logged (VStr "hello world"))))) eq_refl).
  - exact (proj2 (proj2 (proj2 (proj2 (proj2 (proj2
             (handler_emit_raises_only_from_handleError (rt := quiet_runtime sink_down)
                (example_handler 1) (logged (VStr "hello world"))))))))
             [Log (logged (VDict [])); Log (logged (VDict [])); Listen;
              Log (logged_with (VDict [("a", VInt 1)]) (nested 1000));
              Log (logged (VStr "hello world")); Listen; Log (logged (VDict []))]
             Hquiet).
Defined.

(** C2 as stated fails for a dict nested deeper than the interpreter can
    print: the filter accepts it, [str()] of it raises RecursionError in
    [prepare], and [handleError], printing the message again, meets the
    RecursionError a second time and raises it; [emit] raises it to the
    producer and nothing is queued. *)
Example emit_raises_recursion_error :
  InfluxdbMonitorFilter.filter (logged (VDict [("a", nested 1000)])) = true /\
  InfluxdbMonitorHandler.emit (rt := example_runtime sink_up)
    (example_handler 1024) (logged (VDict [("a", nested 1000)]))
  = (example_handler 1024,
     [HandleError
        (RecursionError
           "maximum recursion depth exceeded while getting the repr of an object")],
     Raise (RecursionError
              "maximum recursion depth exceeded while getting the repr of an object")).
Proof. split; vm_compute; reflexivity. Qed.

(** The same for a small dict logged with an argument nested that deep:
    the message cannot take the argument, and [handleError] meets the
    RecursionError when it prints the arguments. *)
Example emit_raises_for_deep_argument :
  InfluxdbMonitorHandler.emit (rt := example_runtime sink_up)
    (example_handler 1024) (logged_with (VDict [("a", VInt 1)]) (nested 1000))
  = (example_handler 1024,
     [HandleError (TypeError "not all arguments converted during string formatting")],
     Raise (RecursionError
              "maximum recursion depth exceeded while getting the repr of an object")).
Proof. vm_compute. reflexivity. Qed.

(** The same on a queue that is full, and with a [sys.stderr] that was
    closed: the ValueError of its [write] is raised to the producer. *)
Example emit_raises_on_closed_stderr :
  InfluxdbMonitorHandler.emit (rt := closed_stderr_runtime sink_up)
    (fst (fst (InfluxdbMonitorHandler.emit (rt := closed_stderr_runtime sink_up)
                 (example_handler 1) (logged (VDict [])))))
    (logged (VDict []))
  = (fst (fst (InfluxdbMonitorHandler.emit (rt := closed_stderr_runtime sink_up)
                 (example_handler 1) (logged (VDict [])))),
     [HandleError Full],
     Raise (ValueError "I/O operation on closed file.")).
Proof. reflexivity. Qed.

(** The ways a record is dropped on the producer's side. *)
Example emit_drops_text_record :
  InfluxdbMonitorHandler.emit (rt := example_runtime sink_down)
    (example_handler 1) (logged (VStr "hello world"))
  = (example_handler 1, [], Ok tt).
Proof. reflexivity. Qed.

Example emit_drops_on_full_queue :
  InfluxdbMonitorHandler.emit (rt := example_runtime sink_down)
    (fst (fst (InfluxdbMonitorHandler.emit (rt := example_runtime sink_down)
                 (example_handler 1) (logged (VDict [])))))
    (logged (VDict []))
  = (fst (fst (InfluxdbMonitorHandler.emit (rt := example_runtime sink_down)
                 (example_handler 1) (logged (VDict [])))),
     [HandleError Full], Ok tt).
Proof. reflexivity. Qed.

Example emit_drops_unformattable_record :
  InfluxdbMonitorHandler.emit (rt := example_runtime sink_down)
    (example_handler 1) (logged_with (VDict []) (VInt 1))
  = (example_handler 1,
     [HandleError (TypeError "not all arguments converted during string formatting")],
     Ok tt).
Proof. reflexivity. Qed.

Example run_with_store_down :
  snd (run (rt := example_runtime sink_down) (example_handler 1)
         [Log (logged (VDict [])); Log (logged (VDict [])); Listen;
          Log (logged (VStr "hello world")); Listen; Log (logged (VDict []))])
  = [Ok tt; Ok tt; Ok tt; Ok tt].
Proof. reflexivity. Qed.

(** ** Further properties of the writer and the queue *)

(** X2. A write that succeeds at the first attempt ends [emit]: one
    diagnostic line, one call of [write_points] on the current client, no
    reconnection. *)
Theorem emit_stops_at_first_success {rt : Runtime} :
  forall self record point self1 keys,
    InfluxdbMonitorHandlerInner.format self record = Ok (point, self1) ->
    InfluxdbMonitorHandlerInner.field_keys point = Ok keys ->
    write_points (InfluxdbMonitorHandlerInner._client self) point = Ok tt ->
    InfluxdbMonitorHandlerInner.emit self record
    = (self1,
       [PrintEmit (InfluxdbMonitorHandlerInner._ip self)
          (InfluxdbMonitorHandlerInner._port self)
          (InfluxdbMonitorHandlerInner._database self)
          (measurement point) (tags point) keys;
        WritePoints (InfluxdbMonitorHandlerInner._client self) point],
       Ok tt).
Proof.
  intros self record point self1 keys Hf Hk Hw.
  unfold InfluxdbMonitorHandlerInner.emit.
  cbn [InfluxdbMonitorHandlerInner.attempts].
  rewrite (attempt_formatted _ _ _ _ _ Hf Hk), Hw. reflexivity.
Qed.

Lemma emit_stops_at_first_success_witness :
  InfluxdbMonitorHandlerInner.emit (rt := example_runtime sink_up)
    (example_inner
       (General (InfluxdbMonitorFormatter.__init__ no_gpu_probe hostname_probe)))
    (queued "{'loss': 0.2}")
  = (example_inner
       (General {| measurement := "cpu_ip_info";
                   tags := [("ip_port", VStr "host-1"); ("type", VStr "cpu")];
                   fields := Some (VDict [("loss", VFloat 0.2)]) |}),
     [PrintEmit "localhost" "8086" "monitordb" "cpu_ip_info"
        [("ip_port", VStr "host-1"); ("type", VStr "cpu")] ["loss"];
      WritePoints 0
        {| measurement := "cpu_ip_info";
           tags := [("ip_port", VStr "host-1"); ("type", VStr "cpu")];
           fields := Some (VDict [("loss", VFloat 0.2)]) |}],
     Ok tt).
Proof.
  exact (emit_stops_at_first_success (rt := example_runtime sink_up)
           (example_inner
              (General (InfluxdbMonitorFormatter.__init__ no_gpu_probe hostname_probe)))
           (queued "{'loss': 0.2}")
           {| measurement := "cpu_ip_info";
              tags := [("ip_port", VStr "host-1"); ("type", VStr "cpu")];
              fields := Some (VDict [("loss", VFloat 0.2)]) |}
           (example_inner
              (General {| measurement := "cpu_ip_info";
                          tags := [("ip_port", VStr "host-1"); ("type", VStr "cpu")];
                          fields := Some (VDict [("loss", VFloat 0.2)]) |}))
           ["loss"] eq_refl eq_refl eq_refl).
Defined.

Lemma put_nowait_within_bound (q q' : Queue) (record : LogRecord) :
  within_bound q ->
  logging.Queue_put_nowait q record = Ok q' ->
  maxsize q' = maxsize q /\ within_bound q'.
Proof.
  unfold logging.Queue_put_nowait, within_bound. intros Hb.
  destruct ((0 <? maxsize q)%Z && (maxsize q <=? Z.of_nat (List.length (items q)))%Z)
    eqn:E; [ discriminate | ].
  intros Hq. injection Hq as <-. cbn [maxsize items].
  split; [ reflexivity | ].
  intros Hpos. rewrite length_app. cbn [List.length].
  apply andb_false_iff in E as [ E | E ].
  - apply Z.ltb_ge in E. lia.
  - apply Z.leb_gt in E. lia.
Qed.

Lemma handler_emit_within_bound {rt : Runtime} (self : InfluxdbMonitorHandler.t)
  (record : LogRecord) :
  within_bound (InfluxdbMonitorHandler._queue self) ->
  maxsize (InfluxdbMonitorHandler._queue
             (fst (fst (InfluxdbMonitorHandler.emit self record))))
  = maxsize (InfluxdbMonitorHandler._queue self) /\
  within_bound (InfluxdbMonitorHandler._queue
                  (fst (fst (InfluxdbMonitorHandler.emit self record)))).
Proof.
  intros Hb.
  unfold InfluxdbMonitorHandler.emit, logging.QueueHandler_handle,
    logging.QueueHandler_emit.
  destruct (forallb (fun f => f record) [InfluxdbMonitorFilter.filter]);
    [ | split; [ reflexivity | exact Hb ] ].
  destruct (logging.QueueHandler_prepare record) as [ prepared | e ]; cbn [bind];
    [ | split; [ reflexivity | exact Hb ] ].
  destruct (logging.Queue_put_nowait (InfluxdbMonitorHandler._queue self) prepared)
    as [ q' | e ] eqn:E; cbn [fst InfluxdbMonitorHandler._queue];
    [ | split; [ reflexivity | exact Hb ] ].
  exact (put_nowait_within_bound _ _ _ Hb E).
Qed.

Lemma listen_within_bound {rt : Runtime} (self : InfluxdbMonitorHandler.t) :
  within_bound (InfluxdbMonitorHandler._queue self) ->
  maxsize (InfluxdbMonitorHandler._queue (fst (InfluxdbMonitorHandler.listen self)))
  = maxsize (InfluxdbMonitorHandler._queue self) /\
  within_bound (InfluxdbMonitorHandler._queue (fst (InfluxdbMonitorHandler.listen self))).
Proof.
  intros Hb. unfold InfluxdbMonitorHandler.listen.
  destruct (items (InfluxdbMonitorHandler._queue self)) as [ | record rest ] eqn:E;
    [ split; [ reflexivity | exact Hb ] | ].
  destruct (InfluxdbMonitorHandlerInner.emit
              (InfluxdbMonitorHandler._handler self) record) as [ [ h out ] r ].
  cbn [fst InfluxdbMonitorHandler._queue maxsize].
  split; [ reflexivity | ].
  unfold within_bound in *. cbn [maxsize items]. intros Hpos.
  specialize (Hb Hpos). rewrite E in Hb. cbn [List.length] in Hb. lia.
Qed.

(** X3. The queue keeps its bound: in any run of producers and listener
    that starts within the bound, the queue never holds more records than
    a positive [maxsize] allows. *)
Theorem queue_stays_within_bound {rt : Runtime} :
  forall acts self,
    within_bound (InfluxdbMonitorHandler._queue self) ->
    maxsize (InfluxdbMonitorHandler._queue (fst (run self acts)))
    = maxsize (InfluxdbMonitorHandler._queue self) /\
    within_bound (InfluxdbMonitorHandler._queue (fst (run self acts))).
Proof.
  induction acts as [ | act acts IH ]; intros self Hb; simpl.
  - split; [ reflexivity | exact Hb ].
  - destruct act as [ record | ].
    + destruct (handler_emit_within_bound self record Hb) as [ Hm Hb' ].
      destruct (InfluxdbMonitorHandler.emit self record) as [ [ self' out ] r ].
      cbn [fst] in *.
      destruct (IH self' Hb') as [ Hm' Hb'' ].
      destruct (run self' acts) as [ self'' rs ]. cbn [fst] in *.
      split; [ congruence | exact Hb'' ].
    + destruct (listen_within_bound self Hb) as [ Hm Hb' ].
      destruct (InfluxdbMonitorHandler.listen self) as [ self' out ].
      cbn [fst] in *.
      destruct (IH self' Hb') as [ Hm' Hb'' ].
      split; [ congruence | exact Hb'' ].
Qed.

Lemma queue_stays_within_bound_witness :
  within_bound (InfluxdbMonitorHandler._queue (example_handler 2)) /\
  List.length
    (items (InfluxdbMonitorHandler._queue
              (fst (run (rt := example_runtime sink_up) (example_handler 2)
                      [Log (logged (VDict [])); Log (logged (VDict []));
                       Log (logged (VDict [])); Listen; Log (logged (VDict []));
                       Log (logged (VDict []))]))))
  = 2 /\
  within_bound
    (InfluxdbMonitorHandler._queue
       (fst (run (rt := example_runtime sink_up) (example_handler 2)
               [Log (logged (VDict [])); Log (logged (VDict []));
                Log (logged (VDict [])); Listen; Log (logged (VDict []));
                Log (logged (VDict []))]))).
Proof.
  assert (Hb : within_bound (InfluxdbMonitorHandler._queue (example_handler 2))).
  { intros _. simpl. lia. }
  split; [ exact Hb | split; [ reflexivity | ] ].
  exact (proj2 (queue_stays_within_bound (rt := example_runtime sink_up)
                  [Log (logged (VDict [])); Log (logged (VDict []));
                   Log (logged (VDict [])); Listen; Log (logged (VDict []));
                   Log (logged (VDict []))]
                  (example_handler 2) Hb)).
Defined.

(** ** The normalizer, further *)










(** Why the numpy scalars must be numeric: the [item()] of a datetime64
    is a date, which [_to_builtin] returns as it is and, given it again,
    turns into text; and the [item()] of a longdouble is the longdouble. *)
Example to_builtin_datetime64_twice :
  _to_builtin (VGenericOther "2024-05-01" true (Some (VOther "date" "2024-05-01" true)))
  = Ok (VOther "date" "2024-05-01" true) /\
  _to_builtin (VOther "date" "2024-05-01" true) = Ok (VStr "2024-05-01") /\
  _to_builtin (VGenericOther "1.5" true None) = Ok (VGenericOther "1.5" true None).
Proof. repeat split. Qed.

(** Why the sequences must be of a class that reads its iterable: a
    namedtuple of one field comes back holding the generator. *)
Example to_builtin_single_field_namedtuple :
  _to_builtin (VSequence "Step" (Keeps "<generator object _to_builtin.<locals>.<genexpr>>")
                 [VInt 3])
  = Ok (VSequence "Step" (Keeps "<generator object _to_builtin.<locals>.<genexpr>>")
          [VOther "generator" "<generator object _to_builtin.<locals>.<genexpr>>" true]).
Proof. reflexivity. Qed.

(** ** The formatters, further *)

Lemma general_format_same_state {rt : Runtime} (s1 s2 : json_body)
  (record : LogRecord) :
  measurement s1 = measurement s2 ->
  tags s1 = tags s2 ->
  InfluxdbMonitorFormatter.format s1 record
  = InfluxdbMonitorFormatter.format s2 record.
Proof.
  intros Hm Ht. unfold InfluxdbMonitorFormatter.format. now rewrite Hm, Ht.
Qed.

(** X6. The general formatter carries nothing from one record to the
    next: after any records, formatted or refused, a record gets the
    point, or the exception, it would have got from the formatter as the
    constructor left it. *)
Theorem general_format_forgets_history {rt : Runtime} :
  forall history self record,
    InfluxdbMonitorFormatter.format
      (after_formats InfluxdbMonitorFormatter.format self history) record
    = InfluxdbMonitorFormatter.format self record.
Proof.
  intros history self record.
  destruct (general_after_formats_keeps history self) as [ Hm Ht ].
  now apply general_format_same_state.
Qed.

Lemma dict_set_same_value (k : string) (v : pyval) (d : dict) :
  dict_get k d = Some v -> dict_set k v d = d.
Proof.
  induction d as [ | [k' v'] d IH ]; simpl; [ discriminate | ].
  destruct (k' =? k) eqn:E.
  - apply String.eqb_eq in E. subst k'. intros Hv. injection Hv as <-. reflexivity.
  - intros Hv. now rewrite (IH Hv).
Qed.

(** X7. Formatting a record a second time, as the retry of [emit] does,
    gives the point of the first time: with either formatter the second
    attempt sends the same point. *)
Theorem format_again_same_point {rt : Runtime} :
  (forall self record point,
     InfluxdbMonitorFormatter.format self record = Ok point ->
     InfluxdbMonitorFormatter.format point record = Ok point) /\
  (forall self record point,
     ActorMetricsFormatter.format self record = Ok point ->
     ActorMetricsFormatter.format point record = Ok point).
Proof.
  split; intros self record point Hp.
  - destruct (general_format_keeps _ _ _ Hp) as [ Hm Ht ].
    rewrite (general_format_same_state point self record Hm Ht), Hp.
    reflexivity.
  - destruct (actor_format_inv _ _ _ Hp) as [ d [ has_role [ Hl Ht ] ] ].
    pose proof (actor_format_ok self record d has_role Hl Ht) as E1.
    rewrite (actor_format_ok point record d has_role Hl Ht).
    cbv zeta in *.
    set (role := fst (dict_pop "role" d)) in *.
    set (actor_id := fst (dict_pop "actor_id" (dict_del "role" d))) in *.
    assert (Hpoint : point
                     = {| measurement := measurement self;
                          tags := if is_none actor_id
                                  then if has_role
                                       then dict_set "role" role (tags self)
                                       else tags self
                                  else dict_set "actor_id" (VStr (py_str actor_id))
                                         (if has_role
                                          then dict_set "role" role (tags self)
                                          else tags self);
                          fields := Some (VDict (dict_del "actor_id"
                                                   (dict_del "role" d))) |})
      by congruence.
    clear Hp E1. subst point. cbn [measurement tags fields].
    set (t := tags self).
    assert (Hne : "actor_id" <> "role") by discriminate.
    do 2 f_equal.
    destruct has_role, (is_none actor_id).
    + apply dict_set_same_value, dict_get_set_same.
    + rewrite (dict_set_same_value "role" role).
      * apply dict_set_same_value, dict_get_set_same.
      * rewrite (dict_get_set_other _ _ _ _ Hne). apply dict_get_set_same.
    + reflexivity.
    + apply dict_set_same_value, dict_get_set_same.
Qed.

Lemma format_again_same_point_witness :
  InfluxdbMonitorFormatter.format (rt := example_runtime sink_down)
    (InfluxdbMonitorFormatter.__init__ gpu_probe hostname_probe)
    (queued "{'loss': 0.2}")
  = Ok {| measurement := "gpu_ip_info";
          tags := [("ip_port", VStr "host-1"); ("type", VStr "gpu")];
          fields := Some (VDict [("loss", VFloat 0.2)]) |} /\
  InfluxdbMonitorFormatter.format (rt := example_runtime sink_down)
    {| measurement := "gpu_ip_info";
       tags := [("ip_port", VStr "host-1"); ("type", VStr "gpu")];
       fields := Some (VDict [("loss", VFloat 0.2)]) |}
    (queued "{'loss': 0.2}")
  = Ok {| measurement := "gpu_ip_info";
          tags := [("ip_port", VStr "host-1"); ("type", VStr "gpu")];
          fields := Some (VDict [("loss", VFloat 0.2)]) |} /\
  ActorMetricsFormatter.format (rt := example_runtime sink_down)
    (ActorMetricsFormatter.__init__ gpu_probe hostname_probe)
    (queued "{'role': 'attacker', 'actor_id': 7, 'reward': 1.5}")
  = Ok {| measurement := "actor_metrics";
          tags := [("ip_port", VStr "host-1"); ("type", VStr "gpu");
                   ("role", VStr "attacker"); ("actor_id", VStr "7")];
          fields := Some (VDict [("reward", VFloat 1.5)]) |} /\
  ActorMetricsFormatter.format (rt := example_runtime sink_down)
    {| measurement := "actor_metrics";
       tags := [("ip_port", VStr "host-1"); ("type", VStr "gpu");
                ("role", VStr "attacker"); ("actor_id", VStr "7")];
       fields := Some (VDict [("reward", VFloat 1.5)]) |}
    (queued "{'role': 'attacker', 'actor_id': 7, 'reward': 1.5}")
  = Ok {| measurement := "actor_metrics";
          tags := [("ip_port", VStr "host-1"); ("type", VStr "gpu");
                   ("role", VStr "attacker"); ("actor_id", VStr "7")];
          fields := Some (VDict [("reward", VFloat 1.5)]) |}.
Proof.
  split; [ reflexivity | split; [ | split; [ reflexivity | ] ] ].
  - exact (proj1 (format_again_same_point (rt := example_runtime sink_down))
             (InfluxdbMonitorFormatter.__init__ gpu_probe hostname_probe)
             (queued "{'loss': 0.2}") _ eq_refl).
  - exact (proj2 (format_again_same_point (rt := example_runtime sink_down))
             (ActorMetricsFormatter.__init__ gpu_probe hostname_probe)
             (queued "{'role': 'attacker', 'actor_id': 7, 'reward': 1.5}")
             _ eq_refl).
Defined.

Lemma actor_format_keeps_static {rt : Runtime} (self point : json_body)
  (record : LogRecord) :
  ActorMetricsFormatter.format self record = Ok point ->
  measurement point = measurement self /\
  forall k, k <> "role" -> k <> "actor_id" ->
            dict_get k (tags point) = dict_get k (tags self).
Proof.
  intros Hp.
  destruct (actor_format_inv _ _ _ Hp) as [ d [ has_role [ Hl Ht ] ] ].
  pose proof (actor_format_ok self record d has_role Hl Ht) as E1.
  cbv zeta in E1.
  set (role := fst (dict_pop "role" d)) in *.
  set (actor_id := fst (dict_pop "actor_id" (dict_del "role" d))) in *.
  assert (Hpoint : point
                   = {| measurement := measurement self;
                        tags := if is_none actor_id
                                then if has_role
                                     then dict_set "role" role (tags self)
                                     else tags self
                                else dict_set "actor_id" (VStr (py_str actor_id))
                                       (if has_role
                                        then dict_set "role" role (tags self)
                                        else tags self);
                        fields := Some (VDict (dict_del "actor_id"
                                                 (dict_del "role" d))) |})
    by congruence.
  clear Hp E1. subst point.
  cbn [measurement tags]. split; [ reflexivity | ].
  intros k Hrole Hid.
  assert (Hr : "role" <> k) by congruence.
  assert (Ha : "actor_id" <> k) by congruence.
  destruct has_role, (is_none actor_id);
    rewrite ?(dict_get_set_other _ _ _ _ Ha), ?(dict_get_set_other _ _ _ _ Hr);
    reflexivity.
Qed.

(** X8. The actor-metrics formatter keeps what its constructor set:
    whatever records it has formatted, and whatever keys they had, its
    measurement is actor_metrics, its tag ip_port the stripped host name
    and its tag type the hardware class found at construction. *)
Theorem actor_static_tags_kept {rt : Runtime} :
  forall nvidia_smi hostname history,
    measurement
      (after_formats ActorMetricsFormatter.format
         (ActorMetricsFormatter.__init__ nvidia_smi hostname) history)
    = "actor_metrics" /\
    dict_get "ip_port"
      (tags (after_formats ActorMetricsFormatter.format
               (ActorMetricsFormatter.__init__ nvidia_smi hostname) history))
    = Some (VStr (strip (stdout hostname))) /\
    dict_get "type"
      (tags (after_formats ActorMetricsFormatter.format
               (ActorMetricsFormatter.__init__ nvidia_smi hostname) history))
    = Some (VStr (if InfluxdbMonitorFormatter.is_gpu nvidia_smi
                  then "gpu" else "cpu")).
Proof.
  intros nvidia_smi hostname history.
  assert (Hgen : forall self,
            measurement (after_formats ActorMetricsFormatter.format self history)
            = measurement self /\
            forall k, k <> "role" -> k <> "actor_id" ->
                      dict_get k (tags (after_formats ActorMetricsFormatter.format
                                          self history))
                      = dict_get k (tags self)).
  { induction history as [ | record history IH ]; intros self; simpl.
    - split; [ reflexivity | intros; reflexivity ].
    - destruct (ActorMetricsFormatter.format self record) as [ point | e ] eqn:E;
        [ | apply IH ].
      destruct (actor_format_keeps_static _ _ _ E) as [ Hm Hk ].
      destruct (IH point) as [ Hm' Hk' ].
      split; [ congruence | ].
      intros k Hr Ha. rewrite (Hk' k Hr Ha). now apply Hk. }
  destruct (Hgen (ActorMetricsFormatter.__init__ nvidia_smi hostname)) as [ Hm Hk ].
  split; [ exact Hm | split ].
  - rewrite (Hk "ip_port"); [ reflexivity | discriminate | discriminate ].
  - rewrite (Hk "type"); [ reflexivity | discriminate | discriminate ].
Qed.

(** ** The writer, further *)

(** X9. A record that the formatter cannot format is never sent, and
    still costs two clients: [emit] calls [write_points] not once, prints
    the formatter's exception twice, closes and re-creates the client
    twice, and returns None with the formatter as it was. *)
Theorem emit_unformattable_record {rt : Runtime} :
  forall self record e,
    InfluxdbMonitorHandlerInner.format self record = Raise e ->
    InfluxdbMonitorHandlerInner.emit self record
    = ({| InfluxdbMonitorHandlerInner._ip := InfluxdbMonitorHandlerInner._ip self;
          InfluxdbMonitorHandlerInner._port := InfluxdbMonitorHandlerInner._port self;
          InfluxdbMonitorHandlerInner._database :=
            InfluxdbMonitorHandlerInner._database self;
          InfluxdbMonitorHandlerInner._client :=
            S (S (InfluxdbMonitorHandlerInner._client self));
          InfluxdbMonitorHandlerInner.formatter :=
            InfluxdbMonitorHandlerInner.formatter self |},
       [PrintError e;
        CloseClient (InfluxdbMonitorHandlerInner._client self);
        CreateClient (S (InfluxdbMonitorHandlerInner._client self));
        PrintError e;
        CloseClient (S (InfluxdbMonitorHandlerInner._client self));
        CreateClient (S (S (InfluxdbMonitorHandlerInner._client self)))],
       Ok tt).
Proof.
  intros self record e Hf.
  pose proof (attempt_unformatted self record e Hf) as A1.
  pose proof (attempt_unformatted _ record e
                (inner_format_raises_again self record e e Hf)) as A2.
  rewrite (emit_two_failures _ _ _ _ _ _ _ _ A1 A2).
  reflexivity.
Qed.

Lemma emit_unformattable_record_witness :
  InfluxdbMonitorHandlerInner.format (rt := example_runtime sink_up)
    (example_inner (ActorMetrics (ActorMetricsFormatter.__init__ gpu_probe hostname_probe)))
    (queued "hello world")
  = Raise (SyntaxError "hello world") /\
  InfluxdbMonitorHandlerInner.emit (rt := example_runtime sink_up)
    (example_inner (ActorMetrics (ActorMetricsFormatter.__init__ gpu_probe hostname_probe)))
    (queued "hello world")
  = ({| InfluxdbMonitorHandlerInner._ip := "localhost";
        InfluxdbMonitorHandlerInner._port := "8086";
        InfluxdbMonitorHandlerInner._database := "monitordb";
        InfluxdbMonitorHandlerInner._client := 2;
        InfluxdbMonitorHandlerInner.formatter :=
          ActorMetrics (ActorMetricsFormatter.__init__ gpu_probe hostname_probe) |},
     [PrintError (SyntaxError "hello world"); CloseClient 0; CreateClient 1;
      PrintError (SyntaxError "hello world"); CloseClient 1; CreateClient 2],
     Ok tt).
Proof.
  split; [ reflexivity | ].
  exact (emit_unformattable_record (rt := example_runtime sink_up)
           (example_inner
              (ActorMetrics (ActorMetricsFormatter.__init__ gpu_probe hostname_probe)))
           (queued "hello world") (SyntaxError "hello world") eq_refl).
Defined.

(** X10. A failure of the first client only is made good by the retry:
    when the first write raises and the client created next takes writes,
    [emit] prints the exception once, replaces the client once, writes the
    same fields again on the new client and returns, the new client
    staying in use. *)
Theorem emit_recovers_after_reconnect {rt : Runtime} :
  forall self record point self1 keys e,
    InfluxdbMonitorHandlerInner.format self record = Ok (point, self1) ->
    InfluxdbMonitorHandlerInner.field_keys point = Ok keys ->
    write_points (InfluxdbMonitorHandlerInner._client self) point = Raise e ->
    (forall p, write_points (S (InfluxdbMonitorHandlerInner._client self)) p = Ok tt) ->
    exists point2 self2,
      InfluxdbMonitorHandlerInner.emit self record
      = (self2,
         [PrintEmit (InfluxdbMonitorHandlerInner._ip self)
            (InfluxdbMonitorHandlerInner._port self)
            (InfluxdbMonitorHandlerInner._database self)
            (measurement point) (tags point) keys;
          WritePoints (InfluxdbMonitorHandlerInner._client self) point;
          PrintError e;
          CloseClient (InfluxdbMonitorHandlerInner._client self);
          CreateClient (S (InfluxdbMonitorHandlerInner._client self));
          PrintEmit (InfluxdbMonitorHandlerInner._ip self)
            (InfluxdbMonitorHandlerInner._port self)
            (InfluxdbMonitorHandlerInner._database self)
            (measurement point2) (tags point2) keys;
          WritePoints (S (InfluxdbMonitorHandlerInner._client self)) point2],
         Ok tt) /\
      fields point2 = fields point /\
      InfluxdbMonitorHandlerInner._client self2
      = S (InfluxdbMonitorHandlerInner._client self).
Proof.
  intros self record point self1 keys e Hf Hk Hw1 Hw2.
  pose proof (attempt_formatted _ _ _ _ _ Hf Hk) as A1.
  destruct (format_again _ _ _ _ e Hf) as [ point2 [ self2 [ Hf2 Hfields ] ] ].
  pose proof (attempt_formatted _ _ _ _ _ Hf2
                (eq_trans (field_keys_same _ _ Hfields) Hk)) as A2.
  pose proof (inner_format_client _ _ _ _ Hf) as Hc1.
  pose proof (inner_format_client _ _ _ _ Hf2) as Hc2.
  destruct (inner_format_endpoint _ _ _ _ Hf) as [ Hip [ Hport Hdb ] ].
  cbn [InfluxdbMonitorHandlerInner.reconnect fst snd
       InfluxdbMonitorHandlerInner._client InfluxdbMonitorHandlerInner._ip
       InfluxdbMonitorHandlerInner._port InfluxdbMonitorHandlerInner._database]
    in A2, Hc2.
  exists point2, self2.
  split; [ | split; [ exact Hfields | now rewrite Hc2, Hc1 ] ].
  unfold InfluxdbMonitorHandlerInner.emit.
  cbn [InfluxdbMonitorHandlerInner.attempts].
  rewrite A1, Hw1.
  cbn [InfluxdbMonitorHandlerInner.reconnect fst snd].
  rewrite A2, Hip, Hport, Hdb, Hc1, Hw2. reflexivity.
Qed.

Lemma emit_recovers_after_reconnect_witness :
  exists point2 self2,
    InfluxdbMonitorHandlerInner.emit (rt := example_runtime sink_stale)
      (example_inner
         (General (InfluxdbMonitorFormatter.__init__ no_gpu_probe hostname_probe)))
      (queued "{'loss': 0.2}")
    = (self2,
       [PrintEmit "localhost" "8086" "monitordb" "cpu_ip_info"
          [("ip_port", VStr "host-1"); ("type", VStr "cpu")] ["loss"];
        WritePoints 0
          {| measurement := "cpu_ip_info";
             tags := [("ip_port", VStr "host-1"); ("type", VStr "cpu")];
             fields := Some (VDict [("loss", VFloat 0.2)]) |};
        PrintError (OtherError "connection reset");
        CloseClient 0;
        CreateClient 1;
        PrintEmit "localhost" "8086" "monitordb"
          (measurement point2) (tags point2) ["loss"];
        WritePoints 1 point2],
       Ok tt) /\
    fields point2 = Some (VDict [("loss", VFloat 0.2)]) /\
    InfluxdbMonitorHandlerInner._client self2 = 1.
Proof.
  exact (emit_recovers_after_reconnect (rt := example_runtime sink_stale)
           (example_inner
              (General (InfluxdbMonitorFormatter.__init__ no_gpu_probe hostname_probe)))
           (queued "{'loss': 0.2}")
           {| measurement := "cpu_ip_info";
              tags := [("ip_port", VStr "host-1"); ("type", VStr "cpu")];
              fields := Some (VDict [("loss", VFloat 0.2)]) |}
           (example_inner
              (General {| measurement := "cpu_ip_info";
                          tags := [("ip_port", VStr "host-1"); ("type", VStr "cpu")];
                          fields := Some (VDict [("loss", VFloat 0.2)]) |}))
           ["loss"] (OtherError "connection reset")
           eq_refl eq_refl eq_refl (fun p => eq_refl)).
Defined.

(** ** The queue, further *)

Lemma handler_emit_queue {rt : Runtime} (self : InfluxdbMonitorHandler.t)
  (record : LogRecord) :
  InfluxdbMonitorHandler.emit self record
  = (if InfluxdbMonitorFilter.filter record then
       match logging.QueueHandler_prepare record with
       | Ok prepared =>
           match logging.Queue_put_nowait (InfluxdbMonitorHandler._queue self) prepared with
           | Ok q => ({| InfluxdbMonitorHandler._queue := q;
                         InfluxdbMonitorHandler._handler :=
                           InfluxdbMonitorHandler._handler self |}, [], Ok tt)
           | Raise e => (self, [HandleError e], logging.Handler_handleError record e)
           end
       | Raise e => (self, [HandleError e], logging.Handler_handleError record e)
       end
     else (self, [], Ok tt)).
Proof.
  unfold InfluxdbMonitorHandler.emit, logging.QueueHandler_handle,
    logging.QueueHandler_emit.
  cbn [forallb]. rewrite andb_true_r.
  destruct self as [ q h ]. cbn [InfluxdbMonitorHandler._queue InfluxdbMonitorHandler._handler].
  destruct (InfluxdbMonitorFilter.filter record); [ | reflexivity ].
  destruct (logging.QueueHandler_prepare record) as [ prepared | e ]; cbn [bind];
    [ | reflexivity ].
  destruct (logging.Queue_put_nowait q prepared); reflexivity.
Qed.

(** The default formatter returns exactly when [getMessage] does. *)
Lemma Formatter_format_message {rt : Runtime} (record : LogRecord) :
  match getMessage record with
  | Ok message => exists text, logging.Formatter_format record = Ok text
  | Raise e => logging.Formatter_format record = Raise e
  end.
Proof.
  unfold logging.Formatter_format.
  destruct (getMessage record) as [ message | e ]; cbn [bind];
    [ eexists | ]; reflexivity.
Qed.

(** For a record with no exception and no stack information it returns
    the message. *)
Lemma Formatter_format_plain {rt : Runtime} (record : LogRecord) :
  exc_info record = None ->
  exc_text record = None ->
  stack_info record = None ->
  logging.Formatter_format record = getMessage record.
Proof.
  unfold logging.Formatter_format. intros -> -> ->.
  destruct (getMessage record); reflexivity.
Qed.

Lemma prepare_is_text {rt : Runtime} (record prepared : LogRecord) :
  logging.QueueHandler_prepare record = Ok prepared ->
  is_text_record prepared = true.
Proof.
  unfold logging.QueueHandler_prepare.
  destruct (logging.Formatter_format record); cbn [bind]; [ | discriminate ].
  intros Hp. injection Hp as <-. reflexivity.
Qed.

Lemma text_record_format {rt : Runtime} (record : LogRecord) :
  is_text_record record = true ->
  exists text,
    msg record = VStr text /\
    args record = VNone /\
    exc_info record = None /\
    exc_text record = None /\
    stack_info record = None /\
    forall self,
      InfluxdbMonitorFormatter.format self record
      = (v <- literal_eval text ;;
         v <- _to_builtin v ;;
         Ok {| measurement := measurement self;
               tags := tags self;
               fields := Some v |}).
Proof.
  unfold is_text_record. destruct record as [ n m a ei et si ].
  cbn [msg args exc_info exc_text stack_info].
  destruct m; try discriminate.
  destruct ei; try discriminate. destruct et; try discriminate.
  destruct si; try discriminate. destruct a; try discriminate.
  intros _. eexists. repeat (split; [ reflexivity | ]).
  intros self. reflexivity.
Qed.

Lemma run_keeps_text_records {rt : Runtime} (acts : list action) :
  forall self,
    Forall (fun record => is_text_record record = true)
      (items (InfluxdbMonitorHandler._queue self)) ->
    Forall (fun record => is_text_record record = true)
      (items (InfluxdbMonitorHandler._queue (fst (run self acts)))).
Proof.
  induction acts as [ | act acts IH ]; intros self Hq; simpl; [ exact Hq | ].
  destruct act as [ record | ].
  - assert (Hq' : Forall (fun r => is_text_record r = true)
                    (items (InfluxdbMonitorHandler._queue
                              (fst (fst (InfluxdbMonitorHandler.emit self record)))))).
    { rewrite handler_emit_queue.
      destruct (InfluxdbMonitorFilter.filter record); [ | exact Hq ].
      destruct (logging.QueueHandler_prepare record) as [ prepared | e ] eqn:Ep;
        [ | exact Hq ].
      unfold logging.Queue_put_nowait.
      destruct ((0 <? maxsize (InfluxdbMonitorHandler._queue self))%Z &&
                (maxsize (InfluxdbMonitorHandler._queue self)
                 <=? Z.of_nat (List.length (items (InfluxdbMonitorHandler._queue self))))%Z);
        [ exact Hq | ].
      cbn [fst InfluxdbMonitorHandler._queue items].
      apply Forall_app. split; [ exact Hq | ].
      constructor; [ exact (prepare_is_text _ _ Ep) | constructor ]. }
    destruct (InfluxdbMonitorHandler.emit self record) as [ [ self' out ] r ].
    cbn [fst] in Hq'. specialize (IH self' Hq').
    destruct (run self' acts) as [ self'' rs ]. exact IH.
  - assert (Hq' : Forall (fun r => is_text_record r = true)
                    (items (InfluxdbMonitorHandler._queue
                              (fst (InfluxdbMonitorHandler.listen self))))).
    { unfold InfluxdbMonitorHandler.listen.
      destruct (items (InfluxdbMonitorHandler._queue self)) as [ | record rest ] eqn:E.
      - cbn [fst]. rewrite E. constructor.
      - destruct (InfluxdbMonitorHandlerInner.emit
                    (InfluxdbMonitorHandler._handler self) record) as [ [ h out ] r ].
        cbn [fst InfluxdbMonitorHandler._queue items].
        now apply Forall_inv_tail in Hq. }
    destruct (InfluxdbMonitorHandler.listen self) as [ self' out ].
    cbn [fst] in Hq'. exact (IH self' Hq').
Qed.

(** X11. Whatever is logged to a handler as its constructor built it, and
    however producers and listener take turns, every record on the queue
    has a text message, no arguments and no exception or stack
    information: the listener's formatter never finds a dict message and
    always evaluates the text, then normalizes what it evaluates to. *)
Theorem queue_holds_text_records {rt : Runtime} :
  forall acts config ip port_arg database_arg nvidia_smi hostname,
    Forall
      (fun record =>
         exists text,
           msg record = VStr text /\
           args record = VNone /\
           exc_info record = None /\
           exc_text record = None /\
           stack_info record = None /\
           forall self,
             InfluxdbMonitorFormatter.format self record
             = (v <- literal_eval text ;;
                v <- _to_builtin v ;;
                Ok {| measurement := measurement self;
                      tags := tags self;
                      fields := Some v |}))
      (items (InfluxdbMonitorHandler._queue
                (fst (run (InfluxdbMonitorHandler.__init__ config ip port_arg
                             database_arg nvidia_smi hostname) acts)))).
Proof.
  intros acts config ip port_arg database_arg nvidia_smi hostname.
  eapply Forall_impl; [ intros record; apply text_record_format | ].
  apply run_keeps_text_records. constructor.
Qed.

(** X12. A full queue drops the newcomer and keeps what it holds: a
    record accepted by the filter while the queue is at its positive
    [maxsize] leaves the handler exactly as it was; the exception, [Full]
    when the record could be turned into text, goes to [handleError], and
    [emit] returns None when [handleError] returns and raises what it
    raises. *)
Theorem emit_full_queue_drops_newest {rt : Runtime} :
  forall self record,
    InfluxdbMonitorFilter.filter record = true ->
    (0 < maxsize (InfluxdbMonitorHandler._queue self))%Z ->
    (maxsize (InfluxdbMonitorHandler._queue self)
     <= Z.of_nat (List.length (items (InfluxdbMonitorHandler._queue self))))%Z ->
    exists e,
      InfluxdbMonitorHandler.emit self record
      = (self, [HandleError e], logging.Handler_handleError record e) /\
      (forall text, getMessage record = Ok text -> e = Full) /\
      (logging.Handler_handleError record e = Ok tt ->
       InfluxdbMonitorHandler.emit self record = (self, [HandleError e], Ok tt)).
Proof.
  intros self record Hf Hpos Hfull.
  rewrite handler_emit_queue, Hf.
  unfold logging.QueueHandler_prepare, logging.Queue_put_nowait.
  pose proof (Formatter_format_message record) as Hm.
  destruct (getMessage record) as [ message | e ].
  - destruct Hm as [ text -> ]. cbn [bind].
    apply Z.ltb_lt in Hpos. apply Z.leb_le in Hfull. rewrite Hpos, Hfull.
    cbn [andb]. exists Full.
    split; [ reflexivity | split; [ intros; reflexivity | now intros -> ] ].
  - rewrite Hm. cbn [bind]. exists e.
    split; [ reflexivity | split; [ discriminate | now intros -> ] ].
Qed.

Lemma emit_full_queue_drops_newest_witness :
  InfluxdbMonitorFilter.filter (logged (VDict [])) = true /\
  exists e,
    InfluxdbMonitorHandler.emit (rt := example_runtime sink_up)
      {| InfluxdbMonitorHandler._queue := {| maxsize := 1; items := [queued "{}"] |};
         InfluxdbMonitorHandler._handler :=
           InfluxdbMonitorHandler._handler (example_handler 1) |}
      (logged (VDict []))
    = ({| InfluxdbMonitorHandler._queue := {| maxsize := 1; items := [queued "{}"] |};
          InfluxdbMonitorHandler._handler :=
            InfluxdbMonitorHandler._handler (example_handler 1) |},
       [HandleError e], Ok tt) /\
    e = Full.
Proof.
  split; [ reflexivity | ].
  destruct (emit_full_queue_drops_newest (rt := example_runtime sink_up)
              {| InfluxdbMonitorHandler._queue :=
                   {| maxsize := 1; items := [queued "{}"] |};
                 InfluxdbMonitorHandler._handler :=
                   InfluxdbMonitorHandler._handler (example_handler 1) |}
              (logged (VDict [])))
    as [ e [ _ [ Hfull Hreturns ] ] ].
  - reflexivity.
  - cbn. lia.
  - cbn. lia.
  - exists e. pose proof (Hfull "{}" eq_refl) as He.
    split; [ | exact He ].
    apply Hreturns. rewrite He. reflexivity.
Defined.

Lemma put_nowait_with_room (q : Queue) (record : LogRecord) :
  (maxsize q <= 0 \/ Z.of_nat (List.length (items q)) < maxsize q)%Z ->
  logging.Queue_put_nowait q record
  = Ok {| maxsize := maxsize q; items := items q ++ [record] |}.
Proof.
  intros Hroom. unfold logging.Queue_put_nowait.
  destruct ((0 <? maxsize q)%Z && (maxsize q <=? Z.of_nat (List.length (items q)))%Z)
    eqn:E; [ | reflexivity ].
  apply andb_prop in E as [ E1 E2 ].
  apply Z.ltb_lt in E1. apply Z.leb_le in E2. lia.
Qed.

(** X13. The queue is first in, first out with nothing lost while there
    is room: after a sequence of records logged to a queue without bound,
    or with room for them all, the queue holds what it held, followed by
    the text copies of the records the filter accepted and [prepare] could
    format, in the order logged; the inner handler is not touched. *)
Theorem emits_enqueue_in_order {rt : Runtime} :
  forall records self,
    (maxsize (InfluxdbMonitorHandler._queue self) <= 0 \/
     Z.of_nat (List.length (items (InfluxdbMonitorHandler._queue self))
               + List.length records)
     <= maxsize (InfluxdbMonitorHandler._queue self))%Z ->
    items (InfluxdbMonitorHandler._queue (fst (run self (map Log records))))
    = items (InfluxdbMonitorHandler._queue self) ++ enqueued records /\
    maxsize (InfluxdbMonitorHandler._queue (fst (run self (map Log records))))
    = maxsize (InfluxdbMonitorHandler._queue self) /\
    InfluxdbMonitorHandler._handler (fst (run self (map Log records)))
    = InfluxdbMonitorHandler._handler self.
Proof.
  induction records as [ | record records IH ]; intros self Hroom.
  - simpl. rewrite app_nil_r. repeat split.
  - cbn [map run enqueued flat_map].
    rewrite handler_emit_queue.
    fold (enqueued records).
    destruct (InfluxdbMonitorFilter.filter record).
    + destruct (logging.QueueHandler_prepare record) as [ prepared | e ].
      * rewrite put_nowait_with_room
          by (cbn [List.length] in Hroom; lia).
        match goal with
        | |- context [ run ?s _ ] => specialize (IH s)
        end.
        cbn [InfluxdbMonitorHandler._queue InfluxdbMonitorHandler._handler
             maxsize items] in IH.
        rewrite length_app in IH. cbn [List.length] in IH, Hroom.
        destruct IH as [ Hi [ Hm Hh ] ]; [ lia | ].
        destruct (run _ (map Log records)) as [ self' rs ].
        cbn [fst] in *. rewrite Hi, <- app_assoc. repeat split; assumption.
      * specialize (IH self). cbn [List.length] in Hroom.
        destruct IH as [ Hi [ Hm Hh ] ]; [ lia | ].
        destruct (run self (map Log records)) as [ self' rs ].
        cbn [fst app] in *. repeat split; assumption.
    + specialize (IH self). cbn [List.length] in Hroom.
      destruct IH as [ Hi [ Hm Hh ] ]; [ lia | ].
      destruct (run self (map Log records)) as [ self' rs ].
      cbn [fst app] in *. repeat split; assumption.
Qed.

Lemma emits_enqueue_in_order_witness :
  items (InfluxdbMonitorHandler._queue
           (fst (run (rt := main_runtime sink_up) (example_handler 0)
                   (map Log [logged (VStr "hello world"); logged main_data;
                             logged (VDict []); logged main_data]))))
  = [queued "{'A': 1, 'B': 2}"; queued "{}"; queued "{'A': 1, 'B': 2}"].
Proof.
  exact (proj1 (emits_enqueue_in_order (rt := main_runtime sink_up)
                  [logged (VStr "hello world"); logged main_data;
                   logged (VDict []); logged main_data]
                  (example_handler 0) (or_introl (Z.le_refl 0)))).
Defined.

(** X14. From the log call to the store: a dict that can be printed,
    logged without arguments, exception or stack information to a handler
    with an empty queue, is queued as its text; the listener's turn then
    evaluates the text and, when what it evaluates to can be normalized
    and the store takes the write, sends on the current client one point
    with the constructor's measurement and tags and the normalized dict as
    fields, and leaves the queue empty. *)
Theorem logged_dict_is_written {rt : Runtime} :
  forall self record d d' v body,
    msg record = VDict d ->
    (depth (VDict d) <= recursion_limit)%nat ->
    truthy (args record) = Ok false ->
    exc_info record = None ->
    exc_text record = None ->
    stack_info record = None ->
    literal_eval (repr (VDict d)) = Ok (VDict d') ->
    _to_builtin (VDict d') = Ok v ->
    items (InfluxdbMonitorHandler._queue self) = [] ->
    InfluxdbMonitorHandlerInner.formatter (InfluxdbMonitorHandler._handler self)
    = General body ->
    write_points
      (InfluxdbMonitorHandlerInner._client (InfluxdbMonitorHandler._handler self))
      {| measurement := measurement body;
         tags := tags body;
         fields := Some v |}
    = Ok tt ->
    exists self1 self2,
      InfluxdbMonitorHandler.emit self record = (self1, [], Ok tt) /\
      items (InfluxdbMonitorHandler._queue self1)
      = [{| name := name record; msg := VStr (repr (VDict d)); args := VNone;
            exc_info := None; exc_text := None; stack_info := None |}] /\
      InfluxdbMonitorHandler.listen self1
      = (self2,
         [PrintEmit
            (InfluxdbMonitorHandlerInner._ip (InfluxdbMonitorHandler._handler self))
            (InfluxdbMonitorHandlerInner._port (InfluxdbMonitorHandler._handler self))
            (InfluxdbMonitorHandlerInner._database (InfluxdbMonitorHandler._handler self))
            (measurement body) (tags body) (dict_keys d');
          WritePoints
            (InfluxdbMonitorHandlerInner._client (InfluxdbMonitorHandler._handler self))
            {| measurement := measurement body;
               tags := tags body;
               fields := Some v |}]) /\
      items (InfluxdbMonitorHandler._queue self2) = [] /\
      InfluxdbMonitorHandlerInner._client (InfluxdbMonitorHandler._handler self2)
      = InfluxdbMonitorHandlerInner._client (InfluxdbMonitorHandler._handler self).
Proof.
  intros [ q h ] record d d' v body Hmsg Hdepth Hargs Hei Het Hsi Hlit Hv Hq Hfmt Hw.
  apply Nat.ltb_ge in Hdepth.
  cbn [InfluxdbMonitorHandler._queue InfluxdbMonitorHandler._handler] in *.
  assert (Hprep : logging.QueueHandler_prepare record
                  = Ok {| name := name record; msg := VStr (repr (VDict d));
                          args := VNone; exc_info := None; exc_text := None;
                          stack_info := None |}).
  { unfold logging.QueueHandler_prepare.
    rewrite (Formatter_format_plain record Hei Het Hsi).
    unfold getMessage. rewrite Hmsg, Hdepth, Hargs. reflexivity. }
  assert (Hfilter : InfluxdbMonitorFilter.filter record = true).
  { unfold InfluxdbMonitorFilter.filter. rewrite Hmsg. reflexivity. }
  rewrite handler_emit_queue, Hfilter, Hprep.
  cbn [InfluxdbMonitorHandler._queue InfluxdbMonitorHandler._handler].
  rewrite put_nowait_with_room by (rewrite Hq; cbn [List.length]; lia).
  rewrite Hq. cbn [app].
  set (prepared := {| name := name record; msg := VStr (repr (VDict d));
                      args := VNone; exc_info := None; exc_text := None;
                      stack_info := None |}).
  set (point := {| measurement := measurement body; tags := tags body;
                   fields := Some v |}) in *.
  assert (Hformat : InfluxdbMonitorHandlerInner.format h prepared
                    = Ok (point,
                          {| InfluxdbMonitorHandlerInner._ip :=
                               InfluxdbMonitorHandlerInner._ip h;
                             InfluxdbMonitorHandlerInner._port :=
                               InfluxdbMonitorHandlerInner._port h;
                             InfluxdbMonitorHandlerInner._database :=
                               InfluxdbMonitorHandlerInner._database h;
                             InfluxdbMonitorHandlerInner._client :=
                               InfluxdbMonitorHandlerInner._client h;
                             InfluxdbMonitorHandlerInner.formatter := General point |})).
  { unfold InfluxdbMonitorHandlerInner.format. rewrite Hfmt.
    unfold InfluxdbMonitorFormatter.format, read_literal, getMessage.
    cbn [prepared msg args py_str truthy bind depth Nat.ltb Nat.leb].
    rewrite Hlit. cbn [bind].
    rewrite Hv. reflexivity. }
  assert (Hkeys : InfluxdbMonitorHandlerInner.field_keys point = Ok (dict_keys d')).
  { destruct (to_builtin_dict d' v Hv) as [ d'' [ Hd'' [ Hk _ ] ] ].
    unfold InfluxdbMonitorHandlerInner.field_keys, point.
    cbn [fields]. rewrite Hd'', Hk. reflexivity. }
  do 2 eexists. split; [ reflexivity | ].
  cbn [InfluxdbMonitorHandler._queue items].
  split; [ reflexivity | ].
  unfold InfluxdbMonitorHandler.listen.
  cbn [InfluxdbMonitorHandler._queue InfluxdbMonitorHandler._handler items maxsize].
  unfold InfluxdbMonitorHandlerInner.emit.
  cbn [InfluxdbMonitorHandlerInner.attempts].
  rewrite (attempt_formatted _ _ _ _ _ Hformat Hkeys), Hw.
  split; [ reflexivity | split; reflexivity ].
Qed.

Lemma logged_dict_is_written_witness :
  exists self1 self2,
    InfluxdbMonitorHandler.emit (rt := main_runtime sink_up)
      (example_handler 1024) (logged main_data)
    = (self1, [], Ok tt) /\
    items (InfluxdbMonitorHandler._queue self1) = [queued "{'A': 1, 'B': 2}"] /\
    InfluxdbMonitorHandler.listen (rt := main_runtime sink_up) self1
    = (self2,
       [PrintEmit "localhost" "8086" "monitordb" "cpu_ip_info"
          [("ip_port", VStr "host-1"); ("type", VStr "cpu")] ["A"; "B"];
        WritePoints 0
          {| measurement := "cpu_ip_info";
             tags := [("ip_port", VStr "host-1"); ("type", VStr "cpu")];
             fields := Some main_data |}]) /\
    items (InfluxdbMonitorHandler._queue self2) = [] /\
    InfluxdbMonitorHandlerInner._client (InfluxdbMonitorHandler._handler self2) = 0.
Proof.
  exact (logged_dict_is_written (rt := main_runtime sink_up)
           (example_handler 1024) (logged main_data)
           [("A", VInt 1); ("B", VInt 2)] [("A", VInt 1); ("B", VInt 2)] main_data
           (InfluxdbMonitorFormatter.__init__ no_gpu_probe hostname_probe)
           eq_refl (proj1 (Nat.leb_le 1 1000) eq_refl) eq_refl eq_refl eq_refl eq_refl eq_refl
           eq_refl eq_refl eq_refl eq_refl).
Defined.

(** The same dict logged by [logger.exception] is queued with the
    traceback after its text; the listener cannot evaluate that, and
    nothing is written. *)
Example logged_exception_is_not_written :
  items (InfluxdbMonitorHandler._queue
           (fst (fst (InfluxdbMonitorHandler.emit (rt := main_runtime sink_up)
                        (example_handler 1024)
                        (logged_exception main_data
                           "ZeroDivisionError: division by zero")))))
  = [queued ("{'A': 1, 'B': 2}" ++ newline ++ "ZeroDivisionError: division by zero")] /\
  writes
    (snd (InfluxdbMonitorHandler.listen (rt := main_runtime sink_up)
            (fst (fst (InfluxdbMonitorHandler.emit (rt := main_runtime sink_up)
                         (example_handler 1024)
                         (logged_exception main_data
                            "ZeroDivisionError: division by zero"))))))
  = [].
Proof. split; reflexivity. Qed.

(** ** train.py *)

Section TrainRules.

Context {A B : Type}.
Variable w : train.World.

Lemma triple_ret (pre : train.state -> Prop) (a : A)
  (post : A -> train.state -> Prop) (exc : train.raised -> train.state -> Prop) :
  (forall s, pre s -> post a s) -> triple pre (train.ret a) post exc.
Proof. intros H s Hs. exact (H s Hs). Qed.

Lemma triple_throw (pre : train.state -> Prop) (e : train.raised)
  (post : A -> train.state -> Prop) (exc : train.raised -> train.state -> Prop) :
  (forall s, pre s -> exc e s) -> triple pre (train.throw e) post exc.
Proof. intros H s Hs. exact (H s Hs). Qed.

Lemma triple_andthen (pre : train.state -> Prop) (m : train.prog A)
  (k : A -> train.prog B) (mid : A -> train.state -> Prop)
  (post : B -> train.state -> Prop) (exc : train.raised -> train.state -> Prop) :
  triple pre m mid exc ->
  (forall a, triple (mid a) (k a) post exc) ->
  triple pre (train.andthen m k) post exc.
Proof.
  intros Hm Hk s Hs. unfold train.andthen.
  specialize (Hm s Hs). destruct (m s) as [ s' [ a | e ] ].
  - exact (Hk a s' Hm).
  - exact Hm.
Qed.

Lemma triple_perform (pre : train.state -> Prop) (c : train.call)
  (post : unit -> train.state -> Prop) (exc : train.raised -> train.state -> Prop) :
  (forall s, pre s -> train.answer w c = None -> post tt (called s c)) ->
  (forall s what, pre s -> train.answer w c = Some what ->
                  exc (train.Outside what) (called s c)) ->
  triple pre (train.perform w c) post exc.
Proof.
  intros Hret Hraise s Hs. unfold train.perform.
  specialize (Hret s Hs). specialize (Hraise s).
  destruct (train.answer w c) as [ what | ].
  - exact (Hraise what Hs eq_refl).
  - exact (Hret eq_refl).
Qed.

End TrainRules.

Lemma triple_get_then {B : Type} (pre : train.state -> Prop)
  (k : train.ConfigControl.t -> train.prog B)
  (post : B -> train.state -> Prop) (exc : train.raised -> train.state -> Prop) :
  (forall c, (exists s, pre s /\ train.config s = c) -> triple pre (k c) post exc) ->
  triple pre (train.andthen train.get_config k) post exc.
Proof.
  intros Hk s Hs. unfold train.andthen, train.get_config.
  exact (Hk (train.config s) (ex_intro _ s (conj Hs eq_refl)) s Hs).
Qed.

(** A call that satisfies [P] keeps [trace_inv P Q], whether it returns or
    raises. *)
Lemma triple_call_then {B : Type} (w : train.World) (P : train.call -> Prop)
  (Q : train.ConfigControl.t -> Prop) (c : train.call) (k : train.prog B)
  (post : B -> train.state -> Prop) (exc : train.raised -> train.state -> Prop) :
  P c ->
  (forall s what, trace_inv P Q s -> exc (train.Outside what) s) ->
  triple (trace_inv P Q) k post exc ->
  triple (trace_inv P Q) (train.andthen (train.perform w c) (fun _ => k)) post exc.
Proof.
  intros Hc Hexc Hk.
  assert (Hstep : forall s, trace_inv P Q s -> trace_inv P Q (called s c)).
  { intros s [ Hcalls Hq ]. split; [ | exact Hq ].
    cbn [called train.calls]. apply Forall_app. split; [ exact Hcalls | ].
    constructor; [ exact Hc | constructor ]. }
  apply triple_andthen with (mid := fun _ => trace_inv P Q).
  - apply triple_perform.
    + intros s Hs _. exact (Hstep s Hs).
    + intros s what Hs _. exact (Hexc (called s c) what (Hstep s Hs)).
  - intros _. exact Hk.
Qed.

Lemma triple_call_last (w : train.World) (P : train.call -> Prop)
  (Q : train.ConfigControl.t -> Prop) (c : train.call)
  (post : unit -> train.state -> Prop) (exc : train.raised -> train.state -> Prop) :
  P c ->
  (forall s what, trace_inv P Q s -> exc (train.Outside what) s) ->
  (forall s, trace_inv P Q s -> post tt s) ->
  triple (trace_inv P Q) (train.perform w c) post exc.
Proof.
  intros Hc Hexc Hpost.
  assert (Hstep : forall s, trace_inv P Q s -> trace_inv P Q (called s c)).
  { intros s [ Hcalls Hq ]. split; [ | exact Hq ].
    cbn [called train.calls]. apply Forall_app. split; [ exact Hcalls | ].
    constructor; [ exact Hc | constructor ]. }
  apply triple_perform.
  - intros s Hs _. exact (Hpost _ (Hstep s Hs)).
  - intros s what Hs _. exact (Hexc _ what (Hstep s Hs)).
Qed.

Lemma triple_weaken {A : Type} (pre pre' : train.state -> Prop) (m : train.prog A)
  (post : A -> train.state -> Prop) (exc : train.raised -> train.state -> Prop) :
  (forall s, pre s -> pre' s) ->
  triple pre' m post exc ->
  triple pre m post exc.
Proof. intros Hpre Hm s Hs. exact (Hm s (Hpre s Hs)). Qed.


(** The imports of a backend branch never break an invariant that the
    model manager's call keeps. *)
Lemma pytorch_branch_inv (w : train.World) (P : train.call -> Prop)
  (Q : train.ConfigControl.t -> Prop)
  (exc : train.raised -> train.state -> Prop) :
  (forall module, P (train.import_from module)) ->
  (forall c, Q c ->
             P (train.ModelManager_pytorch
                  (train.ConfigControl.push_to_modelpool c)
                  (train.ConfigControl.save_model_dir c)
                  (train.ConfigControl.send_model_dir c)
                  (train.ConfigControl.load_optimizer_state c))) ->
  (forall s what, trace_inv P Q s -> exc (train.Outside what) s) ->
  triple (trace_inv P Q) (train.pytorch_branch w) (fun _ => trace_inv P Q) exc.
Proof.
  intros Himport Hmanager Hexc. unfold train.pytorch_branch.
  do 5 (apply triple_call_then; [ apply Himport | exact Hexc | ]).
  apply triple_get_then. intros c [ s [ [ _ Hq ] Hc ] ]. subst c.
  apply triple_call_then; [ apply Himport | exact Hexc | ].
  apply triple_call_then; [ exact (Hmanager _ Hq) | exact Hexc | ].
  apply triple_ret. intros s' Hs'. exact Hs'.
Qed.

Lemma tensorflow_branch_inv (w : train.World) (P : train.call -> Prop)
  (Q : train.ConfigControl.t -> Prop)
  (exc : train.raised -> train.state -> Prop) :
  (forall module, P (train.import_from module)) ->
  (forall c, Q c ->
             P (train.ModelManager_tensorflow (train.ConfigControl.push_to_modelpool c))) ->
  (forall s what, trace_inv P Q s -> exc (train.Outside what) s) ->
  triple (trace_inv P Q) (train.tensorflow_branch w) (fun _ => trace_inv P Q) exc.
Proof.
  intros Himport Hmanager Hexc. unfold train.tensorflow_branch.
  do 6 (apply triple_call_then; [ apply Himport | exact Hexc | ]).
  apply triple_get_then. intros c [ s [ [ _ Hq ] Hc ] ]. subst c.
  apply triple_call_then; [ exact (Hmanager _ Hq) | exact Hexc | ].
  apply triple_ret. intros s' Hs'. exact Hs'.
Qed.


Lemma filter_none {A : Type} (f : A -> bool) (l : list A) :
  Forall (fun a => f a = false) l -> List.filter f l = [].
Proof.
  induction 1 as [ | a l Ha _ IH ]; simpl; [ reflexivity | ].
  now rewrite Ha.
Qed.

(** Neither [setup_logger] nor [_run] logs an exception itself. *)
Lemma run_body_never_logs (w : train.World) (model_config : train.Config.t)
  (single_test : bool) :
  triple (trace_inv (fun c => is_log_exception c = false) (fun _ => True))
    (train.andthen (train.perform w (train.setup_logger train.train_log))
       (fun _ => train._run w model_config single_test))
    (fun _ => trace_inv (fun c => is_log_exception c = false) (fun _ => True))
    (fun _ => trace_inv (fun c => is_log_exception c = false) (fun _ => True)).
Proof.
  set (P := fun c => is_log_exception c = false).
  set (Q := fun _ : train.ConfigControl.t => True).
  assert (Hexc : forall s (what : string), trace_inv P Q s -> trace_inv P Q s)
    by (intros s _ Hs; exact Hs).
  assert (Hkeep : forall s c, trace_inv P Q s ->
                              trace_inv P Q {| train.config := c;
                                               train.calls := train.calls s |}).
  { intros s c [ Hc _ ]. split; [ exact Hc | exact I ]. }
  apply triple_call_then; [ reflexivity | exact Hexc | ].
  unfold train._run.
  apply triple_get_then. intros c0 _.
  do 3 (apply triple_call_then; [ reflexivity | exact Hexc | ]).
  apply triple_andthen with (mid := fun _ => trace_inv P Q).
  { destruct single_test.
    - intros s Hs. exact (Hkeep s _ Hs).
    - apply triple_ret. intros s Hs. exact Hs. }
  intros _.
  apply triple_andthen with (mid := fun _ => trace_inv P Q).
  { destruct (train.ConfigControl.backend c0 =? "pytorch").
    - apply pytorch_branch_inv;
        [ intros; reflexivity | intros; reflexivity | exact Hexc ].
    - destruct (train.ConfigControl.backend c0 =? "tensorflow").
      + apply tensorflow_branch_inv;
          [ intros; reflexivity | intros; reflexivity | exact Hexc ].
      + apply triple_throw. intros s Hs. exact Hs. }
  intros imported.
  do 2 (apply triple_call_then; [ reflexivity | exact Hexc | ]).
  apply triple_get_then. intros c _.
  apply triple_andthen with (mid := fun _ => trace_inv P Q).
  { destruct single_test.
    - apply triple_call_then; [ reflexivity | exact Hexc | ].
      apply triple_ret. intros s Hs. exact Hs.
    - destruct (train.list_index (train.ConfigControl.ports c) (train.local_rank w)).
      + apply triple_call_then; [ reflexivity | exact Hexc | ].
        apply triple_ret. intros s Hs. exact Hs.
      + apply triple_throw. intros s Hs. exact Hs. }
  intros d.
  do 3 (apply triple_call_then; [ reflexivity | exact Hexc | ]).
  apply triple_call_last; [ reflexivity | exact Hexc | intros s Hs; exact Hs ].
Qed.

(** X16. [run] logs a failure once and raises it again: when
    [setup_logger] and [_run] return, [run] returns with nothing logged;
    when one of them raises, [run] adds exactly one call of
    [LOG.exception], leaves the configuration as the failure left it, and
    raises the same exception (or the one [LOG.exception] raised); it
    never returns normally after a failure. *)
Theorem run_logs_and_raises_again :
  forall w model_config single_test cfg,
    match snd (train.andthen (train.perform w (train.setup_logger train.train_log))
                 (fun _ => train._run w model_config single_test)
                 {| train.config := cfg; train.calls := [] |}) with
    | inl _ =>
        train.run w model_config single_test {| train.config := cfg; train.calls := [] |}
        = train.andthen (train.perform w (train.setup_logger train.train_log))
            (fun _ => train._run w model_config single_test)
            {| train.config := cfg; train.calls := [] |} /\
        List.filter is_log_exception
          (train.calls (fst (train.run w model_config single_test
                               {| train.config := cfg; train.calls := [] |})))
        = []
    | inr e =>
        List.filter is_log_exception
          (train.calls (fst (train.run w model_config single_test
                               {| train.config := cfg; train.calls := [] |})))
        = [train.LOG_exception "learner run failed"] /\
        train.config (fst (train.run w model_config single_test
                             {| train.config := cfg; train.calls := [] |}))
        = train.config
            (fst (train.andthen (train.perform w (train.setup_logger train.train_log))
                    (fun _ => train._run w model_config single_test)
                    {| train.config := cfg; train.calls := [] |})) /\
        snd (train.run w model_config single_test
               {| train.config := cfg; train.calls := [] |})
        = inr (match train.answer w (train.LOG_exception "learner run failed") with
               | None => e
               | Some what => train.Outside what
               end)
    end.
Proof.
  intros w model_config single_test cfg.
  pose proof (run_body_never_logs w model_config single_test
                {| train.config := cfg; train.calls := [] |}
                (conj (Forall_nil _) I)) as Hinner.
  unfold train.run.
  destruct (train.andthen (train.perform w (train.setup_logger train.train_log))
              (fun _ => train._run w model_config single_test)
              {| train.config := cfg; train.calls := [] |}) as [ s' [ [] | e ] ];
    cbn [fst snd]; destruct Hinner as [ Hcalls _ ].
  - split; [ reflexivity | exact (filter_none _ _ Hcalls) ].
  - unfold train.andthen, train.perform, train.throw.
    destruct (train.answer w (train.LOG_exception "learner run failed"));
      cbn [fst snd train.calls train.config];
      rewrite filter_app, (filter_none _ _ Hcalls);
      split; [ reflexivity | split; reflexivity | reflexivity | split; reflexivity ].
Qed.

Ltac train_unfold :=
  unfold train.main, train.run, train._run, train.pytorch_branch,
    train.tensorflow_branch, train.andthen, train.get_config, train.set_config,
    train.perform, train.ret, train.throw.

(** X17. A backend other than pytorch and tensorflow is refused late and
    cleanly: [_run] calls nothing but [os.makedirs], never returns
    normally, and, when the three directories could be made, raises
    NotImplementedError after making them, with push_to_modelpool already
    set to False in a test run. *)
Theorem unsupported_backend_raises :
  forall w model_config single_test cfg,
    train.ConfigControl.backend cfg <> "pytorch" ->
    train.ConfigControl.backend cfg <> "tensorflow" ->
    Forall (fun c => is_makedirs c = true)
      (train.calls (fst (train._run w model_config single_test
                           {| train.config := cfg; train.calls := [] |}))) /\
    snd (train._run w model_config single_test
           {| train.config := cfg; train.calls := [] |}) <> inl tt /\
    ((forall path, train.answer w (train.makedirs path) = None) ->
     train._run w model_config single_test {| train.config := cfg; train.calls := [] |}
     = ({| train.config :=
             if single_test then train.set_push_to_modelpool cfg (VBool false)
             else cfg;
           train.calls :=
             [train.makedirs (train.ConfigControl.save_model_dir cfg);
              train.makedirs (train.ConfigControl.train_dir cfg);
              train.makedirs (train.ConfigControl.send_model_dir cfg)] |},
        inr (train.NotImplementedError
               "Support backend in [pytorch, tensorflow], Check your training backend..."))).
Proof.
  intros w model_config single_test cfg Hp Ht.
  apply String.eqb_neq in Hp, Ht.
  train_unfold. cbn -[String.eqb].
  destruct (train.answer w (train.makedirs (train.ConfigControl.save_model_dir cfg)))
    eqn:E1; cbn -[String.eqb].
  { split; [ repeat constructor | split; [ discriminate | ] ].
    intros Hall. rewrite Hall in E1. discriminate. }
  destruct (train.answer w (train.makedirs (train.ConfigControl.train_dir cfg)))
    eqn:E2; cbn -[String.eqb].
  { split; [ repeat constructor | split; [ discriminate | ] ].
    intros Hall. rewrite Hall in E2. discriminate. }
  destruct (train.answer w (train.makedirs (train.ConfigControl.send_model_dir cfg)))
    eqn:E3; cbn -[String.eqb].
  { split; [ repeat constructor | split; [ discriminate | ] ].
    intros Hall. rewrite Hall in E3. discriminate. }
  destruct single_test; cbn -[String.eqb]; rewrite Hp, Ht; cbn;
    (split; [ repeat constructor | split; [ discriminate | intros _; reflexivity ] ]).
Qed.

Lemma unsupported_backend_raises_witness :
  train._run (calm_world 0 (example_config_control "mxnet")) (example_config "mxnet")
    true {| train.config := example_config_control "mxnet"; train.calls := [] |}
  = ({| train.config :=
          train.set_push_to_modelpool (example_config_control "mxnet") (VBool false);
        train.calls :=
          [train.makedirs "/aiarena/checkpoints";
           train.makedirs "/aiarena/logs/learner";
           train.makedirs "/aiarena/backup"] |},
     inr (train.NotImplementedError
            "Support backend in [pytorch, tensorflow], Check your training backend...")).
Proof.
  assert (Hp : train.ConfigControl.backend (example_config_control "mxnet") <> "pytorch")
    by discriminate.
  assert (Ht : train.ConfigControl.backend (example_config_control "mxnet") <> "tensorflow")
    by discriminate.
  exact (proj2 (proj2 (unsupported_backend_raises
                         (calm_world 0 (example_config_control "mxnet"))
                         (example_config "mxnet") true
                         (example_config_control "mxnet") Hp Ht))
           (fun _ => eq_refl)).
Defined.

(** X18. A training run listens on the port of its rank: with
    [single_test] off, a supported backend and every call returning,
    [_run] builds the ZMQ dataset on [ports[local_rank]] (a negative rank
    counting from the end), hands that dataset to the benchmark and runs
    it, the configuration untouched; when the rank is outside the list it
    raises IndexError once the model manager, the adapter and the node
    info exist, and builds no dataset and no benchmark. *)
Theorem training_port_is_rank_port :
  forall w model_config cfg,
    (forall c, train.answer w c = None) ->
    train.ConfigControl.backend cfg = "pytorch" \/
    train.ConfigControl.backend cfg = "tensorflow" ->
    train.config (fst (train._run w model_config false
                         {| train.config := cfg; train.calls := [] |})) = cfg /\
    match train.list_index (train.ConfigControl.ports cfg) (train.local_rank w) with
    | Some port =>
        snd (train._run w model_config false
               {| train.config := cfg; train.calls := [] |}) = inl tt /\
        exists before zmq algorithm benchmark,
          train.calls (fst (train._run w model_config false
                              {| train.config := cfg; train.calls := [] |}))
          = before ++
            [train.NetworkDataset (train.ZMQ zmq port) cfg;
             train.Algorithm algorithm;
             train.LogManager;
             train.Benchmark benchmark (train.ZMQ zmq port) cfg
               (train.Config.slow_time model_config);
             train.Benchmark_run] /\
          Forall before_dataset before
    | None =>
        snd (train._run w model_config false
               {| train.config := cfg; train.calls := [] |})
        = inr (train.IndexError "list index out of range") /\
        Forall before_dataset
          (train.calls (fst (train._run w model_config false
                               {| train.config := cfg; train.calls := [] |}))) /\
        exists before module,
          train.calls (fst (train._run w model_config false
                              {| train.config := cfg; train.calls := [] |}))
          = before ++ [train.NodeInfo module]
    end.
Proof.
  intros w model_config cfg Hall Hbackend.
  train_unfold. cbn -[String.eqb train.list_index].
  destruct Hbackend as [ Hb | Hb ]; rewrite Hb;
    [ rewrite String.eqb_refl
    | change ("tensorflow" =? "pytorch") with false; rewrite String.eqb_refl ];
    cbn -[String.eqb train.list_index]; rewrite !Hall;
    cbn -[String.eqb train.list_index];
    destruct (train.list_index (train.ConfigControl.ports cfg) (train.local_rank w))
      as [ port | ];
    cbn -[String.eqb train.list_index]; rewrite ?Hall;
    cbn -[String.eqb train.list_index];
    (split; [ reflexivity | split; [ reflexivity | ] ]).
  - do 4 eexists. split.
    + match goal with
      | |- ?a :: ?b :: ?c :: ?d :: ?e :: ?f :: ?g :: ?h :: ?i :: ?j :: ?k :: ?l :: ?rest = _ =>
          change (a :: b :: c :: d :: e :: f :: g :: h :: i :: j :: k :: l :: rest)
            with ([a; b; c; d; e; f; g; h; i; j; k; l] ++ rest)
      end.
      reflexivity.
    + repeat constructor.
  - split; [ repeat constructor | ].
    do 2 eexists.
    match goal with
    | |- ?a :: ?b :: ?c :: ?d :: ?e :: ?f :: ?g :: ?h :: ?i :: ?j :: ?k :: ?rest = _ =>
        change (a :: b :: c :: d :: e :: f :: g :: h :: i :: j :: k :: rest)
          with ([a; b; c; d; e; f; g; h; i; j; k] ++ rest)
    end.
    reflexivity.
  - do 4 eexists. split.
    + match goal with
      | |- ?a :: ?b :: ?c :: ?d :: ?e :: ?f :: ?g :: ?h :: ?i :: ?j :: ?k :: ?l :: ?rest = _ =>
          change (a :: b :: c :: d :: e :: f :: g :: h :: i :: j :: k :: l :: rest)
            with ([a; b; c; d; e; f; g; h; i; j; k; l] ++ rest)
      end.
      reflexivity.
    + repeat constructor.
  - split; [ repeat constructor | ].
    do 2 eexists.
    match goal with
    | |- ?a :: ?b :: ?c :: ?d :: ?e :: ?f :: ?g :: ?h :: ?i :: ?j :: ?k :: ?rest = _ =>
        change (a :: b :: c :: d :: e :: f :: g :: h :: i :: j :: k :: rest)
          with ([a; b; c; d; e; f; g; h; i; j; k] ++ rest)
    end.
    reflexivity.
Qed.

Lemma training_port_is_rank_port_witness :
  train.config
    (fst (train._run (calm_world 1 (example_config_control "pytorch"))
            (example_config "pytorch") false
            {| train.config := example_config_control "pytorch"; train.calls := [] |}))
  = example_config_control "pytorch" /\
  snd (train._run (calm_world 1 (example_config_control "pytorch"))
         (example_config "pytorch") false
         {| train.config := example_config_control "pytorch"; train.calls := [] |})
  = inl tt /\
  exists before zmq algorithm benchmark,
    train.calls
      (fst (train._run (calm_world 1 (example_config_control "pytorch"))
              (example_config "pytorch") false
              {| train.config := example_config_control "pytorch"; train.calls := [] |}))
    = before ++
      [train.NetworkDataset (train.ZMQ zmq (VInt 35201)) (example_config_control "pytorch");
       train.Algorithm algorithm;
       train.LogManager;
       train.Benchmark benchmark (train.ZMQ zmq (VInt 35201))
         (example_config_control "pytorch") (VFloat 0);
       train.Benchmark_run] /\
    Forall before_dataset before.
Proof.
  exact (training_port_is_rank_port (calm_world 1 (example_config_control "pytorch"))
           (example_config "pytorch") (example_config_control "pytorch")
           (fun _ => eq_refl) (or_introl eq_refl)).
Defined.

(** A rank past the end of the list, and the last port by rank -1. *)
Example training_port_out_of_range :
  snd (train._run (calm_world 2 (example_config_control "tensorflow"))
         (example_config "tensorflow") false
         {| train.config := example_config_control "tensorflow"; train.calls := [] |})
  = inr (train.IndexError "list index out of range") /\
  train.list_index [VInt 35200; VInt 35201] (-1) = Some (VInt 35201) /\
  train.list_index [VInt 35200; VInt 35201] (-3) = None.
Proof. split; [ | split ]; reflexivity. Qed.

(** X19. What common.conf says about the backend, the initial model and
    the optimizer state does not count: [main] overwrites these four
    attributes with those of [Config], so two loaded configurations that
    agree on every other attribute, those the file reads and all the
    others the object carries, give the same calls, the same final
    configuration and the same result. *)
Theorem main_overrides_loaded_backend :
  forall w Config single_test s c,
    train.ConfigControl.save_model_dir c
    = train.ConfigControl.save_model_dir (train.loaded w) ->
    train.ConfigControl.train_dir c = train.ConfigControl.train_dir (train.loaded w) ->
    train.ConfigControl.send_model_dir c
    = train.ConfigControl.send_model_dir (train.loaded w) ->
    train.ConfigControl.push_to_modelpool c
    = train.ConfigControl.push_to_modelpool (train.loaded w) ->
    train.ConfigControl.distributed_backend c
    = train.ConfigControl.distributed_backend (train.loaded w) ->
    train.ConfigControl.ports c = train.ConfigControl.ports (train.loaded w) ->
    train.ConfigControl.others c = train.ConfigControl.others (train.loaded w) ->
    train.main (with_loaded w c) Config single_test s
    = train.main w Config single_test s.
Proof.
  intros w Config single_test s c H1 H2 H3 H4 H5 H6 H7.
  unfold train.main. cbn [with_loaded train.loaded train.config_path].
  rewrite H1, H2, H3, H4, H5, H6, H7. reflexivity.
Qed.

Lemma main_overrides_loaded_backend_witness :
  train.main
    (with_loaded (calm_world 0 (example_config_control "tensorflow"))
       (example_config_control "mxnet"))
    (example_config "pytorch") true
    {| train.config := example_config_control "mxnet"; train.calls := [] |}
  = train.main (calm_world 0 (example_config_control "tensorflow"))
      (example_config "pytorch") true
      {| train.config := example_config_control "mxnet"; train.calls := [] |}.
Proof.
  exact (main_overrides_loaded_backend
           (calm_world 0 (example_config_control "tensorflow"))
           (example_config "pytorch") true
           {| train.config := example_config_control "mxnet"; train.calls := [] |}
           (example_config_control "mxnet")
           eq_refl eq_refl eq_refl eq_refl eq_refl eq_refl eq_refl).
Defined.
